(** * QualMod: extraction, cleaning and simulation notebooks

    A shallow embedding of the notebooks of the repository:
    - [1. ExportSubData.ipynb]: the monetary and the medical extraction loops;
    - [4.1.PriorSensCheck.ipynb]: the dense subject numbering and the
      model-fitting functions;
    - [5.simulation_model_check.ipynb]: [sim_data], [Utility],
      [estimate_value] and the simulation grid loop.

    Numbers.  A pandas cell is an integer, a float, NaN, a Boolean or a
    string.  Integers are [Z]; the floats stored in a frame are real
    numbers [R], and NaN is a cell of its own.  The arithmetic of the
    choice rule is done on [float64] values: a real number, an infinity or
    NaN, with the special cases of the float operations ([0 ** y], a
    negative base, division by zero, [inf * 0]).  Rounding and overflow are
    left out and zero has no sign; where float64 rounds the logistic
    function to exactly 0 or 1 the real number lies strictly between, so
    the properties of probabilities below are stated with bounds that
    include 0 and 1 and hold in both readings.  Random draws are explicit
    arguments. *)

From Stdlib Require Import ZArith String Ascii Bool List Lia.
From Stdlib Require Import Reals Lra.
Import ListNotations.

Local Open Scope string_scope.
Local Open Scope list_scope.
Local Open Scope Z_scope.

(** ** Python exceptions and results *)

Inductive exn : Type :=
| IndexError
| KeyError (key : string)
| TypeError
| ValueError
| ZeroDivisionError
| IOError
| OtherError (msg : string).

(** A computation that either raises or returns. *)
Definition result (A : Type) : Type := (exn + A)%type.

Definition ok {A} (a : A) : result A := inr a.
Definition raise {A} (e : exn) : result A := inl e.

Definition rbind {A B} (c : result A) (k : A -> result B) : result B :=
  match c with
  | inl e => inl e
  | inr a => k a
  end.

Declare Scope result_scope.
Delimit Scope result_scope with result.
Notation "x <- c ;; k" := (rbind c (fun x => k))
  (at level 61, c at next level, right associativity) : result_scope.

Fixpoint mapM {A B} (f : A -> result B) (l : list A) : result (list B) :=
  match l with
  | [] => ok []
  | a :: t => rbind (f a) (fun b => rbind (mapM f t) (fun bs => ok (b :: bs)))
  end.

(** Python indexing [l[i]] for a non-negative index. *)
Definition index {A} (l : list A) (i : nat) : result A :=
  match nth_error l i with
  | Some a => ok a
  | None => raise IndexError
  end.

(** ** Data frames *)

Module Pandas.

Inductive cell : Type :=
| Int (z : Z)
| Float (x : R)
| NaN
| Boolean (b : bool)
| Str (s : string).

Definition column : Type := list cell.

(** A frame is the list of its named columns, in column order. *)
Definition dataframe : Type := list (string * column).

Definition empty : dataframe := [].

Definition columns (df : dataframe) : list string := map fst df.

Definition nrows (df : dataframe) : nat :=
  match df with
  | [] => O
  | (_, c) :: _ => length c
  end.

Fixpoint lookup (df : dataframe) (name : string) : option column :=
  match df with
  | [] => None
  | (n, c) :: rest => if String.eqb n name then Some c else lookup rest name
  end.

(** Every column of a frame has as many entries as the frame has rows. *)
Definition wf (df : dataframe) : Prop :=
  Forall (fun p => length (snd p) = nrows df) df.

(** [df[name]] *)
Definition getitem (df : dataframe) (name : string) : result column :=
  match lookup df name with
  | Some c => ok c
  | None => raise (KeyError name)
  end.

(** [df[name] = col] for a column of the right length: an existing column
    is replaced in place, a new one is appended. *)
Fixpoint assign (df : dataframe) (name : string) (c : column) : dataframe :=
  match df with
  | [] => [(name, c)]
  | (n, c0) :: rest =>
      if String.eqb n name then (n, c) :: rest
      else (n, c0) :: assign rest name c
  end.

(** Index alignment of a Series or one-column frame with a RangeIndex onto
    [n] rows: labels beyond the target are dropped, missing ones are NaN. *)
Fixpoint reindex (n : nat) (c : column) : column :=
  match n with
  | O => []
  | S n' =>
      match c with
      | [] => NaN :: reindex n' []
      | x :: t => x :: reindex n' t
      end
  end.

(** [df[name] = series] *)
Definition setitem_series (df : dataframe) (name : string) (c : column)
  : dataframe :=
  assign df name (reindex (nrows df) c).

(** [df[name] = scalar] *)
Definition setitem_scalar (df : dataframe) (name : string) (v : cell)
  : dataframe :=
  assign df name (repeat v (nrows df)).

(** [pd.concat([df1, df2])]: rows of [df2] under those of [df1]; a column
    one side lacks is filled with NaN. *)
Definition column_or_nan (df : dataframe) (name : string) : column :=
  match lookup df name with
  | Some c => c
  | None => repeat NaN (nrows df)
  end.

Definition mem (name : string) (l : list string) : bool :=
  existsb (String.eqb name) l.

Definition concat (df1 df2 : dataframe) : dataframe :=
  let names :=
    columns df1 ++ filter (fun n => negb (mem n (columns df1))) (columns df2) in
  map (fun n => (n, column_or_nan df1 n ++ column_or_nan df2 n)) names.

(** [df.to_csv(path)] writes the index as a first, unnamed column. *)
Definition to_csv_header (df : dataframe) : list string :=
  "" :: columns df.

(** *** Dense rank

    [Series.rank(method='dense')]: the rank of an entry is the number of
    distinct values of the series that are at most that entry.  The
    notebooks rank integer columns only ([sub], [value]). *)
Definition count_le (u : list Z) (x : Z) : nat :=
  length (filter (fun y => y <=? x) u).

Definition rank_of (xs : list Z) (x : Z) : Z :=
  Z.of_nat (count_le (nodup Z.eq_dec xs) x).

Definition rank_dense (xs : list Z) : list Z := map (rank_of xs) xs.

(** The entries of an integer column; any other cell stops the model. *)
Definition as_int (c : cell) : result Z :=
  match c with
  | Int z => ok z
  | NaN => raise ValueError
  | _ => raise TypeError
  end.

Definition ints (c : column) : result (list Z) := mapM as_int c.

(** [Series.unique().shape[0]] on an integer column. *)
Definition nunique (xs : list Z) : nat := length (nodup Z.eq_dec xs).

End Pandas.

(** ** Code that works on one frame object

    [DF A] is a computation that may read and update the frame object it is
    run on, and returns or raises. *)

Definition DF (A : Type) : Type :=
  Pandas.dataframe -> Pandas.dataframe * result A.

Definition ret {A} (a : A) : DF A := fun df => (df, ok a).

Definition throw {A} (e : exn) : DF A := fun df => (df, raise e).

Definition bind {A B} (c : DF A) (k : A -> DF B) : DF B :=
  fun df =>
    match c df with
    | (df', inl e) => (df', inl e)
    | (df', inr a) => k a df'
    end.

Definition lift {A} (r : result A) : DF A := fun df => (df, r).

(** [df[name]] *)
Definition read (name : string) : DF Pandas.column :=
  fun df => (df, Pandas.getitem df name).

(** [df[name] = series] *)
Definition write (name : string) (c : Pandas.column) : DF unit :=
  fun df => (Pandas.setitem_series df name c, ok tt).

(** A computation that leaves the frame object as it found it, whether it
    returns or raises. *)
Definition leaves_unchanged {A} (c : DF A) : Prop :=
  forall df, fst (c df) = df.


Declare Scope df_scope.
Delimit Scope df_scope with df.
Notation "x <- c ;; k" := (bind c (fun x => k))
  (at level 61, c at next level, right associativity) : df_scope.
Notation "c ;;; k" := (bind c (fun _ => k))
  (at level 61, right associativity) : df_scope.

(** ** Floating-point operations *)

Module Numpy.
Import Pandas.

Local Open Scope R_scope.

Definition Rltb (x y : R) : bool := if Rlt_dec x y then true else false.
Definition Reqb (x y : R) : bool := if Req_dec_T x y then true else false.

(** Truncation towards zero, [int(x)]. *)
Definition floor (x : R) : Z := (up x - 1)%Z.
Definition trunc (x : R) : Z :=
  if Rltb x 0 then (- floor (- x))%Z else floor x.

(** [np.clip(x, lo, hi)] *)
Definition clip (x lo hi : R) : R := Rmin (Rmax x lo) hi.

(** A float64 value. *)
Inductive float64 : Type :=
| Fin (x : R)
| Inf (negative : bool)
| Nan.

(** A numeric cell read as a float: [None] is NaN. *)
Definition of_option (x : option R) : float64 :=
  match x with
  | Some x => Fin x
  | None => Nan
  end.

Definition is_integer (y : R) : bool := Reqb y (IZR (floor y)).

(** [x ** y] with a float exponent that is a number: any base to the power
    0 is 1; a positive base gives [exp(y * ln x)]; base 0 gives 0 for a
    positive and infinity for a negative exponent; a negative base gives
    NaN unless the exponent is a whole number. *)
Definition pow (x : float64) (y : R) : float64 :=
  if Reqb y 0 then Fin 1
  else
    match x with
    | Nan => Nan
    | Fin x =>
        if Rltb 0 x then Fin (Rpower x y)
        else if Reqb x 0 then (if Rltb 0 y then Fin 0 else Inf false)
        else if is_integer y then Fin (powerRZ x (floor y))
        else Nan
    | Inf false => if Rltb 0 y then Inf false else Fin 0
    | Inf true =>
        if Rltb 0 y then Inf (is_integer y && Z.odd (floor y)) else Fin 0
    end.

Definition fneg (a : float64) : float64 :=
  match a with
  | Fin x => Fin (- x)
  | Inf s => Inf (negb s)
  | Nan => Nan
  end.

(** [a + b] and [a - b] *)
Definition fadd (a b : float64) : float64 :=
  match a, b with
  | Fin x, Fin y => Fin (x + y)
  | Inf s, Fin _ => Inf s
  | Fin _, Inf s => Inf s
  | Inf s, Inf s' => if Bool.eqb s s' then Inf s else Nan
  | _, _ => Nan
  end.

Definition fsub (a b : float64) : float64 := fadd a (fneg b).

(** [a * b] *)
Definition fmul (a b : float64) : float64 :=
  match a, b with
  | Fin x, Fin y => Fin (x * y)
  | Inf s, Fin y => if Reqb y 0 then Nan else Inf (xorb s (Rltb y 0))
  | Fin x, Inf s => if Reqb x 0 then Nan else Inf (xorb s (Rltb x 0))
  | Inf s, Inf s' => Inf (xorb s s')
  | _, _ => Nan
  end.

(** [a / b] on arrays: dividing by zero gives an infinity, or NaN for
    [0 / 0]. *)
Definition fdiv (a b : float64) : float64 :=
  match a, b with
  | Fin x, Fin y =>
      if Reqb y 0 then (if Reqb x 0 then Nan else Inf (Rltb x 0))
      else Fin (x / y)
  | Fin _, Inf _ => Fin 0
  | Inf s, Fin y => Inf (xorb s (Rltb y 0))
  | _, _ => Nan
  end.

(** What a binomial draw is given as its probability, when it is not out
    of range: NaN or a number between 0 and 1. *)
Definition probability_or_nan (p : float64) : Prop :=
  p = Nan \/ exists q, p = Fin q /\ 0 <= q <= 1.

(** [scipy.special.expit], the logistic function.  In float64 the value
    is rounded, to exactly 1 for large arguments. *)
Definition expit (x : float64) : float64 :=
  match x with
  | Fin x => Fin (1 / (1 + exp (- x)))
  | Inf false => Fin 1
  | Inf true => Fin 0
  | Nan => Nan
  end.

(** Element-wise binary operation on two arrays of one length. *)
Fixpoint map2 {A B C} (f : A -> B -> C) (l1 : list A) (l2 : list B) : list C :=
  match l1, l2 with
  | a :: t1, b :: t2 => f a b :: map2 f t1 t2
  | _, _ => []
  end.

(** [np.tile(a, n)] *)
Fixpoint tile {A} (a : list A) (n : nat) : list A :=
  match n with
  | O => []
  | S n' => a ++ tile a n'
  end.

(** [np.repeat(a, k)] *)
Definition repeat_each {A} (a : list A) (k : nat) : list A :=
  flat_map (fun x => repeat x k) a.

(** [np.arange(n)] *)
Definition arange (n : nat) : list Z := map Z.of_nat (seq 0 n).

(** The value of a numeric cell as a float; [None] is NaN. *)
Definition to_float (c : cell) : result (option R) :=
  match c with
  | Int z => ok (Some (IZR z))
  | Float x => ok (Some x)
  | NaN => ok None
  | Boolean b => ok (Some (if b then 1 else 0))
  | Str _ => raise TypeError
  end.

(** [series.values] of a numeric column. *)
Definition values (c : column) : result (list (option R)) := mapM to_float c.

(** [series > k] *)
Definition gt_scalar (k : Z) (c : cell) : result cell :=
  match c with
  | Int z => ok (Boolean (k <? z)%Z)
  | Float x => ok (Boolean (Rltb (IZR k) x))
  | NaN => ok (Boolean false)
  | Boolean b => ok (Boolean (k <? (if b then 1 else 0))%Z)
  | Str _ => raise TypeError
  end.

(** [series.astype(int)] *)
Definition astype_int (c : cell) : result cell :=
  match c with
  | Int z => ok (Int z)
  | Float x => ok (Int (trunc x))
  | NaN => raise ValueError
  | Boolean b => ok (Int (if b then 1 else 0))
  | Str _ => raise ValueError
  end.

End Numpy.

(** ** 1. ExportSubData.ipynb *)

Module ExportSubData.
Import Pandas Numpy.

Local Open Scope result_scope.

(** The part of a loaded MAT structure the notebook reads.  [trials] is
    field 17: blocks, then trials, then the fields of a trial, each an
    array of strings. *)
Record mat_struct : Type := {
  vals : column;            (* field 8 *)
  risk : column;            (* field 9 *)
  ambiguity : column;       (* field 10 *)
  trials : list (list (list (list string)));
  rt : column
}.

(** A file matched by the glob pattern, with what [sio.loadmat] gives. *)
Record mat_file : Type := {
  mat_fname : string;
  loadmat : result mat_struct
}.

(** [s.split(sep)] *)
Fixpoint split (sep : ascii) (s : string) : list string :=
  match s with
  | EmptyString => [EmptyString]
  | String c rest =>
      if Ascii.eqb c sep then EmptyString :: split sep rest
      else
        match split sep rest with
        | [] => [String c EmptyString]
        | w :: ws => String c w :: ws
        end
  end.

(** What a cell prints. *)
Inductive line : Type :=
| PrintCatch (sub : string) (catch : cell)   (* [print(sub, catch)] *)
| PrintFailed (sub : string).                (* [print("failed choice", sub)] *)

(** The labels that tell the two tasks apart. *)
Record labels : Type := {
  zero_label : string;
  reference_label : string;
  lottery_label : string
}.

Definition monetary : labels :=
  {| zero_label := "$0"; reference_label := "Reference";
     lottery_label := "Lottery" |}.

Definition medical : labels :=
  {| zero_label := "no effect";
     reference_label := "Conservative treatment: Slight improvement";
     lottery_label := "Experimental treatment" |}.

(** One pass of the inner loop: the choice and the value text of trial [i]
    of block [j]. *)
Definition read_trial (L : labels) (mat : mat_struct) (ji : nat * nat)
  : result (string * string) :=
  let (j, i) := ji in
  b <- index (trials mat) j ;;
  t <- index b i ;;
  f0 <- index t 0 ;;
  c <- index f0 0 ;;
  f2 <- index t 2 ;;
  v2 <- index f2 0 ;;
  if String.eqb v2 (zero_label L) then
    f3 <- index t 3 ;;
    v3 <- index f3 0 ;;
    ok (c, v3)
  else ok (c, v2).

(** [for j in range(4): for i in range(21): ...] *)
Definition read_trials (L : labels) (mat : mat_struct)
  : result (list (string * string)) :=
  mapM (read_trial L mat) (list_prod (seq 0 4) (seq 0 21)).

(** [series.replace([old], new)] *)
Definition replace (old : string) (new : cell) (c : column) : column :=
  map (fun x => match x with
                | Str s => if String.eqb s old then new else x
                | _ => x
                end) c.

(** The three recoding statements in order.  pandas stores a recoded
    column that holds NaN as float64, so that 0 and 1 are kept as 0.0 and
    1.0 there; the cells of the model hold the same numbers as integers. *)
Definition recode (L : labels) (c : column) : column :=
  replace "None" NaN (replace (lottery_label L) (Int 1)
                        (replace (reference_label L) (Int 0) c)).

(** [series == 5] *)
Definition eq5 (c : cell) : bool :=
  match c with
  | Int z => z =? 5
  | Float x => Reqb x 5
  | Boolean _ | NaN | Str _ => false
  end.

(** [choice[value == 5]] *)
Fixpoint mask (choice value : column) : column :=
  match choice, value with
  | c :: cs, v :: vs => if eq5 v then c :: mask cs vs else mask cs vs
  | _, _ => []
  end.

Definition add (acc x : cell) : result cell :=
  match acc, x with
  | _, NaN => ok acc
  | Int a, Int b => ok (Int (a + b))
  | Int a, Float y => ok (Float (IZR a + y))
  | Float a, Int b => ok (Float (a + IZR b))
  | Float a, Float y => ok (Float (a + y))
  | Int a, Boolean b => ok (Int (a + (if b then 1 else 0)))
  | Float a, Boolean b => ok (Float (a + (if b then 1 else 0)))
  | _, _ => raise TypeError
  end.

(** [np.nansum] *)
Fixpoint nansum_from (acc : cell) (c : column) : result cell :=
  match c with
  | [] => ok acc
  | x :: t => acc' <- add acc x ;; nansum_from acc' t
  end.

Definition nansum (c : column) : result cell := nansum_from (Int 0) c.

(** [catch > 5] *)
Definition gt5 (c : cell) : result bool :=
  match c with
  | Int z => ok (5 <? z)
  | Float x => ok (Rltb 5 x)
  | NaN => ok false
  | Boolean _ => ok false
  | Str _ => raise TypeError
  end.

(** The statements of a loop body after the trials were read: the table
    of one participant and what is printed. *)
Definition subject_table (L : labels) (mat : mat_struct) (sub : string)
  (cv : list (string * string)) : result (dataframe * list line) :=
  let db : dataframe :=
    [("choice", map (fun p => Str (fst p)) cv);
     ("value", map (fun p => Str (snd p)) cv)] in
  let db := setitem_series db "value" (vals mat) in
  let db := setitem_series db "risk" (risk mat) in
  let db := setitem_series db "ambiguity" (ambiguity mat) in
  let db := setitem_scalar db "sub" (Str sub) in
  choice <- getitem db "choice" ;;
  let db := setitem_series db "choice" (recode L choice) in
  let db := setitem_series db "rt" (rt mat) in
  choice <- getitem db "choice" ;;
  value <- getitem db "value" ;;
  catch <- nansum (mask choice value) ;;
  failed <- gt5 catch ;;
  let out := if failed then [PrintCatch sub catch] else [] in
  let db := setitem_scalar db "catch" catch in
  ok (db, out).

(** [sub = mat_fname.split('_')[5]] *)
Definition subject_of (fname : string) : result string :=
  index (split "_"%char fname) 5.

(** The body of the monetary loop. *)
Definition monetary_body (f : mat_file) : result (dataframe * list line) :=
  mat <- loadmat f ;;
  sub <- subject_of (mat_fname f) ;;
  cv <- read_trials monetary mat ;;
  subject_table monetary mat sub cv.

(** The state of a running cell: the global [df] and the output so far. *)
Record cell_state : Type := {
  df : dataframe;
  stdout : list line
}.

(** How a cell ends: it runs to its end, or an exception stops it. *)
Inductive outcome : Type :=
| Finished
| Raised (e : exn).

Fixpoint monetary_loop (files : list mat_file) (st : cell_state)
  : cell_state * outcome :=
  match files with
  | [] => (st, Finished)
  | f :: rest =>
      match monetary_body f with
      | inl e => (st, Raised e)
      | inr (db, out) =>
          monetary_loop rest
            {| df := concat (df st) db; stdout := stdout st ++ out |}
      end
  end.

(** The body of the medical loop: the two nested [for] loops are inside
    [try], the [except] branch prints and goes on to the next file. *)
Inductive step : Type :=
| Skip (out : list line)                      (* [continue] *)
| Rows (db : dataframe) (out : list line)
| Abort (e : exn).

Definition medical_body (f : mat_file) : step :=
  match loadmat f with
  | inl e => Abort e
  | inr mat =>
      match subject_of (mat_fname f) with
      | inl e => Abort e
      | inr sub =>
          match read_trials medical mat with
          | inl _ => Skip [PrintFailed sub]
          | inr cv =>
              match subject_table medical mat sub cv with
              | inl e => Abort e
              | inr (db, out) => Rows db out
              end
          end
      end
  end.

Fixpoint medical_loop (files : list mat_file) (st : cell_state)
  : cell_state * outcome :=
  match files with
  | [] => (st, Finished)
  | f :: rest =>
      match medical_body f with
      | Abort e => (st, Raised e)
      | Skip out =>
          medical_loop rest {| df := df st; stdout := stdout st ++ out |}
      | Rows db out =>
          medical_loop rest
            {| df := concat (df st) db; stdout := stdout st ++ out |}
      end
  end.

(** [df = pd.DataFrame()] before each loop. *)
Definition start : cell_state := {| df := empty; stdout := [] |}.

(** [df.to_csv('data/mon.csv')], [df.to_csv('data/med.csv')]: the header
    line of the written file. *)
Definition mon_csv_header (files : list mat_file) : list string :=
  to_csv_header (df (fst (monetary_loop files start))).

Definition med_csv_header (files : list mat_file) : list string :=
  to_csv_header (df (fst (medical_loop files start))).

(** *** File names and output lines *)

(** A name matched by [glober]: the pattern with its two wildcards filled
    in, for the monetary and for the medical task. *)
Definition glob_prefix : string :=
  "/media/Data/Lab_Projects/Aging/behavioral/Risk_and_Ambiguity_new/AG_".

Definition monetary_fname (a b : string) : string :=
  String.append glob_prefix
    (String.append a (String.append "_RA/MDM_MON_" (String.append b ".mat"))).

Definition medical_fname (a b : string) : string :=
  String.append glob_prefix
    (String.append a (String.append "_RA/MDM_MED_" (String.append b ".mat"))).

(** Whether a character occurs in a text. *)
Fixpoint occurs (c : ascii) (s : string) : bool :=
  match s with
  | EmptyString => false
  | String d rest => Ascii.eqb d c || occurs c rest
  end.

(** A structure cut down to what the loops visit: the first four blocks
    and the first 21 trials of each. *)
Definition visited (mat : mat_struct) : mat_struct :=
  {| vals := vals mat; risk := risk mat; ambiguity := ambiguity mat;
     trials := map (firstn 21) (firstn 4 (trials mat));
     rt := rt mat |}.


(** Whether the medical loop keeps the rows of a file. *)
Definition kept (f : mat_file) : bool :=
  match medical_body f with
  | Rows _ _ => true
  | _ => false
  end.

(** The [sub] entries of the tables of a list of subjects, 84 each. *)
Definition sub_rows (subs : list string) : column :=
  flat_map (fun s => repeat (Str s) 84) subs.


(** The number of occurrences of a character in a text. *)
Fixpoint count_char (c : ascii) (s : string) : nat :=
  match s with
  | EmptyString => O
  | String d rest => (if Ascii.eqb d c then 1 else 0) + count_char c rest
  end.


(** The number of ["failed choice"] lines in an output. *)
Definition is_failed (l : line) : bool :=
  match l with
  | PrintFailed _ => true
  | PrintCatch _ _ => false
  end.

Definition failed_lines (out : list line) : nat :=
  length (filter is_failed out).

(** The number of catch trials of a value column. *)
Definition catch_trials (value : column) : nat :=
  length (filter eq5 value).


(** *** Vocabulary of the analysis *)

(** The responses a task records. *)
Definition vocabulary (L : labels) : list string :=
  [reference_label L; lottery_label L; "None"].

(** What the three replacements do to one raw response. *)
Definition recode_text (L : labels) (s : string) : cell :=
  if String.eqb s (reference_label L) then Int 0
  else if String.eqb s (lottery_label L) then Int 1
  else if String.eqb s "None" then NaN
  else Str s.

(** The number of catch trials (value 5) on which the lottery was chosen,
    counted on the raw responses. *)
Definition lottery_on_catch (L : labels) (cv : list (string * string))
  (value : column) : Z :=
  Z.of_nat
    (length
       (filter (fun p => eq5 (snd p) && String.eqb (fst (fst p)) (lottery_label L))
          (combine cv value))).

(** The columns the data description lists. *)
Definition documented_columns : list string :=
  [ "choice"; "value"; "risk"; "ambiguity"; "sub"; "rt"; "catch"; "gender";
    "age"; "moca_score"; "ageZ"; "subn"; "level"; "l1"; "l2"; "l3"; "l4" ].

(** The columns the loops build. *)
Definition extracted_columns : list string :=
  [ "choice"; "value"; "risk"; "ambiguity"; "sub"; "rt"; "catch" ].

End ExportSubData.

(** ** The choice models handed to the sampler *)

Module PyMC.
Import Pandas Numpy.

Local Open Scope R_scope.

(** A distribution parameter: a number or an earlier random variable. *)
Inductive param : Type :=
| Const (x : R)
| Var (name : string).

Inductive dist : Type :=
| TruncatedNormal (mu sigma : param) (lower upper : option R)
| Normal (mu sigma : param)
| Gamma (alpha beta : param)
| Beta (alpha beta : param)
| LogNormal (mu sigma : param)
| Uniform (lower upper : param).

Record rv : Type := {
  rv_name : string;
  rv_dist : dist;
  rv_shape : option Z
}.

(** A point of the parameter space: the value of each variable at each
    position (a scalar variable is read at position 0). *)
Definition point : Type := string -> Z -> R.

(** A model with a [Binomial('choice', 1, mu, observed=...)] likelihood:
    [mu] gives the success probabilities at a point. *)
Record model : Type := {
  free_rvs : list rv;
  mu : point -> list float64;
  observed : column
}.

(** [pm.invlogit] *)
Definition invlogit (x : float64) : float64 :=
  match x with
  | Fin x => Fin (1 / (1 + exp (- x)))
  | Inf false => Fin 1
  | Inf true => Fin 0
  | Nan => Nan
  end.

(** One observation: the three trial features and the subject index. *)
Record obs : Type := {
  o_a : option R;
  o_b : option R;
  o_c : option R;
  o_idx : Z
}.

Fixpoint zip_obs (a b c : list (option R)) (idx : list Z) : list obs :=
  match a, b, c, idx with
  | x :: a', y :: b', z :: c', i :: idx' =>
      {| o_a := x; o_b := y; o_c := z; o_idx := i |} :: zip_obs a' b' c' idx'
  | _, _, _, _ => []
  end.

(** The shape of an element-wise operation on arrays of shapes [(n,)] and
    [(k,)]: the two are equal, or one of them is 1 and is stretched to the
    other; any other pair is refused. *)
Definition broadcast_shape (n k : nat) : result nat :=
  if (n =? k)%nat then ok n
  else if (n =? 1)%nat then ok k
  else if (k =? 1)%nat then ok n
  else raise ValueError.

(** An array stretched to the shape [(s,)] of the result. *)
Definition broadcast {A} (s : nat) (l : list A) : list A :=
  match l with
  | [x] => repeat x s
  | _ => l
  end.

(** The success probability of the utility model on one trial:
    [value ** α], [risk - β * (ambiguity / 2)], [5 ** α], division by [γ]
    and [invlogit]. *)
Definition Utility_mu (value risk ambiguity : float64) (α β γ : R) : float64 :=
  let value' := pow value α in
  let prob := fsub risk (fmul (Fin β) (fdiv ambiguity (Fin 2))) in
  let svLotto := fmul value' prob in
  let svRef := pow (Fin 5) α in
  let p := fdiv (fsub svLotto svRef) (Fin γ) in
  invlogit p.

(** The success probability of the estimated-value model on one trial,
    [val] being [l1 * level1 + l2 * level2 + l3 * level3 + l4 * level4]. *)
Definition estimate_mu (val risk ambiguity : float64) (level1 β γ : R)
  : float64 :=
  let prob := fsub risk (fmul (Fin β) (fdiv ambiguity (Fin 2))) in
  let svLotto := fmul val prob in
  let svRef := Fin level1 in
  let p := fdiv (fsub svLotto svRef) (Fin γ) in
  invlogit p.

End PyMC.

(** ** 4.1.PriorSensCheck.ipynb and the models of 5.simulation_model_check.ipynb *)

Module Models.
Import Pandas Numpy PyMC.

Local Open Scope df_scope.

(** [db['subn'] = db['sub'].rank(method='dense').astype(int) - 1] *)
Definition assign_subn : DF unit :=
  sub <- read "sub" ;;
  xs <- lift (ints sub) ;;
  write "subn" (map (fun r => Int (r - 1)) (rank_dense xs)).

(** [n_subs = db['subn'].unique().shape[0]] *)
Definition n_subs_of : DF nat :=
  subn <- read "subn" ;;
  xs <- lift (ints subn) ;;
  ret (nunique xs).

(** [idx = db.subn.tolist()] *)
Definition idx_of : DF (list Z) :=
  subn <- read "subn" ;;
  lift (ints subn).

Section Fitting.

(** The posterior samples and [pm.sample], which sees the model only. *)
Variable trace : Type.
Variable sample : model -> result trace.

Definition shape (n_subs : Z) : option Z := Some n_subs.

(** The decimal digit [k] as text, for the names [l1Mu], [level1], ... *)
Definition digit (k : nat) : string := String (ascii_of_nat (48 + k)) "".

(** The trial arrays of the utility models, each read, converted and
    checked against the shape of [idx] where the lines
    [value = df['value'].values ** α[idx]] and
    [prob = df['risk'].values - (β[idx] * (df['ambiguity'].values/2))]
    come to it, then stretched to the shape of [svLotto].  The later
    operations combine that shape with the shape of [idx] again, which it
    already contains. *)
Definition utility_arrays (idx : list Z) : DF (list obs) :=
  value <- read "value" ;;
  v <- lift (values value) ;;
  s1 <- lift (broadcast_shape (length v) (length idx)) ;;
  risk <- read "risk" ;;
  ambiguity <- read "ambiguity" ;;
  a <- lift (values ambiguity) ;;
  s2 <- lift (broadcast_shape (length idx) (length a)) ;;
  r <- lift (values risk) ;;
  s3 <- lift (broadcast_shape (length r) s2) ;;
  s <- lift (broadcast_shape s1 s3) ;;
  ret (zip_obs (broadcast s v) (broadcast s r) (broadcast s a)
         (broadcast s idx)).

(** The likelihood part shared by the utility models. *)
Definition utility_likelihood (trials : list obs) (θ : point) : list float64 :=
  map (fun o =>
         let i := o_idx o in
         Utility_mu (of_option (o_a o)) (of_option (o_b o)) (of_option (o_c o))
           (θ "alpha" i * 2) (θ "β" i) (θ "γ" i))
    trials.

Definition utility_model (hyper : list rv) (n_subs : Z) (idx : list Z)
  : DF model :=
  trials <- utility_arrays idx ;;
  choice <- read "choice" ;;
  ret {| free_rvs :=
           hyper ++
           [ {| rv_name := "alpha";
                rv_dist := Beta (Var "alpha_a") (Var "alpha_b");
                rv_shape := shape n_subs |};
             {| rv_name := "β";
                rv_dist := TruncatedNormal (Var "bMu") (Var "bSig")
                             (Some (-1.5)%R) (Some 1.5%R);
                rv_shape := shape n_subs |};
             {| rv_name := "γ";
                rv_dist := LogNormal (Const 0) (Const 0.25);
                rv_shape := shape n_subs |} ];
         mu := utility_likelihood trials;
         observed := choice |}.

(** [Utility] of the simulation notebook. *)
Definition Utility (n_subs : Z) (idx : list Z) : DF trace :=
  m <- utility_model
         [ {| rv_name := "alpha_a";
              rv_dist := TruncatedNormal (Const 4) (Const 1) (Some 0%R) None;
              rv_shape := None |};
           {| rv_name := "alpha_b";
              rv_dist := TruncatedNormal (Const 7) (Const 3) (Some 0%R) None;
              rv_shape := None |};
           {| rv_name := "bMu";
              rv_dist := Normal (Const 0.65) (Const 1);
              rv_shape := None |};
           {| rv_name := "bSig";
              rv_dist := Gamma (Const 2) (Const 1);
              rv_shape := None |} ]
         n_subs idx ;;
  lift (sample m).

(** [Utility_less_informed] of the prior-sensitivity notebook. *)
Definition Utility_less_informed (n_subs : Z) (idx : list Z) : DF trace :=
  m <- utility_model
         [ {| rv_name := "alpha_a";
              rv_dist := TruncatedNormal (Const 1) (Const 1) (Some 0%R) None;
              rv_shape := None |};
           {| rv_name := "alpha_b";
              rv_dist := TruncatedNormal (Const 1) (Const 1) (Some 0%R) None;
              rv_shape := None |};
           {| rv_name := "bMu";
              rv_dist := TruncatedNormal (Const 0) (Const 1)
                           (Some (-1.5)%R) (Some 1.5%R);
              rv_shape := None |};
           {| rv_name := "bSig";
              rv_dist := Gamma (Const 2) (Const 1);
              rv_shape := None |} ]
         n_subs idx ;;
  lift (sample m).

(** [val] of the estimated-value models on one trial. *)
Definition level_value (l1 l2 l3 l4 : option R) (θ : point) (i : Z)
  : option R :=
  match l1, l2, l3, l4 with
  | Some x1, Some x2, Some x3, Some x4 =>
      Some (x1 * θ "level1" i + x2 * θ "level2" i
            + x3 * θ "level3" i + x4 * θ "level4" i)%R
  | _, _, _, _ => None
  end.

Fixpoint level_values (l1 l2 l3 l4 : list (option R)) (idx : list Z)
  (θ : point) : list (option R) :=
  match l1, l2, l3, l4, idx with
  | x1 :: t1, x2 :: t2, x3 :: t3, x4 :: t4, i :: idx' =>
      level_value x1 x2 x3 x4 θ i :: level_values t1 t2 t3 t4 idx' θ
  | _, _, _, _, _ => []
  end.



(** The trial arrays of the estimated-value models. *)
Record level_arrays : Type := {
  a_l1 : list (option R);
  a_l2 : list (option R);
  a_l3 : list (option R);
  a_l4 : list (option R);
  a_risk : list (option R);
  a_ambiguity : list (option R);
  a_idx : list Z
}.

(** The four products of [val] are formed and added from left to right,
    then [prob] as in the utility models; each array is read, converted
    and checked against the shape of [idx] where its line comes to it,
    then stretched to the shape of [svLotto]. *)
Definition estimate_arrays (idx : list Z) : DF level_arrays :=
  let k := length idx in
  l1 <- read "l1" ;;
  x1 <- lift (values l1) ;;
  s1 <- lift (broadcast_shape (length x1) k) ;;
  l2 <- read "l2" ;;
  x2 <- lift (values l2) ;;
  s2 <- lift (broadcast_shape (length x2) k) ;;
  s12 <- lift (broadcast_shape s1 s2) ;;
  l3 <- read "l3" ;;
  x3 <- lift (values l3) ;;
  s3 <- lift (broadcast_shape (length x3) k) ;;
  s123 <- lift (broadcast_shape s12 s3) ;;
  l4 <- read "l4" ;;
  x4 <- lift (values l4) ;;
  s4 <- lift (broadcast_shape (length x4) k) ;;
  sv <- lift (broadcast_shape s123 s4) ;;
  risk <- read "risk" ;;
  ambiguity <- read "ambiguity" ;;
  a <- lift (values ambiguity) ;;
  sa <- lift (broadcast_shape k (length a)) ;;
  r <- lift (values risk) ;;
  sp <- lift (broadcast_shape (length r) sa) ;;
  s <- lift (broadcast_shape sv sp) ;;
  ret {| a_l1 := broadcast s x1; a_l2 := broadcast s x2;
         a_l3 := broadcast s x3; a_l4 := broadcast s x4;
         a_risk := broadcast s r; a_ambiguity := broadcast s a;
         a_idx := broadcast s idx |}.

Definition estimate_likelihood (x : level_arrays) (θ : point) : list float64 :=
  map (fun o =>
         let i := o_idx o in
         estimate_mu (of_option (o_a o)) (of_option (o_b o)) (of_option (o_c o))
           (θ "level1" i) (θ "β" i) (θ "γ" i))
    (zip_obs (level_values (a_l1 x) (a_l2 x) (a_l3 x) (a_l4 x) (a_idx x) θ)
       (a_risk x) (a_ambiguity x) (a_idx x)).

Definition level_rvs (sd : nat -> param) (n_subs : Z) : list rv :=
  map (fun k =>
         {| rv_name := String.append "level" (digit k);
            rv_dist :=
              TruncatedNormal
                (Var (String.append "l" (String.append (digit k) "Mu")))
                (sd k) (Some 0%R) None;
            rv_shape := shape n_subs |})
    [1; 2; 3; 4]%nat.

Definition estimate_model (hyper subject : list rv) (idx : list Z)
  : DF model :=
  x <- estimate_arrays idx ;;
  choice <- read "choice" ;;
  ret {| free_rvs := hyper ++ subject;
         mu := estimate_likelihood x;
         observed := choice |}.

Definition level_means (sigma : R) : list rv :=
  map (fun k =>
         {| rv_name := String.append "l" (String.append (digit k) "Mu");
            rv_dist := TruncatedNormal (Const 4) (Const sigma) (Some 0%R) None;
            rv_shape := None |})
    [1; 2; 3; 4]%nat.

(** [estimate_value] of the simulation notebook. *)
Definition estimate_value (n_subs : Z) (idx : list Z) : DF trace :=
  m <- estimate_model
         ([ {| rv_name := "bMu";
               rv_dist := Normal (Const 0.65) (Const 1);
               rv_shape := None |};
            {| rv_name := "bSig";
               rv_dist := Gamma (Const 2) (Const 1);
               rv_shape := None |} ] ++ level_means 2)
         ([ {| rv_name := "β";
               rv_dist := TruncatedNormal (Var "bMu") (Var "bSig")
                            (Some (-1.5)%R) (Some 1.5%R);
               rv_shape := shape n_subs |};
            {| rv_name := "γ";
               rv_dist := LogNormal (Const 0) (Const 0.25);
               rv_shape := shape n_subs |} ]
          ++ level_rvs (fun _ => Const 1) n_subs)
         idx ;;
  lift (sample m).

(** [estamte_values_less] of the prior-sensitivity notebook. *)
Definition estamte_values_less (n_subs : Z) (idx : list Z) : DF trace :=
  m <- estimate_model
         ([ {| rv_name := "bMu";
               rv_dist := Normal (Const 0) (Const 1);
               rv_shape := None |};
            {| rv_name := "bSig";
               rv_dist := Gamma (Const 2) (Const 1);
               rv_shape := None |} ]
          ++ level_means 1
          ++ map (fun k =>
                    {| rv_name := String.append "l" (String.append (digit k) "sd");
                       rv_dist := Gamma (Const 2) (Const 1);
                       rv_shape := None |})
               [1; 2; 3; 4]%nat)
         ([ {| rv_name := "β";
               rv_dist := Normal (Var "bMu") (Var "bSig");
               rv_shape := shape n_subs |};
            {| rv_name := "γ";
               rv_dist := LogNormal (Const 0) (Const 0.25);
               rv_shape := shape n_subs |} ]
          ++ level_rvs
               (fun k => Var (String.append "l" (String.append (digit k) "sd")))
               n_subs)
         idx ;;
  lift (sample m).

(** The likelihood of [Utility_uninformed]: [α] is used as drawn and the
    value difference is divided by 1. *)
Definition uninformed_likelihood (trials : list obs) (θ : point)
  : list float64 :=
  map (fun o =>
         let i := o_idx o in
         Utility_mu (of_option (o_a o)) (of_option (o_b o)) (of_option (o_c o))
           (θ "α" i) (θ "β" i) 1)
    trials.

(** [Utility_uninformed] of the prior-sensitivity notebook. *)
Definition Utility_uninformed (n_subs : Z) (idx : list Z) : DF trace :=
  trials <- utility_arrays idx ;;
  choice <- read "choice" ;;
  lift (sample
          {| free_rvs :=
               [ {| rv_name := "α";
                    rv_dist := Uniform (Const 0.1) (Const 1.8);
                    rv_shape := shape n_subs |};
                 {| rv_name := "β";
                    rv_dist := Uniform (Const (-1)) (Const 1);
                    rv_shape := shape n_subs |};
                 {| rv_name := "γ";
                    rv_dist := LogNormal (Const 0) (Const 0.25);
                    rv_shape := shape n_subs |} ];
             mu := uninformed_likelihood trials;
             observed := choice |}).

End Fitting.

End Models.

(** ** 5.simulation_model_check.ipynb *)

Module Simulation.
Import Pandas Numpy PyMC.

(** A row of [sim.csv], the table of the choices of the task, as
    [pd.read_csv] gives it: whole amounts and float probabilities.  A file
    without rows is read with columns of Python objects. *)
Record trial : Type := {
  value : Z;
  risk : R;
  ambiguity : R
}.

(** The random source: the variates behind each sampling call, by
    position in the requested array. *)
Record rng : Type := {
  beta : R -> R -> nat -> R;             (* [np.random.beta(a, b, n)] *)
  truncnorm : R -> R -> R -> R -> nat -> R;
                                         (* [stats.truncnorm.rvs(a, b, loc, scale, n)] *)
  normal_a : nat -> R;                   (* standard normal, first call *)
  normal_b : nat -> R;                   (* standard normal, second call *)
  uniform : nat -> R                     (* uniform on [0, 1), for the binomial *)
}.

(** The keyword arguments of [sim_data] other than [n_subs] and [noise]. *)
Record options : Type := {
  a_a : R;
  a_b : R;
  b_mean : R;
  b_sd : R;
  lower_bound : R;
  upper_bound : R
}.

Definition defaults : options :=
  {| a_a := 4; a_b := 7; b_mean := 0.65; b_sd := 1;
     lower_bound := -1.4; upper_bound := 1.4 |}.

Local Open Scope R_scope.

(** [np.random.normal(loc, scale, size)] from standard variates. *)
Definition normal (z : nat -> R) (loc scale : R) (size : nat) : list R :=
  map (fun i => loc + scale * z i) (seq 0 size).

(** One draw of [np.random.binomial(1, q)] from a uniform variate; a
    probability that is NaN or outside [0, 1] is refused. *)
Definition bernoulli (u : R) (q : float64) : result Z :=
  match q with
  | Fin q =>
      if Rltb q 0 || Rltb 1 q then raise ValueError
      else ok (if Rltb u q then 1%Z else 0%Z)
  | _ => raise ValueError
  end.

(** [np.random.binomial(1, p, len(p))] from uniform variates. *)
Definition binomial1 (u : nat -> R) (p : list float64) : result (list Z) :=
  mapM (fun iq => bernoulli (u (fst iq)) (snd iq))
    (combine (seq 0 (length p)) p).

(** The arrays computed before the frame is built. *)
Record arrays : Type := {
  ID : list Z;
  choice : list Z;
  values_ : list Z;
  risks : list R;
  ambiguities : list R;
  riskTol : list R;
  ambTol : list R;
  sub_idx : list Z
}.

(** The probability of choosing the lottery on one trial:
    [uRef = refValue ** riskTol],
    [uLotto = (value ** riskTol) * (risk - ambTol * (ambiguity / 2))],
    [p = expit(uLotto - uRef)]. *)
Definition choice_probability (value risk ambiguity riskTol ambTol : R)
  : float64 :=
  let refValue := Fin 5 in
  let uRef := pow refValue riskTol in
  let uLotto :=
    fmul (pow (Fin value) riskTol)
      (fsub (Fin risk) (fmul (Fin ambTol) (fdiv (Fin ambiguity) (Fin 2)))) in
  expit (fsub uLotto uRef).

(** The array [p] of a run. *)
Definition probabilities (value : list Z) (risk ambiguity riskTol ambTol : list R)
  : list float64 :=
  map2 (fun vra tol =>
          choice_probability (IZR (fst (fst vra))) (snd (fst vra))
            (snd vra) (fst tol) (snd tol))
    (combine (combine value risk) ambiguity)
    (combine riskTol ambTol).

Definition sim_arrays (db : list trial) (g : rng) (n_subs : nat) (noise : R)
  (o : options) : result arrays :=
  if Rltb 0 (a_a o) && Rltb 0 (a_b o) then
    let α_part := map (beta g (a_a o) (a_b o)) (seq 0 n_subs) in
    let α_true := map (fun x => x * 2) α_part in
    if Reqb (b_sd o) 0 then raise ZeroDivisionError
    else
      let a := (lower_bound o - b_mean o) / b_sd o in
      let b := (upper_bound o - b_mean o) / b_sd o in
      (* [truncnorm.rvs] checks its arguments: [a < b] and [scale >= 0] *)
      if Rltb a b && negb (Rltb (b_sd o) 0) then
        let β_true :=
          map (truncnorm g a b (b_mean o) (b_sd o)) (seq 0 n_subs) in
        let value := tile (map value db) n_subs in
        let risk := tile (map risk db) n_subs in
        let ambiguity := tile (map ambiguity db) n_subs in
        match n_subs with
        | O => raise ZeroDivisionError      (* [len(risk) / n_subs] *)
        | S _ =>
            let per_sub := length db in
            let riskTol := repeat_each α_true per_sub in
            let ambTol := repeat_each β_true per_sub in
            if Rltb noise 0 then raise ValueError
            else
              let noise_dist_a :=
                normal (normal_a g) 0 noise (length riskTol) in
              let noise_dist_b :=
                normal (normal_b g) 0 noise (length riskTol) in
              let riskTol := map2 Rplus riskTol noise_dist_a in
              let ambTol := map2 Rplus ambTol noise_dist_b in
              let riskTol := map (fun x => clip x 0.1 1.6) riskTol in
              let ambTol := map (fun x => clip x (-1.4) 1.4) ambTol in
              match db with
              | [] => raise TypeError          (* [expit] of object arrays *)
              | _ :: _ =>
                  let p := probabilities value risk ambiguity riskTol ambTol in
                  match binomial1 (uniform g) p with
                  | inl e => inl e
                  | inr choice =>
                      let sub_idx := repeat_each (arange n_subs) 84 in
                      let ID := map (fun i => (i + 1)%Z) sub_idx in
                      ok {| ID := ID; choice := choice; values_ := value;
                            risks := risk; ambiguities := ambiguity;
                            riskTol := riskTol; ambTol := ambTol;
                            sub_idx := sub_idx |}
                  end
              end
        end
      else raise ValueError
  else raise ValueError.


(** [pd.DataFrame({...})]: all arrays must have one length. *)
Definition frame_of (x : arrays) : result dataframe :=
  let n := length (ID x) in
  if (length (choice x) =? n)%nat && (length (values_ x) =? n)%nat
     && (length (risks x) =? n)%nat && (length (ambiguities x) =? n)%nat
     && (length (riskTol x) =? n)%nat && (length (ambTol x) =? n)%nat
  then
    ok [ ("sub", map Int (ID x));
         ("choice", map Int (choice x));
         ("value", map Int (values_ x));
         ("risk", map Float (risks x));
         ("ambiguity", map Float (ambiguities x));
         ("riskTol", map Float (riskTol x));
         ("ambTol", map Float (ambTol x)) ]
  else raise ValueError.

Local Open Scope df_scope.

(** [simdata[name] = simdata.level > k] *)
Definition level_above (name : string) (k : Z) : DF unit :=
  level <- read "level" ;;
  b <- lift (mapM (gt_scalar k) level) ;;
  write name b.

(** [simdata[name] = simdata[name].astype(int)] *)
Definition to_int (name : string) : DF unit :=
  c <- read name ;;
  i <- lift (mapM astype_int c) ;;
  write name i.

(** The statements of [sim_data] that rank the values and add the level
    indicators to the frame. *)
Definition add_levels : DF unit :=
  v <- read "value" ;;
  xs <- lift (ints v) ;;
  write "level" (map Int (rank_dense xs)) ;;;
  level_above "l1" 0 ;;;
  level_above "l2" 1 ;;;
  level_above "l3" 2 ;;;
  level_above "l4" 3 ;;;
  to_int "l1" ;;;
  to_int "l2" ;;;
  to_int "l3" ;;;
  to_int "l4".

Definition sim_data (db : list trial) (g : rng) (n_subs : nat) (noise : R)
  (o : options) : result (dataframe * list Z) :=
  match sim_arrays db g n_subs noise o with
  | inl e => inl e
  | inr x =>
      match frame_of x with
      | inl e => inl e
      | inr simdata =>
          match add_levels simdata with
          | (_, inl e) => inl e
          | (simdata', inr _) => ok (simdata', sub_idx x)
          end
      end
  end.

(** *** The simulation grid *)

Section Grid.

(** [sim.csv], the samplers and [az.compare]; what a call does may
    depend on which pass of the loop makes it. *)
Variable db : list trial.
Variables trace comparison : Type.
Variable rng_at : nat -> rng.
Variable sample_utility_at : nat -> model -> result trace.
Variable sample_estimate_at : nat -> model -> result trace.
Variable compare_at : nat -> trace -> trace -> result comparison.

Definition config : Type := (nat * R)%type.

Record row : Type := {
  row_N : nat;
  row_noise : R;
  row_Comparison : comparison
}.

Inductive message : Type :=
| Simulating (N : nat) (noise : R)
| Failed (N : nat) (noise : R) (e : exn).

Record grid_state : Type := {
  results : list row;
  printed : list message
}.

(** The statements of the [try] block after the [print]. *)
Definition attempt (k : nat) (SIM : config) : result row :=
  let N := fst SIM in
  let noise := snd SIM in
  match sim_data db (rng_at k) N noise defaults with
  | inl e => inl e
  | inr (sim, sim_idx) =>
      match Models.Utility trace (sample_utility_at k)
              (Z.of_nat N) sim_idx sim with
      | (_, inl e) => inl e
      | (sim, inr utility) =>
          match Models.estimate_value trace (sample_estimate_at k)
                  (Z.of_nat N) sim_idx sim with
          | (_, inl e) => inl e
          | (_, inr estimated) =>
              match compare_at k utility estimated with
              | inl e => inl e
              | inr comp =>
                  ok {| row_N := N; row_noise := noise;
                        row_Comparison := comp |}
              end
          end
      end
  end.

(** One pass of the loop, [try] and [except Exception] included. *)
Definition pass (k : nat) (SIM : config) (st : grid_state) : grid_state :=
  let st := {| results := results st;
               printed := printed st ++ [Simulating (fst SIM) (snd SIM)] |} in
  match attempt k SIM with
  | inr new_row =>
      {| results := results st ++ [new_row]; printed := printed st |}
  | inl e =>
      {| results := results st;
         printed := printed st ++ [Failed (fst SIM) (snd SIM) e] |}
  end.

Fixpoint grid_loop (k : nat) (test : list config) (st : grid_state)
  : grid_state :=
  match test with
  | [] => st
  | SIM :: rest => grid_loop (S k) rest (pass k SIM st)
  end.

(** [results = pd.DataFrame(columns=[...])] and the loop over [test]. *)
Definition run_grid (test : list config) : grid_state :=
  grid_loop 0 test {| results := []; printed := [] |}.

(** The configurations with the number of their pass. *)
Definition numbered (k : nat) (test : list config) : list (nat * config) :=
  combine (seq k (length test)) test.

(** The row a configuration contributes: one if its pass goes through,
    none if it raises. *)
Definition rows_of (p : nat * config) : list row :=
  match attempt (fst p) (snd p) with
  | inr new_row => [new_row]
  | inl _ => []
  end.

(** What the pass of a configuration prints. *)
Definition messages_of (p : nat * config) : list message :=
  Simulating (fst (snd p)) (snd (snd p)) ::
  match attempt (fst p) (snd p) with
  | inr _ => []
  | inl e => [Failed (fst (snd p)) (snd (snd p)) e]
  end.

Definition succeeds (p : nat * config) : bool :=
  match attempt (fst p) (snd p) with
  | inr _ => true
  | inl _ => false
  end.


End Grid.

(** The [test] list of the notebook. *)
Definition test : list (nat * R) :=
  [ (30%nat, 0.1); (30%nat, 0.3); (30%nat, 0.5); (60%nat, 0.3);
    (60%nat, 0.5); (120%nat, 0.5); (300%nat, 0.5) ]%R.

End Simulation.

(** ** Sample data *)

Module Samples.
Import Pandas.

(** Four rows of a cleaned file, three participants. *)
Definition cleaned : dataframe :=
  [ ("sub", [Int 12; Int 7; Int 12; Int 30]);
    ("choice", [Int 1; Int 0; NaN; Int 1]) ].

(** A trial record of field 17: the response at field 0, the two option
    texts at fields 2 and 3. *)
Definition mk_trial (response opt2 opt3 : string) : list (list string) :=
  [[response]; []; [opt2]; [opt3]].

(** A block of 21 trials: three catch trials first, with the given
    responses, then 18 trials answered half and half. *)
Definition block (ref lot zero amount : string) (r1 r2 r3 : string)
  : list (list (list string)) :=
  map (fun r => mk_trial r zero amount)
    ([r1; r2; r3] ++ repeat ref 9 ++ repeat lot 9).

Definition block_vals : column :=
  map Int ([5; 5; 5] ++ repeat 8 6 ++ repeat 12 6 ++ repeat 25 6).

(** A monetary session: the lottery was chosen on two catch trials and one
    catch trial was not answered. *)
Definition mon_mat : ExportSubData.mat_struct :=
  {| ExportSubData.vals := block_vals ++ block_vals ++ block_vals ++ block_vals;
     ExportSubData.risk := repeat (Float 0.5) 84;
     ExportSubData.ambiguity := repeat (Float 0) 84;
     ExportSubData.trials :=
       [ block "Reference" "Lottery" "$0" "$5" "Lottery" "Lottery" "None";
         block "Reference" "Lottery" "$0" "$5" "Reference" "Reference" "Reference";
         block "Reference" "Lottery" "$0" "$5" "Reference" "Reference" "Reference";
         block "Reference" "Lottery" "$0" "$5" "Reference" "Reference" "Reference" ];
     ExportSubData.rt := repeat (Float 1.5) 84 |}.

Definition mon_file : ExportSubData.mat_file :=
  {| ExportSubData.mat_fname :=
       "/media/Data/Lab_Projects/Aging/behavioral/Risk_and_Ambiguity_new/AG_12_RA/MDM_MON_12.mat";
     ExportSubData.loadmat := ok mon_mat |}.

(** The same session with other option texts in fields 2 and 3 of every
    trial. *)
Definition mon_file_texts : ExportSubData.mat_file :=
  {| ExportSubData.mat_fname := ExportSubData.mat_fname mon_file;
     ExportSubData.loadmat :=
       ok {| ExportSubData.vals := ExportSubData.vals mon_mat;
             ExportSubData.risk := ExportSubData.risk mon_mat;
             ExportSubData.ambiguity := ExportSubData.ambiguity mon_mat;
             ExportSubData.trials :=
               [ block "Reference" "Lottery" "$25" "$0" "Lottery" "Lottery" "None";
                 block "Reference" "Lottery" "$12" "$0" "Reference" "Reference" "Reference";
                 block "Reference" "Lottery" "$0" "$8" "Reference" "Reference" "Reference";
                 block "Reference" "Lottery" "$0" "" "Reference" "Reference" "Reference" ];
             ExportSubData.rt := ExportSubData.rt mon_mat |} |}.

(** A session that stopped early: the last block holds 20 trials. *)
Definition short_trials (ref lot zero amount : string)
  : list (list (list (list string))) :=
  [ block ref lot zero amount ref ref ref;
    block ref lot zero amount ref ref ref;
    block ref lot zero amount ref ref ref;
    removelast (block ref lot zero amount ref ref ref) ].

Definition mon_short : ExportSubData.mat_file :=
  {| ExportSubData.mat_fname :=
       "/media/Data/Lab_Projects/Aging/behavioral/Risk_and_Ambiguity_new/AG_28_RA/MDM_MON_28.mat";
     ExportSubData.loadmat :=
       ok {| ExportSubData.vals := ExportSubData.vals mon_mat;
             ExportSubData.risk := ExportSubData.risk mon_mat;
             ExportSubData.ambiguity := ExportSubData.ambiguity mon_mat;
             ExportSubData.trials := short_trials "Reference" "Lottery" "$0" "$5";
             ExportSubData.rt := ExportSubData.rt mon_mat |} |}.

Definition mon_file' : ExportSubData.mat_file :=
  {| ExportSubData.mat_fname :=
       "/media/Data/Lab_Projects/Aging/behavioral/Risk_and_Ambiguity_new/AG_31_RA/MDM_MON_31.mat";
     ExportSubData.loadmat := ok mon_mat |}.

(** The same three sessions of the medical task. *)
Definition med_mat : ExportSubData.mat_struct :=
  {| ExportSubData.vals := ExportSubData.vals mon_mat;
     ExportSubData.risk := ExportSubData.risk mon_mat;
     ExportSubData.ambiguity := ExportSubData.ambiguity mon_mat;
     ExportSubData.trials :=
       let b := block "Conservative treatment: Slight improvement"
                  "Experimental treatment" "no effect" "slight improvement" in
       [ b "Experimental treatment" "Experimental treatment" "None";
         b "Conservative treatment: Slight improvement"
           "Conservative treatment: Slight improvement"
           "Conservative treatment: Slight improvement";
         b "Conservative treatment: Slight improvement"
           "Conservative treatment: Slight improvement"
           "Conservative treatment: Slight improvement";
         b "Conservative treatment: Slight improvement"
           "Conservative treatment: Slight improvement"
           "Conservative treatment: Slight improvement" ];
     ExportSubData.rt := ExportSubData.rt mon_mat |}.

Definition med_file : ExportSubData.mat_file :=
  {| ExportSubData.mat_fname :=
       "/media/Data/Lab_Projects/Aging/behavioral/Risk_and_Ambiguity_new/AG_12_RA/MDM_MED_12.mat";
     ExportSubData.loadmat := ok med_mat |}.

Definition med_short : ExportSubData.mat_file :=
  {| ExportSubData.mat_fname :=
       "/media/Data/Lab_Projects/Aging/behavioral/Risk_and_Ambiguity_new/AG_28_RA/MDM_MED_28.mat";
     ExportSubData.loadmat :=
       ok {| ExportSubData.vals := ExportSubData.vals mon_mat;
             ExportSubData.risk := ExportSubData.risk mon_mat;
             ExportSubData.ambiguity := ExportSubData.ambiguity mon_mat;
             ExportSubData.trials :=
               short_trials "Conservative treatment: Slight improvement"
                 "Experimental treatment" "no effect" "slight improvement";
             ExportSubData.rt := ExportSubData.rt mon_mat |} |}.

Definition med_file' : ExportSubData.mat_file :=
  {| ExportSubData.mat_fname :=
       "/media/Data/Lab_Projects/Aging/behavioral/Risk_and_Ambiguity_new/AG_31_RA/MDM_MED_31.mat";
     ExportSubData.loadmat := ok med_mat |}.

(** The 24 kinds of trial of the task: four amounts, each at three risk
    levels without ambiguity and at three ambiguity levels with risk 0.5. *)
Definition kinds : list Simulation.trial :=
  flat_map
    (fun v =>
       [ {| Simulation.value := v; Simulation.risk := 0.25%R;
            Simulation.ambiguity := 0%R |};
         {| Simulation.value := v; Simulation.risk := 0.5%R;
            Simulation.ambiguity := 0%R |};
         {| Simulation.value := v; Simulation.risk := 0.75%R;
            Simulation.ambiguity := 0%R |};
         {| Simulation.value := v; Simulation.risk := 0.5%R;
            Simulation.ambiguity := 0.24%R |};
         {| Simulation.value := v; Simulation.risk := 0.5%R;
            Simulation.ambiguity := 0.5%R |};
         {| Simulation.value := v; Simulation.risk := 0.5%R;
            Simulation.ambiguity := 0.74%R |} ])
    [5; 8; 12; 25].

(** A table of 84 trials. *)
Definition sim_csv : list Simulation.trial :=
  firstn 84 (Numpy.tile kinds 4).

(** A random source that always draws the same variates. *)
Definition fixed_rng : Simulation.rng :=
  {| Simulation.beta := fun _ _ _ => 0.4%R;
     Simulation.truncnorm := fun _ _ _ _ _ => 0.65%R;
     Simulation.normal_a := fun _ => 1%R;
     Simulation.normal_b := fun _ => (-1)%R;
     Simulation.uniform := fun _ => 0.5%R |}.


(** Samplers that return the number of the pass, and a comparison that
    raises on the second pass of the grid. *)
Definition sampler (k : nat) (m : PyMC.model) : result nat := ok k.

Definition compare_fails_on_second (k : nat) (utility estimated : nat)
  : result nat :=
  if (k =? 1)%nat then raise (OtherError "comparison failed") else ok k.

Definition sample_grid : Simulation.grid_state nat :=
  Simulation.run_grid sim_csv nat nat (fun _ => fixed_rng) sampler sampler
    compare_fails_on_second Simulation.test.


(** A medical session in which the first catch trial holds a response
    that is none of the three the task offers. *)
Definition med_odd_mat : ExportSubData.mat_struct :=
  {| ExportSubData.vals := ExportSubData.vals mon_mat;
     ExportSubData.risk := ExportSubData.risk mon_mat;
     ExportSubData.ambiguity := ExportSubData.ambiguity mon_mat;
     ExportSubData.trials :=
       let b := block "Conservative treatment: Slight improvement"
                  "Experimental treatment" "no effect" "slight improvement" in
       [ b "Experimental" "Experimental treatment" "None";
         b "None" "None" "None"; b "None" "None" "None";
         b "None" "None" "None" ];
     ExportSubData.rt := ExportSubData.rt mon_mat |}.

Definition med_odd : ExportSubData.mat_file :=
  {| ExportSubData.mat_fname := ExportSubData.medical_fname "40" "40";
     ExportSubData.loadmat := ok med_odd_mat |}.





(** Two trials of one participant, and a sampler that returns at once. *)
Definition two_trials : dataframe :=
  [ ("choice", [Int 1; Int 0]);
    ("value", [Int 8; Int 25]);
    ("risk", [Float 0.5%R; Float 0.25%R]);
    ("ambiguity", [Float 0.24%R; Float 0%R]) ].

Definition sample_at_once (m : PyMC.model) : result nat :=
  ok (length (PyMC.free_rvs m)).

(** Three trials of one participant: the amount 8 at two winning
    probabilities, and a catch trial. *)
Definition three_odds : dataframe :=
  [ ("choice", [Int 0; Int 1; Int 0]);
    ("value", [Int 8; Int 8; Int 5]);
    ("risk", [Float 0.25%R; Float 0.75%R; Float 0.5%R]);
    ("ambiguity", [Float 0%R; Float 0%R; Float 0%R]) ].


(** A point of the parameter space with every parameter at 2. *)
Definition flat_point : PyMC.point := fun _ _ => 2%R.


End Samples.

(** * Properties *)

(** ** Frames *)

Section FrameFacts.
Import Pandas.

Lemma lookup_assign_same (df : dataframe) (name : string) (c : column) :
  lookup (assign df name c) name = Some c.
Proof.
  induction df as [|[n c0] rest IH]; simpl.
  - now rewrite String.eqb_refl.
  - destruct (String.eqb n name) eqn:E; simpl; rewrite E; auto.
Qed.

Lemma reindex_exact (c : column) : reindex (length c) c = c.
Proof.
  induction c as [|x t IH]; simpl; congruence.
Qed.

Lemma reindex_same (n : nat) (c : column) : length c = n -> reindex n c = c.
Proof. intros <-. apply reindex_exact. Qed.

Lemma wf_lookup (df : dataframe) (name : string) (c : column) :
  wf df -> lookup df name = Some c -> length c = nrows df.
Proof.
  unfold wf. intros Hwf.
  assert (H : forall l, Forall (fun p => length (snd p) = nrows df) l ->
                        lookup l name = Some c -> length c = nrows df).
  { induction l as [|[n c0] rest IH]; simpl; intros HF Hl; [discriminate|].
    inversion HF; subst.
    destruct (String.eqb n name); [now inversion Hl; subst | auto]. }
  now apply H.
Qed.

Lemma ints_map_Int (xs : list Z) : ints (map Int xs) = ok xs.
Proof.
  unfold ints. induction xs as [|x t IH]; simpl; [reflexivity|].
  now rewrite IH.
Qed.

End FrameFacts.

(** ** Dense rank *)

Section RankFacts.
Import Pandas.

Local Open Scope nat_scope.

Lemma below_mono (u : list Z) (x x' : Z) :
  (x <= x')%Z -> count_le u x <= count_le u x'.
Proof.
  unfold count_le. intros Hle.
  induction u as [|y t IH]; simpl; [lia|].
  destruct (Z.leb_spec y x), (Z.leb_spec y x'); simpl; lia.
Qed.

Lemma below_strict (u : list Z) (x x' : Z) :
  (x < x')%Z -> In x' u -> count_le u x < count_le u x'.
Proof.
  intros Hlt Hin.
  induction u as [|y t IH]; simpl in *; [contradiction|].
  assert (Hm : count_le t x <= count_le t x') by (apply below_mono; lia).
  unfold count_le in *. simpl.
  destruct Hin as [->|Hin].
  - destruct (Z.leb_spec x' x), (Z.leb_spec x' x'); simpl; lia.
  - specialize (IH Hin).
    destruct (Z.leb_spec y x), (Z.leb_spec y x'); simpl; lia.
Qed.

Lemma below_positive (u : list Z) (x : Z) : In x u -> 1 <= count_le u x.
Proof.
  unfold count_le. induction u as [|y t IH]; simpl; [contradiction|].
  intros [->|Hin].
  - rewrite Z.leb_refl. simpl. lia.
  - specialize (IH Hin). destruct (y <=? x)%Z; simpl; lia.
Qed.

Lemma below_injective (u : list Z) (x x' : Z) :
  In x u -> In x' u -> count_le u x = count_le u x' -> x = x'.
Proof.
  intros Hx Hx' Heq.
  destruct (Z.lt_trichotomy x x') as [Hlt|[->|Hgt]]; [|reflexivity|].
  - pose proof (below_strict u x x' Hlt Hx'). lia.
  - pose proof (below_strict u x' x Hgt Hx). lia.
Qed.

Lemma NoDup_map_on {A B} (f : A -> B) (l : list A) :
  (forall x y, In x l -> In y l -> f x = f y -> x = y) ->
  NoDup l -> NoDup (map f l).
Proof.
  intros Hinj Hnd.
  induction Hnd as [|a l Hnotin Hnd IH]; simpl; constructor.
  - intros Hin. apply in_map_iff in Hin as [y [Hfy Hy]].
    assert (y = a) by (apply Hinj; simpl; auto).
    subst. contradiction.
  - apply IH. intros x y Hx Hy. apply Hinj; simpl; auto.
Qed.

(** Every rank from 1 to the number of entries is taken. *)
Lemma below_onto (u : list Z) (k : nat) :
  NoDup u -> 1 <= k <= length u -> exists x, In x u /\ count_le u x = k.
Proof.
  intros Hnd Hk.
  assert (Hincl : incl (seq 1 (length u)) (map (count_le u) u)).
  { apply NoDup_length_incl.
    - apply NoDup_map_on; [|exact Hnd].
      intros x y Hx Hy. now apply below_injective.
    - rewrite length_seq, length_map. lia.
    - intros r Hr. apply in_map_iff in Hr as [x [<- Hx]].
      apply in_seq. pose proof (below_positive u x Hx).
      assert (count_le u x <= length u) by apply filter_length_le.
      lia. }
  assert (Hin : In k (map (count_le u) u)) by (apply Hincl, in_seq; lia).
  apply in_map_iff in Hin as [x [Hx Hin]]. eauto.
Qed.

Lemma rank_of_below (xs : list Z) (x : Z) :
  rank_of xs x = Z.of_nat (count_le (nodup Z.eq_dec xs) x).
Proof. reflexivity. Qed.

Lemma rank_of_range (xs : list Z) (x : Z) :
  In x xs -> (1 <= rank_of xs x <= Z.of_nat (nunique xs))%Z.
Proof.
  intros Hin. rewrite rank_of_below. unfold nunique.
  assert (H1 : 1 <= count_le (nodup Z.eq_dec xs) x)
    by (apply below_positive, nodup_In, Hin).
  assert (H2 : count_le (nodup Z.eq_dec xs) x <= length (nodup Z.eq_dec xs))
    by apply filter_length_le.
  lia.
Qed.

Lemma rank_of_onto (xs : list Z) (k : Z) :
  (1 <= k <= Z.of_nat (nunique xs))%Z ->
  exists x, In x xs /\ rank_of xs x = k.
Proof.
  intros Hk. unfold nunique in Hk.
  destruct (below_onto (nodup Z.eq_dec xs) (Z.to_nat k)) as [x [Hin Hx]].
  - apply NoDup_nodup.
  - lia.
  - exists x. split; [now apply nodup_In in Hin|].
    rewrite rank_of_below, Hx. lia.
Qed.

Lemma rank_of_lt (xs : list Z) (x x' : Z) :
  In x xs -> In x' xs ->
  ((rank_of xs x < rank_of xs x')%Z <-> (x < x')%Z).
Proof.
  intros Hx Hx'. rewrite !rank_of_below.
  apply (nodup_In Z.eq_dec) in Hx, Hx'.
  split; intros H.
  - destruct (Z.lt_trichotomy x x') as [Hlt|[->|Hgt]]; [exact Hlt|lia|].
    pose proof (below_strict _ x' x Hgt Hx). lia.
  - pose proof (below_strict _ x x' H Hx'). lia.
Qed.

Lemma rank_of_eq (xs : list Z) (x x' : Z) :
  In x xs -> In x' xs -> (rank_of xs x = rank_of xs x' <-> x = x').
Proof.
  intros Hx Hx'. split; [|now intros ->].
  rewrite !rank_of_below. intros H.
  apply (nodup_In Z.eq_dec) in Hx, Hx'.
  apply (below_injective _ _ _ Hx Hx'). lia.
Qed.

End RankFacts.

(** ** The dense subject number *)

Section SubnFacts.
Import Pandas Models.

Lemma In_nth_error_map {A B} (f : A -> B) (l : list A) (i : nat) (b : B) :
  nth_error (map f l) i = Some b ->
  exists a, nth_error l i = Some a /\ b = f a.
Proof.
  rewrite nth_error_map. destruct (nth_error l i) as [a|]; simpl; [|discriminate].
  intros H. inversion H. eauto.
Qed.

(** C4.  On a frame whose [sub] column holds integer identifiers, the
    numbering cell stores a column [subn] such that: its values are exactly
    0, ..., m-1 for m the number of distinct identifiers; two rows have the
    same [subn] exactly when they have the same [sub]; and [subn] is ordered
    as [sub] is. *)
Theorem subn_dense_reindexing (db : dataframe) (sub : list Z) :
  wf db ->
  getitem db "sub" = ok (map Int sub) ->
  exists subn : list Z,
    snd (assign_subn db) = ok tt /\
    getitem (fst (assign_subn db)) "subn" = ok (map Int subn) /\
    length subn = length sub /\
    (forall k, In k subn <-> 0 <= k < Z.of_nat (nunique sub)) /\
    (forall i j si sj ni nj,
        nth_error sub i = Some si -> nth_error sub j = Some sj ->
        nth_error subn i = Some ni -> nth_error subn j = Some nj ->
        (ni = nj <-> si = sj) /\ (ni < nj <-> si < sj)).
Proof.
  intros Hwf Hget.
  exists (map (fun x => rank_of sub x - 1) sub).
  assert (Hlen : length (map Int sub) = nrows db).
  { unfold getitem in Hget.
    destruct (lookup db "sub") as [c|] eqn:E; [|discriminate].
    inversion Hget; subst. eapply wf_lookup; eauto. }
  assert (Hrun : assign_subn db =
                 (assign db "subn" (map Int (map (fun x => rank_of sub x - 1) sub)),
                  ok tt)).
  { unfold assign_subn, bind, read, lift, write. rewrite Hget.
    unfold ok at 1. cbn iota. rewrite ints_map_Int.
    unfold ok at 1. cbn iota. unfold setitem_series, rank_dense.
    rewrite map_map. rewrite <- (map_map (fun x => rank_of sub x - 1) Int).
    rewrite reindex_same; [reflexivity|].
    rewrite <- Hlen. now rewrite !length_map. }
  rewrite Hrun. simpl fst. simpl snd.
  split; [reflexivity|]. split.
  { unfold getitem. now rewrite lookup_assign_same. }
  split; [apply length_map|]. split.
  - intros k. rewrite in_map_iff. split.
    + intros [x [<- Hx]]. pose proof (rank_of_range sub x Hx). lia.
    + intros Hk. destruct (rank_of_onto sub (k + 1)) as [x [Hx Hr]]; [lia|].
      exists x. split; [lia|exact Hx].
  - intros i j si sj ni nj Hi Hj Hni Hnj.
    apply In_nth_error_map in Hni as [a [Ha ->]].
    apply In_nth_error_map in Hnj as [b [Hb ->]].
    rewrite Hi in Ha. rewrite Hj in Hb. inversion Ha; inversion Hb; subst a b.
    apply nth_error_In in Hi, Hj.
    pose proof (rank_of_eq sub si sj Hi Hj).
    pose proof (rank_of_lt sub si sj Hi Hj).
    split; split; intros; lia.
Qed.

Lemma subn_dense_reindexing_witness :
  exists subn : list Z,
    snd (assign_subn Samples.cleaned) = ok tt /\
    getitem (fst (assign_subn Samples.cleaned)) "subn" = ok (map Int subn) /\
    length subn = length [12; 7; 12; 30] /\
    (forall k, In k subn <-> 0 <= k < Z.of_nat (nunique [12; 7; 12; 30])) /\
    (forall i j si sj ni nj,
        nth_error [12; 7; 12; 30] i = Some si ->
        nth_error [12; 7; 12; 30] j = Some sj ->
        nth_error subn i = Some ni -> nth_error subn j = Some nj ->
        (ni = nj <-> si = sj) /\ (ni < nj <-> si < sj)).
Proof.
  apply (subn_dense_reindexing Samples.cleaned [12; 7; 12; 30]).
  - repeat constructor.
  - reflexivity.
Defined.

End SubnFacts.

(** ** Extraction *)

Section ExtractionFacts.
Import Pandas Numpy ExportSubData.

Lemma mapM_length {A B} (f : A -> result B) (l : list A) (bs : list B) :
  mapM f l = ok bs -> length bs = length l.
Proof.
  revert bs. induction l as [|a t IH]; simpl; intros bs H.
  - inversion H. reflexivity.
  - destruct (f a) as [e|b]; simpl in H; [discriminate|].
    destruct (mapM f t) as [e|bs']; simpl in H; [discriminate|].
    inversion H. simpl. f_equal. now apply IH.
Qed.

Lemma read_trials_length (L : labels) (mat : mat_struct) cv :
  read_trials L mat = ok cv -> length cv = 84%nat.
Proof.
  intros H. apply mapM_length in H. rewrite H. reflexivity.
Qed.

Lemma recode_texts (L : labels) (raw : list string) :
  recode L (map Str raw) = map (recode_text L) raw.
Proof.
  unfold recode, replace. rewrite !map_map. apply map_ext. intros s.
  unfold recode_text.
  destruct (String.eqb s (reference_label L)); [reflexivity|].
  destruct (String.eqb s (lottery_label L)); [reflexivity|].
  destruct (String.eqb s "None"); reflexivity.
Qed.

(** The table of one participant, column by column. *)
Lemma subject_table_inv (L : labels) (mat : mat_struct) (sub : string)
  (cv : list (string * string)) (db : dataframe) (out : list line) :
  subject_table L mat sub cv = ok (db, out) ->
  let n := length cv in
  let choice := map (recode_text L) (map fst cv) in
  let value := reindex n (vals mat) in
  exists catch,
    nansum (mask choice value) = ok catch /\
    db = [ ("choice", choice); ("value", value);
           ("risk", reindex n (risk mat));
           ("ambiguity", reindex n (ambiguity mat));
           ("sub", repeat (Str sub) n);
           ("rt", reindex n (rt mat));
           ("catch", repeat catch n) ].
Proof.
  unfold subject_table, setitem_series, setitem_scalar, getitem.
  cbn [assign lookup String.eqb Ascii.eqb Bool.eqb nrows rbind ok fst snd].
  rewrite !length_map.
  rewrite <- (map_map fst Str cv), recode_texts.
  rewrite (reindex_same (length cv) (map (recode_text L) (map fst cv)))
    by now rewrite !length_map.
  rewrite !length_map.
  intros H.
  destruct (nansum (mask (map (recode_text L) (map fst cv))
                      (reindex (length cv) (vals mat)))) as [e|catch] eqn:E;
    simpl in H; [discriminate|].
  destruct (gt5 catch) as [e|failed]; simpl in H; [discriminate|].
  exists catch. split; [reflexivity|].
  unfold ok in H. inversion H. reflexivity.
Qed.

Lemma monetary_body_inv (f : mat_file) (db : dataframe) (out : list line) :
  monetary_body f = ok (db, out) ->
  exists mat sub cv,
    loadmat f = ok mat /\ read_trials monetary mat = ok cv /\
    subject_table monetary mat sub cv = ok (db, out).
Proof.
  unfold monetary_body. intros H.
  destruct (loadmat f) as [e|mat]; simpl in H; [discriminate|].
  destruct (subject_of (mat_fname f)) as [e|sub]; simpl in H; [discriminate|].
  destruct (read_trials monetary mat) as [e|cv] eqn:E; simpl in H; [discriminate|].
  exists mat, sub, cv. auto.
Qed.

Lemma medical_body_inv (f : mat_file) (db : dataframe) (out : list line) :
  medical_body f = Rows db out ->
  exists mat sub cv,
    loadmat f = ok mat /\ read_trials medical mat = ok cv /\
    subject_table medical mat sub cv = ok (db, out).
Proof.
  unfold medical_body. intros H.
  destruct (loadmat f) as [e|mat]; [discriminate|].
  destruct (subject_of (mat_fname f)) as [e|sub]; [discriminate|].
  destruct (read_trials medical mat) as [e|cv] eqn:E; [discriminate|].
  destruct (subject_table medical mat sub cv) as [e|[db' out']] eqn:E';
    [discriminate|].
  inversion H; subst. exists mat, sub, cv. auto.
Qed.

(** On recoded responses [np.nansum] counts the lottery choices. *)
Lemma nansum_counts_lottery (L : labels) :
  String.eqb (reference_label L) (lottery_label L) = false ->
  forall (cv : list (string * string)) (value : column) (a : Z) (c : cell),
    nansum_from (Int a) (mask (map (recode_text L) (map fst cv)) value) = ok c ->
    c = Int (a + lottery_on_catch L cv value).
Proof.
  intros Hne. unfold lottery_on_catch.
  induction cv as [|[s v0] t IH]; intros value a c H.
  - simpl in H. inversion H. simpl. f_equal. lia.
  - destruct value as [|v vs].
    + simpl in H. inversion H. simpl. f_equal. lia.
    + cbn [map fst mask combine filter snd] in *.
      destruct (eq5 v); cbn [andb].
      * unfold recode_text in H.
        destruct (String.eqb s (reference_label L)) eqn:E1.
        { apply String.eqb_eq in E1. subst s. rewrite Hne.
          cbn [nansum_from add rbind ok] in H. apply IH in H.
          rewrite H. f_equal. lia. }
        destruct (String.eqb s (lottery_label L)) eqn:E2.
        { cbn [nansum_from add rbind ok] in H. apply IH in H.
          rewrite H. cbn [length]. f_equal. lia. }
        destruct (String.eqb s "None") eqn:E3.
        { cbn [nansum_from add rbind ok] in H. now apply IH in H. }
        cbn [nansum_from add rbind raise] in H. discriminate.
      * now apply IH.
Qed.

Lemma subject_table_catch (L : labels) (mat : mat_struct) (sub : string)
  (cv : list (string * string)) (db : dataframe) (out : list line) :
  String.eqb (reference_label L) (lottery_label L) = false ->
  subject_table L mat sub cv = ok (db, out) ->
  getitem db "catch" =
  ok (repeat (Int (lottery_on_catch L cv (reindex (length cv) (vals mat))))
        (length cv)).
Proof.
  intros Hne H. apply subject_table_inv in H as [catch [Hsum ->]].
  apply (nansum_counts_lottery L Hne) in Hsum. subst catch. reflexivity.
Qed.

(** C1, as amended.  The [catch] field of an extracted table is not a
    per-trial flag: each of the 84 rows of a participant holds the same
    number, the count of catch trials (value 5) on which that participant
    chose the lottery, in the monetary and in the medical task. *)
Theorem catch_is_count_of_lottery_on_catch_trials :
  (forall f db out,
      monetary_body f = ok (db, out) ->
      exists mat cv,
        loadmat f = ok mat /\ read_trials monetary mat = ok cv /\
        getitem db "catch" =
        ok (repeat (Int (lottery_on_catch monetary cv (reindex 84 (vals mat)))) 84))
  /\
  (forall f db out,
      medical_body f = Rows db out ->
      exists mat cv,
        loadmat f = ok mat /\ read_trials medical mat = ok cv /\
        getitem db "catch" =
        ok (repeat (Int (lottery_on_catch medical cv (reindex 84 (vals mat)))) 84)).
Proof.
  split; intros f db out H.
  - apply monetary_body_inv in H as [mat [sub [cv [Hl [Hr Ht]]]]].
    exists mat, cv. repeat split; auto.
    apply subject_table_catch in Ht; [|reflexivity].
    now rewrite (read_trials_length _ _ _ Hr) in Ht.
  - apply medical_body_inv in H as [mat [sub [cv [Hl [Hr Ht]]]]].
    exists mat, cv. repeat split; auto.
    apply subject_table_catch in Ht; [|reflexivity].
    now rewrite (read_trials_length _ _ _ Hr) in Ht.
Qed.

Lemma sample_monetary_table :
  exists db, monetary_body Samples.mon_file = ok (db, []).
Proof. eexists. vm_compute. reflexivity. Defined.

Lemma sample_medical_table :
  exists db, medical_body Samples.med_file = Rows db [].
Proof. eexists. vm_compute. reflexivity. Defined.

Lemma catch_is_count_of_lottery_on_catch_trials_witness :
  (exists db mat cv,
      monetary_body Samples.mon_file = ok (db, []) /\
      loadmat Samples.mon_file = ok mat /\ read_trials monetary mat = ok cv /\
      getitem db "catch" =
      ok (repeat (Int (lottery_on_catch monetary cv (reindex 84 (vals mat)))) 84))
  /\
  (exists db mat cv,
      medical_body Samples.med_file = Rows db [] /\
      loadmat Samples.med_file = ok mat /\ read_trials medical mat = ok cv /\
      getitem db "catch" =
      ok (repeat (Int (lottery_on_catch medical cv (reindex 84 (vals mat)))) 84)).
Proof.
  split.
  - destruct sample_monetary_table as [db Hdb].
    destruct (proj1 catch_is_count_of_lottery_on_catch_trials _ _ _ Hdb)
      as [mat [cv H]].
    exists db, mat, cv. split; [exact Hdb|exact H].
  - destruct sample_medical_table as [db Hdb].
    destruct (proj2 catch_is_count_of_lottery_on_catch_trials _ _ _ Hdb)
      as [mat [cv H]].
    exists db, mat, cv. split; [exact Hdb|exact H].
Defined.

(** C1, as stated, fails: on the sample session every row carries 2 in
    [catch], on catch trials and on the others alike. *)
Lemma catch_is_not_a_trial_flag :
  ~ (forall f db out c,
        monetary_body f = ok (db, out) ->
        getitem db "catch" = ok c ->
        Forall (fun x => x = Int 0 \/ x = Int 1) c).
Proof.
  intros H.
  destruct sample_monetary_table as [db Hdb].
  pose proof (H Samples.mon_file db [] (repeat (Int 2) 84) Hdb) as HF.
  assert (Hc : getitem db "catch" = ok (repeat (Int 2) 84)).
  { revert Hdb. vm_compute. intros Hdb. inversion Hdb. reflexivity. }
  specialize (HF Hc). inversion HF as [|x l [Hx|Hx] _]; discriminate.
Qed.


(** A response outside the vocabulary is left as it is. *)
Lemma recode_keeps_other_text (L : labels) (s : string) :
  ~ In s (vocabulary L) -> recode L [Str s] = [Str s].
Proof.
  intros Hs. change [Str s] with (map Str [s]) at 1.
  rewrite (recode_texts L [s]). simpl. unfold recode_text.
  unfold vocabulary in Hs. simpl in Hs.
  destruct (String.eqb_spec s (reference_label L)); [intuition congruence|].
  destruct (String.eqb_spec s (lottery_label L)); [intuition congruence|].
  destruct (String.eqb_spec s "None"); [intuition congruence|reflexivity].
Qed.


(** *** The columns of the exported files *)

Lemma subject_table_columns (L : labels) (mat : mat_struct) (sub : string)
  (cv : list (string * string)) (db : dataframe) (out : list line) :
  subject_table L mat sub cv = ok (db, out) -> columns db = extracted_columns.
Proof.
  intros H. apply subject_table_inv in H as [catch [_ ->]]. reflexivity.
Qed.

Lemma columns_concat (df1 df2 : dataframe) :
  columns (concat df1 df2) =
  columns df1 ++ filter (fun n => negb (mem n (columns df1))) (columns df2).
Proof.
  unfold concat, columns. rewrite map_map. simpl. now rewrite map_id.
Qed.

Lemma concat_keeps_columns (df1 df2 : dataframe) :
  columns df1 = [] \/ columns df1 = extracted_columns ->
  columns df2 = extracted_columns ->
  columns (concat df1 df2) = extracted_columns.
Proof.
  intros [H1|H1] H2; rewrite columns_concat, H1, H2; reflexivity.
Qed.

Lemma monetary_loop_columns (files : list mat_file) (st : cell_state) :
  columns (df st) = [] \/ columns (df st) = extracted_columns ->
  columns (df (fst (monetary_loop files st))) = [] \/
  columns (df (fst (monetary_loop files st))) = extracted_columns.
Proof.
  revert st. induction files as [|f rest IH]; intros st Hst; simpl; [exact Hst|].
  destruct (monetary_body f) as [e|[db out]] eqn:E; simpl; [exact Hst|].
  apply IH. simpl. right.
  apply concat_keeps_columns; [exact Hst|].
  apply monetary_body_inv in E as [mat [sub [cv [_ [_ Ht]]]]].
  eapply subject_table_columns; eauto.
Qed.

Lemma medical_loop_columns (files : list mat_file) (st : cell_state) :
  columns (df st) = [] \/ columns (df st) = extracted_columns ->
  columns (df (fst (medical_loop files st))) = [] \/
  columns (df (fst (medical_loop files st))) = extracted_columns.
Proof.
  revert st. induction files as [|f rest IH]; intros st Hst; simpl; [exact Hst|].
  destruct (medical_body f) as [out|db out|e] eqn:E; simpl; [| |exact Hst].
  - apply IH. exact Hst.
  - apply IH. simpl. right.
    apply concat_keeps_columns; [exact Hst|].
    apply medical_body_inv in E as [mat [sub [cv [_ [_ Ht]]]]].
    eapply subject_table_columns; eauto.
Qed.

(** Once a table has its columns, the rest of a loop keeps them. *)
Lemma monetary_loop_columns_kept (files : list mat_file) (st : cell_state) :
  columns (df st) = extracted_columns ->
  columns (df (fst (monetary_loop files st))) = extracted_columns.
Proof.
  revert st. induction files as [|f rest IH]; intros st Hst; simpl; [exact Hst|].
  destruct (monetary_body f) as [e|[db out]] eqn:E; simpl; [exact Hst|].
  apply IH. simpl. apply concat_keeps_columns; [now right|].
  apply monetary_body_inv in E as [mat [sub [cv [_ [_ Ht]]]]].
  eapply subject_table_columns; eauto.
Qed.

Lemma medical_loop_columns_kept (files : list mat_file) (st : cell_state) :
  columns (df st) = extracted_columns ->
  columns (df (fst (medical_loop files st))) = extracted_columns.
Proof.
  revert st. induction files as [|f rest IH]; intros st Hst; simpl; [exact Hst|].
  destruct (medical_body f) as [out|db out|e] eqn:E; simpl; [| |exact Hst].
  - apply IH. exact Hst.
  - apply IH. simpl. apply concat_keeps_columns; [now right|].
    apply medical_body_inv in E as [mat [sub [cv [_ [_ Ht]]]]].
    eapply subject_table_columns; eauto.
Qed.

(** C7, as amended.  The files written by the extraction stage hold the
    unnamed index column and then exactly [choice], [value], [risk],
    [ambiguity], [sub], [rt], [catch] (no column besides the index when no
    table was extracted); the other documented columns are not written by
    this stage. *)
Theorem extraction_writes_seven_columns :
  (forall files,
      mon_csv_header files = [""] \/
      mon_csv_header files = "" :: extracted_columns) /\
  (forall files,
      med_csv_header files = [""] \/
      med_csv_header files = "" :: extracted_columns) /\
  (forall f rest db out,
      monetary_body f = ok (db, out) ->
      mon_csv_header (f :: rest) = "" :: extracted_columns) /\
  (forall f rest db out,
      medical_body f = Rows db out ->
      med_csv_header (f :: rest) = "" :: extracted_columns).
Proof.
  unfold mon_csv_header, med_csv_header, to_csv_header.
  repeat split.
  - intros files.
    destruct (monetary_loop_columns files start) as [H|H];
      [now left | rewrite H; now left | rewrite H; now right].
  - intros files.
    destruct (medical_loop_columns files start) as [H|H];
      [now left | rewrite H; now left | rewrite H; now right].
  - intros f rest db out H. simpl. rewrite H. f_equal.
    apply monetary_loop_columns_kept. simpl.
    apply concat_keeps_columns; [now left|].
    apply monetary_body_inv in H as [mat [sub [cv [_ [_ Ht]]]]].
    eapply subject_table_columns; eauto.
  - intros f rest db out H. simpl. rewrite H. f_equal.
    apply medical_loop_columns_kept. simpl.
    apply concat_keeps_columns; [now left|].
    apply medical_body_inv in H as [mat [sub [cv [_ [_ Ht]]]]].
    eapply subject_table_columns; eauto.
Qed.

Lemma extraction_writes_seven_columns_witness :
  mon_csv_header [Samples.mon_file; Samples.mon_file'] = "" :: extracted_columns /\
  med_csv_header [Samples.med_file; Samples.med_short] = "" :: extracted_columns.
Proof.
  destruct extraction_writes_seven_columns as [_ [_ [Hmon Hmed]]].
  destruct sample_monetary_table as [db Hdb].
  destruct sample_medical_table as [db' Hdb'].
  split.
  - exact (Hmon _ _ _ _ Hdb).
  - exact (Hmed _ _ _ _ Hdb').
Defined.

(** C7, as stated, fails: the file written for the sample session has no
    [gender] column. *)
Lemma mon_csv_lacks_documented_columns :
  ~ (forall files, incl documented_columns (mon_csv_header files)).
Proof.
  intros H.
  assert (Hin : In "gender" (mon_csv_header [Samples.mon_file])).
  { apply H. unfold documented_columns. simpl. tauto. }
  revert Hin. vm_compute.
  intros [H0|[H0|[H0|[H0|[H0|[H0|[H0|[H0|[]]]]]]]]]; discriminate.
Qed.

(** *** Malformed files *)

(** The monetary loop has no handler: the first file whose body raises
    stops the cell, nothing is printed and the later files are not read. *)
Lemma monetary_loop_raises (f : mat_file) (rest : list mat_file)
  (st : cell_state) (e : exn) :
  monetary_body f = inl e ->
  monetary_loop (f :: rest) st = (st, Raised e).
Proof. intros H. simpl. now rewrite H. Qed.

(** The medical loop skips a file whose trials cannot be read. *)
Lemma medical_loop_skips (f : mat_file) (rest : list mat_file)
  (st : cell_state) (mat : mat_struct) (sub : string) (e : exn) :
  loadmat f = ok mat ->
  subject_of (mat_fname f) = ok sub ->
  read_trials medical mat = inl e ->
  medical_loop (f :: rest) st =
  medical_loop rest {| df := df st; stdout := stdout st ++ [PrintFailed sub] |}.
Proof.
  intros Hl Hs Hr. cbn [medical_loop]. unfold medical_body, ok in *.
  rewrite Hl. cbn iota. rewrite Hs. cbn iota. now rewrite Hr.
Qed.

(** C5, the monetary loop on a session with a short last block between two
    complete sessions: the cell stops with [IndexError], prints nothing, and
    keeps the rows of the first session only.  The medical loop on the same
    three sessions prints the diagnostic, finishes, and keeps the rows of
    the two complete sessions. *)
Theorem monetary_loop_stops_at_malformed_file :
  let mon := monetary_loop
               [Samples.mon_file; Samples.mon_short; Samples.mon_file'] start in
  let med := medical_loop
               [Samples.med_file; Samples.med_short; Samples.med_file'] start in
  snd mon = Raised IndexError /\
  stdout (fst mon) = [] /\
  fst mon = fst (monetary_loop [Samples.mon_file] start) /\
  nrows (df (fst mon)) = 84%nat /\
  snd med = Finished /\
  stdout (fst med) = [PrintFailed "28"] /\
  nrows (df (fst med)) = 168%nat.
Proof.
  vm_compute. repeat split; reflexivity.
Qed.


End ExtractionFacts.

(** ** Reading and writing a frame *)

Section DFFacts.
Import Pandas.

Lemma ret_unchanged {A} (a : A) : leaves_unchanged (ret a).
Proof. intros df. reflexivity. Qed.

Lemma throw_unchanged {A} (e : exn) : leaves_unchanged (@throw A e).
Proof. intros df. reflexivity. Qed.

Lemma lift_unchanged {A} (r : result A) : leaves_unchanged (lift r).
Proof. intros df. reflexivity. Qed.

Lemma read_unchanged (name : string) : leaves_unchanged (read name).
Proof. intros df. reflexivity. Qed.

Lemma bind_unchanged {A B} (c : DF A) (k : A -> DF B) :
  leaves_unchanged c -> (forall a, leaves_unchanged (k a)) ->
  leaves_unchanged (bind c k).
Proof.
  intros Hc Hk df. unfold bind.
  specialize (Hc df). destruct (c df) as [df' [e|a]]; simpl in *; subst df'.
  - reflexivity.
  - apply Hk.
Qed.

Lemma mapM_map {A B C} (f : B -> result C) (g : A -> B) (h : A -> C)
  (l : list A) :
  (forall a, f (g a) = ok (h a)) -> mapM f (map g l) = ok (map h l).
Proof.
  intros H. induction l as [|a t IH]; simpl; [reflexivity|].
  rewrite H, IH. reflexivity.
Qed.

End DFFacts.

(** ** Model fitting *)

Section FittingFacts.
Import Pandas Numpy PyMC Models.

Variable trace : Type.
Variable sample : model -> result trace.

Ltac unchanged :=
  repeat first
    [ apply read_unchanged | apply lift_unchanged | apply ret_unchanged
    | apply throw_unchanged
    | apply bind_unchanged; [|intros ?]
    | match goal with
      | |- leaves_unchanged (if ?b then _ else _) => destruct b
      end ].

Lemma utility_model_unchanged (hyper : list rv) (n_subs : Z) (idx : list Z) :
  leaves_unchanged (utility_model hyper n_subs idx).
Proof. unfold utility_model. unchanged. Qed.

Lemma estimate_model_unchanged (hyper subject : list rv) (idx : list Z) :
  leaves_unchanged (estimate_model hyper subject idx).
Proof. unfold estimate_model. unchanged. Qed.

Lemma utility_arrays_unchanged (idx : list Z) :
  leaves_unchanged (utility_arrays idx).
Proof. unfold utility_arrays. unchanged. Qed.

Lemma estimate_arrays_unchanged (idx : list Z) :
  leaves_unchanged (estimate_arrays idx).
Proof. unfold estimate_arrays. unchanged. Qed.

(** C6.  The four fitting functions leave the frame they are given as it
    was, every column and every row of it, when they return and when they
    raise. *)
Theorem fitting_leaves_frame_unchanged (n_subs : Z) (idx : list Z)
  (df : dataframe) :
  fst (Utility trace sample n_subs idx df) = df /\
  fst (Utility_less_informed trace sample n_subs idx df) = df /\
  fst (estamte_values_less trace sample n_subs idx df) = df /\
  fst (estimate_value trace sample n_subs idx df) = df.
Proof.
  repeat split.
  - apply (bind_unchanged _ _ (utility_model_unchanged _ _ _)).
    intros m. apply lift_unchanged.
  - apply (bind_unchanged _ _ (utility_model_unchanged _ _ _)).
    intros m. apply lift_unchanged.
  - apply (bind_unchanged _ _ (estimate_model_unchanged _ _ _)).
    intros m. apply lift_unchanged.
  - apply (bind_unchanged _ _ (estimate_model_unchanged _ _ _)).
    intros m. apply lift_unchanged.
Qed.

End FittingFacts.

(** The numbering cell, by contrast, does update the frame it runs on. *)
Lemma assign_subn_updates_frame : ~ leaves_unchanged Models.assign_subn.
Proof.
  intros H. specialize (H Samples.cleaned). revert H. vm_compute.
  discriminate.
Qed.

(** ** The simulator *)

Section SimulationFacts.
Import Pandas Numpy PyMC Simulation.

Local Open Scope R_scope.

Lemma clip_bounds (x lo hi : R) : lo <= hi -> lo <= clip x lo hi <= hi.
Proof.
  intros H. unfold clip, Rmin, Rmax.
  destruct (Rle_dec x lo); destruct (Rle_dec _ hi); lra.
Qed.

Lemma Rltb_true (x y : R) : Rltb x y = true <-> x < y.
Proof. unfold Rltb. destruct (Rlt_dec x y); split; auto; discriminate. Qed.

Lemma Rltb_false (x y : R) : Rltb x y = false <-> y <= x.
Proof.
  unfold Rltb. destruct (Rlt_dec x y); split; auto; try discriminate; lra.
Qed.

Lemma Reqb_false (x y : R) : Reqb x y = false <-> x <> y.
Proof.
  unfold Reqb. destruct (Req_dec_T x y); split; auto; try discriminate.
  contradiction.
Qed.

Local Open Scope nat_scope.

Lemma tile_length {A} (a : list A) (n : nat) :
  length (tile a n) = n * length a.
Proof.
  induction n as [|n IH]; simpl; [reflexivity|].
  rewrite length_app, IH. lia.
Qed.

Lemma repeat_each_length {A} (a : list A) (k : nat) :
  length (repeat_each a k) = length a * k.
Proof.
  unfold repeat_each. induction a as [|x t IH]; simpl; [reflexivity|].
  rewrite length_app, repeat_length, IH. lia.
Qed.

Lemma map2_length {A B C} (f : A -> B -> C) (l1 : list A) (l2 : list B) :
  length (map2 f l1 l2) = Nat.min (length l1) (length l2).
Proof.
  revert l2. induction l1 as [|a t IH]; intros [|b t2]; simpl; auto.
Qed.

Lemma map2_Forall {A B C} (P : C -> Prop) (f : A -> B -> C) :
  (forall a b, P (f a b)) ->
  forall (l1 : list A) (l2 : list B), Forall P (map2 f l1 l2).
Proof.
  intros H. induction l1 as [|a t IH]; intros [|b t2]; simpl; auto.
Qed.

Lemma mapM_inv {A B} (f : A -> result B) (l : list A) (bs : list B) :
  mapM f l = ok bs ->
  length bs = length l /\
  forall i a, nth_error l i = Some a ->
              exists b, nth_error bs i = Some b /\ f a = ok b.
Proof.
  revert bs. induction l as [|x t IH]; intros bs H.
  - unfold ok in H. inversion H. split; [reflexivity|].
    intros [|i] a Ha; discriminate.
  - cbn [mapM rbind] in H.
    destruct (f x) as [e|b] eqn:Ef; [discriminate|].
    destruct (mapM f t) as [e|bt] eqn:Et; [discriminate|].
    unfold ok in H. inversion H; subst bs.
    destruct (IH bt eq_refl) as [Hl Hn].
    split; [simpl; now rewrite Hl|].
    intros [|i] a Ha; simpl in *.
    + inversion Ha; subst a. eauto.
    + now apply Hn.
Qed.

Lemma mapM_total {A B} (f : A -> result B) (l : list A) :
  Forall (fun a => exists b, f a = ok b) l -> exists bs, mapM f l = ok bs.
Proof.
  induction 1 as [|x t [b Hb] _ [bt Ht]].
  - eexists. reflexivity.
  - exists (b :: bt). cbn [mapM rbind]. rewrite Hb. cbn [rbind ok].
    rewrite Ht. reflexivity.
Qed.

Lemma nth_error_zip {A B} (l1 : list A) (l2 : list B) (i : nat) (a : A)
  (b : B) :
  nth_error l1 i = Some a -> nth_error l2 i = Some b ->
  nth_error (combine l1 l2) i = Some (a, b).
Proof.
  revert l2 i. induction l1 as [|x t IH]; intros [|y t2] [|i]; simpl;
    try discriminate.
  - intros H1 H2. inversion H1; inversion H2. reflexivity.
  - apply IH.
Qed.

(** What [expit] gives is a number between 0 and 1, or NaN for NaN. *)
Lemma expit_range (x : float64) :
  expit x = Nan \/ exists q, expit x = Fin q /\ (0 <= q <= 1)%R.
Proof.
  destruct x as [x|[|]|]; simpl; auto; right.
  - eexists. split; [reflexivity|].
    pose proof (exp_pos (- x)) as He. split.
    + apply Rlt_le, Rdiv_lt_0_compat; lra.
    + apply Rlt_le, (Rmult_lt_reg_r (1 + exp (- x))); [lra|].
      unfold Rdiv. rewrite Rmult_assoc, Rinv_l by lra. lra.
  - exists 0%R. split; [reflexivity|lra].
  - exists 1%R. split; [reflexivity|lra].
Qed.

Lemma bernoulli_inv (u : R) (p : float64) (c : Z) :
  bernoulli u p = ok c ->
  exists q, p = Fin q /\ (0 <= q <= 1)%R /\
            (c = 1%Z <-> (u < q)%R) /\ (c = 0%Z <-> (q <= u)%R).
Proof.
  unfold bernoulli. destruct p as [q| |]; try discriminate.
  destruct (Rltb q 0) eqn:E0; [discriminate|].
  destruct (Rltb 1 q) eqn:E1; [discriminate|]. cbn [orb].
  apply Rltb_false in E0, E1.
  intros H. unfold ok in H. inversion H; subst c. clear H.
  exists q. split; [reflexivity|]. split; [lra|].
  destruct (Rltb u q) eqn:Eu.
  - apply Rltb_true in Eu. repeat split; intros; try lra; try lia; auto.
  - apply Rltb_false in Eu. repeat split; intros; try lra; try lia; auto.
Qed.

Lemma bernoulli_returns (u q : R) :
  (0 <= q <= 1)%R -> exists c, bernoulli u (Fin q) = ok c.
Proof.
  intros [H0 H1]. unfold bernoulli.
  apply Rltb_false in H0, H1. rewrite H0, H1. cbn [orb]. eauto.
Qed.

(** The draws of a call that returns: one per probability, each from a
    number between 0 and 1, 1 exactly when the uniform variate of its
    position lies below it. *)
Lemma binomial1_inv (u : nat -> R) (p : list float64) (cs : list Z) :
  binomial1 u p = ok cs ->
  length cs = length p /\
  forall i x, nth_error p i = Some x ->
              exists c q, nth_error cs i = Some c /\ x = Fin q /\
                          (0 <= q <= 1)%R /\
                          (c = 1%Z <-> (u i < q)%R) /\
                          (c = 0%Z <-> (q <= u i)%R).
Proof.
  unfold binomial1. intros H. apply mapM_inv in H as [Hl Hn].
  rewrite length_combine, length_seq, Nat.min_id in Hl.
  split; [exact Hl|].
  intros i x Hx.
  assert (Hi : i < length p) by (apply nth_error_Some; congruence).
  destruct (Hn i (i, x)) as [c [Hc Hb]].
  { apply nth_error_zip; [|exact Hx]. rewrite nth_error_seq.
    destruct (Nat.ltb_spec i (length p)); [reflexivity|lia]. }
  cbn [fst snd] in Hb. apply bernoulli_inv in Hb as [q [-> Hq]].
  exists c, q. tauto.
Qed.


Lemma binomial1_returns (u : nat -> R) (p : list float64) :
  Forall (fun x => exists q, x = Fin q /\ (0 <= q <= 1)%R) p ->
  exists cs, binomial1 u p = ok cs.
Proof.
  intros H. unfold binomial1. apply mapM_total.
  apply Forall_forall. intros [i x] Hin. cbn [fst snd].
  apply in_combine_r in Hin. rewrite Forall_forall in H.
  destruct (H x Hin) as [q [-> Hq]]. now apply bernoulli_returns.
Qed.

Lemma normal_length (z : nat -> R) (loc scale : R) (size : nat) :
  length (normal z loc scale size) = size.
Proof. unfold normal. now rewrite length_map, length_seq. Qed.

Ltac lengths :=
  unfold arange, probabilities;
  repeat first
    [ rewrite tile_length | rewrite repeat_each_length | rewrite map2_length
    | rewrite normal_length | rewrite length_map
    | rewrite length_combine | rewrite length_app | rewrite length_seq ].

Lemma Reqb_true (x y : R) : Reqb x y = true <-> x = y.
Proof.
  unfold Reqb. destruct (Req_dec_T x y); split; auto; discriminate.
Qed.

(** A power of an amount that is not negative, with a positive exponent,
    is a number that is not negative. *)
Lemma pow_amount (x y : R) :
  (0 <= x)%R -> (0 < y)%R -> exists z, pow (Fin x) y = Fin z /\ (0 <= z)%R.
Proof.
  intros Hx Hy. unfold pow.
  destruct (Reqb y 0) eqn:E0; [apply Reqb_true in E0; lra|].
  destruct (Rltb 0 x) eqn:Ex.
  - eexists. split; [reflexivity|]. unfold Rpower. apply Rlt_le, exp_pos.
  - apply Rltb_false in Ex.
    assert (Hz : Reqb x 0 = true) by (apply Reqb_true; lra).
    rewrite Hz. apply Rltb_true in Hy. rewrite Hy.
    exists 0%R. split; [reflexivity|lra].
Qed.

Lemma pow_positive (x y : R) :
  (0 < x)%R -> exists z, pow (Fin x) y = Fin z /\ (0 < z)%R.
Proof.
  intros Hx. unfold pow.
  destruct (Reqb y 0); [exists 1%R; split; [reflexivity|lra]|].
  apply Rltb_true in Hx. rewrite Hx.
  eexists. split; [reflexivity|]. unfold Rpower. apply exp_pos.
Qed.

(** On an amount that is not negative, with a positive risk attitude, the
    probability of the simulator is a number between 0 and 1. *)
Lemma choice_probability_number (value risk ambiguity riskTol ambTol : R) :
  (0 <= value)%R -> (0 < riskTol)%R ->
  exists q, choice_probability value risk ambiguity riskTol ambTol = Fin q /\
            (0 <= q <= 1)%R.
Proof.
  intros Hv Hr. unfold choice_probability. cbv zeta.
  destruct (pow_amount value riskTol Hv Hr) as [z [-> _]].
  destruct (pow_positive 5 riskTol ltac:(lra)) as [z5 [-> _]].
  assert (H2 : Reqb 2 0 = false) by (apply Reqb_false; lra).
  unfold fdiv. rewrite H2. cbn [fmul fsub fneg fadd].
  match goal with |- context [expit ?a] => destruct (expit_range a) as [H|H] end;
    [discriminate|exact H].
Qed.

(** The arrays of a run that gets as far as building the frame. *)
Lemma sim_arrays_fields (db : list trial) (g : rng) (n_subs : nat) (noise : R)
  (o : options) (x : arrays) :
  sim_arrays db g n_subs noise o = ok x ->
  let draws_a := map (fun v => (v * 2)%R)
                   (map (beta g (a_a o) (a_b o)) (seq 0 n_subs)) in
  let draws_b := map (truncnorm g ((lower_bound o - b_mean o) / b_sd o)
                        ((upper_bound o - b_mean o) / b_sd o)
                        (b_mean o) (b_sd o)) (seq 0 n_subs) in
  let size := length (repeat_each draws_a (length db)) in
  values_ x = tile (map value db) n_subs /\
  risks x = tile (map risk db) n_subs /\
  ambiguities x = tile (map ambiguity db) n_subs /\
  riskTol x =
  map (fun t => clip t 0.1 1.6)
    (map2 Rplus (repeat_each draws_a (length db))
       (normal (normal_a g) 0 noise size)) /\
  ambTol x =
  map (fun t => clip t (-1.4) 1.4)
    (map2 Rplus (repeat_each draws_b (length db))
       (normal (normal_b g) 0 noise size)) /\
  sub_idx x = repeat_each (arange n_subs) 84 /\
  ID x = map (fun i => (i + 1)%Z) (sub_idx x) /\
  binomial1 (uniform g)
    (probabilities (values_ x) (risks x) (ambiguities x) (riskTol x) (ambTol x))
  = ok (choice x).
Proof.
  unfold sim_arrays.
  destruct (Rltb 0 (a_a o) && Rltb 0 (a_b o)); [|discriminate].
  destruct (Reqb (b_sd o) 0); [discriminate|].
  destruct (_ && _); [|discriminate].
  destruct n_subs as [|n]; [discriminate|].
  remember (S n) as k eqn:Ek.
  destruct (Rltb noise 0); [discriminate|].
  destruct db as [|t0 db']; [discriminate|].
  remember (t0 :: db') as db eqn:Edb.
  destruct (binomial1 _ _) as [e|cs] eqn:Eb; [discriminate|].
  intros H. unfold ok in H. inversion H; subst x; clear H.
  cbn [choice values_ risks ambiguities riskTol ambTol ID sub_idx].
  repeat split. exact Eb.
Qed.

Lemma sim_arrays_domain (db : list trial) (g : rng) (n_subs : nat) (noise : R)
  (o : options) (x : arrays) :
  sim_arrays db g n_subs noise o = ok x ->
  (0 < a_a o)%R /\ (0 < a_b o)%R /\ (0 < b_sd o)%R /\
  (lower_bound o < upper_bound o)%R /\ (0 < n_subs)%nat /\
  (0 <= noise)%R /\ db <> [].
Proof.
  unfold sim_arrays.
  destruct (Rltb 0 (a_a o)) eqn:Ea; [|discriminate].
  destruct (Rltb 0 (a_b o)) eqn:Eb; [|discriminate]. cbn [andb].
  destruct (Reqb (b_sd o) 0) eqn:Es; [discriminate|].
  destruct (Rltb ((lower_bound o - b_mean o) / b_sd o) _) eqn:Eab;
    [|discriminate].
  destruct (Rltb (b_sd o) 0) eqn:Esd; [discriminate|]. cbn [andb negb].
  destruct n_subs as [|n]; [discriminate|].
  destruct (Rltb noise 0) eqn:En; [discriminate|].
  destruct db as [|t0 db']; [discriminate|].
  intros _. apply Rltb_true in Ea, Eb, Eab. apply Reqb_false in Es.
  apply Rltb_false in En, Esd.
  assert (Hsd : (0 < b_sd o)%R) by lra.
  repeat split; auto; try lia; try discriminate.
  unfold Rdiv in Eab.
  apply Rmult_lt_reg_r in Eab; [lra|now apply Rinv_0_lt_compat].
Qed.

Lemma sim_arrays_inv (db : list trial) (g : rng) (n_subs : nat) (noise : R)
  (o : options) (x : arrays) :
  sim_arrays db g n_subs noise o = ok x ->
  let m := n_subs * length db in
  (0 < n_subs /\
   length (choice x) = m /\ length (values_ x) = m /\ length (risks x) = m /\
   length (ambiguities x) = m /\ length (riskTol x) = m /\
   length (ambTol x) = m /\ length (ID x) = n_subs * 84 /\
   sub_idx x = repeat_each (arange n_subs) 84) /\
  Forall (fun t => (0.1 <= t <= 1.6)%R) (riskTol x) /\
  Forall (fun t => (-1.4 <= t <= 1.4)%R) (ambTol x) /\
  binomial1 (uniform g)
    (probabilities (values_ x) (risks x) (ambiguities x) (riskTol x) (ambTol x))
  = ok (choice x).
Proof.
  intros H.
  pose proof (sim_arrays_domain _ _ _ _ _ _ H) as [_ [_ [_ [_ [Hn _]]]]].
  apply sim_arrays_fields in H
    as [Hv [Hr [Ha [Hrt [Hat [Hidx [HID Hb]]]]]]].
  cbv zeta.
  assert (Hlv : length (values_ x) = n_subs * length db)
    by (rewrite Hv; lengths; lia).
  assert (Hlr : length (risks x) = n_subs * length db)
    by (rewrite Hr; lengths; lia).
  assert (Hla : length (ambiguities x) = n_subs * length db)
    by (rewrite Ha; lengths; lia).
  assert (Hlrt : length (riskTol x) = n_subs * length db)
    by (rewrite Hrt; lengths; lia).
  assert (Hlat : length (ambTol x) = n_subs * length db)
    by (rewrite Hat; lengths; lia).
  repeat split; auto.
  - pose proof (binomial1_inv _ _ _ Hb) as [Hl _]. rewrite Hl.
    unfold probabilities. rewrite map2_length, !length_combine. lia.
  - rewrite HID, Hidx. lengths. lia.
  - rewrite Hrt. apply Forall_forall. intros t Ht.
    apply in_map_iff in Ht as [y [<- _]]. apply clip_bounds. lra.
  - rewrite Hat. apply Forall_forall. intros t Ht.
    apply in_map_iff in Ht as [y [<- _]]. apply clip_bounds. lra.
Qed.

Lemma nth_error_map2_inv {A B C} (f : A -> B -> C) (l1 : list A) (l2 : list B)
  (i : nat) (c : C) :
  nth_error (map2 f l1 l2) i = Some c ->
  exists a b, nth_error l1 i = Some a /\ nth_error l2 i = Some b /\ c = f a b.
Proof.
  revert l2 i. induction l1 as [|x t IH]; intros [|y t2] [|i]; simpl;
    try discriminate.
  - intros H. inversion H. eauto.
  - apply IH.
Qed.

Lemma In_map2 {A B C} (f : A -> B -> C) (l1 : list A) (l2 : list B) (c : C) :
  In c (map2 f l1 l2) -> exists a b, In a l1 /\ In b l2 /\ c = f a b.
Proof.
  intros H. apply In_nth_error in H as [i Hi].
  apply nth_error_map2_inv in Hi as [a [b [Ha [Hb ->]]]].
  exists a, b. eauto using nth_error_In.
Qed.

Lemma In_tile {A} (a : list A) (n : nat) (x : A) : In x (tile a n) -> In x a.
Proof.
  induction n as [|n IH]; simpl; [tauto|].
  intros H. apply in_app_or in H as [H|H]; auto.
Qed.

Lemma sim_arrays_returns (db : list trial) (g : rng) (n_subs : nat) (noise : R)
  (o : options) :
  db <> [] -> Forall (fun t => (0 <= value t)%Z) db ->
  0 < n_subs -> (0 <= noise)%R -> (0 < a_a o)%R -> (0 < a_b o)%R ->
  (0 < b_sd o)%R -> (lower_bound o < upper_bound o)%R ->
  exists x, sim_arrays db g n_subs noise o = ok x.
Proof.
  intros Hdb Hval Hn Hnoise Ha Hb Hsd Hlu. unfold sim_arrays.
  apply Rltb_true in Ha, Hb. rewrite Ha, Hb. cbn [andb].
  assert (Hsd0 : Reqb (b_sd o) 0 = false) by (apply Reqb_false; lra).
  rewrite Hsd0.
  assert (Hab : Rltb ((lower_bound o - b_mean o) / b_sd o)
                  ((upper_bound o - b_mean o) / b_sd o) = true).
  { apply Rltb_true. unfold Rdiv. apply Rmult_lt_compat_r; [|lra].
    now apply Rinv_0_lt_compat. }
  assert (Hsd1 : Rltb (b_sd o) 0 = false) by (apply Rltb_false; lra).
  rewrite Hab, Hsd1. cbn [andb negb].
  destruct n_subs as [|n]; [lia|]. remember (S n) as k eqn:Ek.
  apply Rltb_false in Hnoise. rewrite Hnoise.
  destruct db as [|t0 db']; [contradiction|].
  remember (t0 :: db') as db eqn:Edb.
  match goal with
  | |- context [binomial1 ?u ?p] =>
      destruct (binomial1_returns u p) as [cs Hcs]
  end.
  - apply Forall_forall. intros q Hq. unfold probabilities in Hq.
    apply In_map2 in Hq as [[[v r] a] [[rt at'] [Hin1 [Hin2 ->]]]].
    cbn [fst snd].
    apply in_combine_l in Hin1. apply in_combine_l in Hin1.
    apply In_tile in Hin1. apply in_map_iff in Hin1 as [t [<- Ht]].
    rewrite Forall_forall in Hval. specialize (Hval t Ht).
    apply in_combine_l in Hin2. apply in_map_iff in Hin2 as [y [<- _]].
    apply choice_probability_number.
    + now apply IZR_le.
    + pose proof (clip_bounds y 0.1 1.6 ltac:(lra)). lra.
  - rewrite Hcs. eexists. reflexivity.
Qed.

Lemma frame_of_inv (x : arrays) (fr : dataframe) :
  frame_of x = ok fr ->
  fr = [ ("sub", map Int (ID x));
         ("choice", map Int (choice x));
         ("value", map Int (values_ x));
         ("risk", map Float (risks x));
         ("ambiguity", map Float (ambiguities x));
         ("riskTol", map Float (riskTol x));
         ("ambTol", map Float (ambTol x)) ] /\
  length (values_ x) = length (ID x).
Proof.
  unfold frame_of.
  destruct (_ && _) eqn:E; [|discriminate].
  intros H. unfold ok in H. inversion H. split; [reflexivity|].
  repeat (apply andb_prop in E as [E ?]).
  now apply Nat.eqb_eq.
Qed.

Lemma frame_of_returns (x : arrays) :
  length (choice x) = length (ID x) -> length (values_ x) = length (ID x) ->
  length (risks x) = length (ID x) -> length (ambiguities x) = length (ID x) ->
  length (riskTol x) = length (ID x) -> length (ambTol x) = length (ID x) ->
  exists fr, frame_of x = ok fr.
Proof.
  intros H1 H2 H3 H4 H5 H6. unfold frame_of.
  rewrite H1, H2, H3, H4, H5, H6, Nat.eqb_refl. cbn [andb].
  eexists. reflexivity.
Qed.

(** The frame after the level columns were added. *)
Lemma add_levels_run (x : arrays) :
  length (values_ x) = length (ID x) ->
  add_levels
    [ ("sub", map Int (ID x));
      ("choice", map Int (choice x));
      ("value", map Int (values_ x));
      ("risk", map Float (risks x));
      ("ambiguity", map Float (ambiguities x));
      ("riskTol", map Float (riskTol x));
      ("ambTol", map Float (ambTol x)) ] =
  ([ ("sub", map Int (ID x));
     ("choice", map Int (choice x));
     ("value", map Int (values_ x));
     ("risk", map Float (risks x));
     ("ambiguity", map Float (ambiguities x));
     ("riskTol", map Float (riskTol x));
     ("ambTol", map Float (ambTol x));
     ("level", map Int (rank_dense (values_ x)));
     ("l1", map (fun lv => Int (Z.b2z (0 <? lv)%Z)) (rank_dense (values_ x)));
     ("l2", map (fun lv => Int (Z.b2z (1 <? lv)%Z)) (rank_dense (values_ x)));
     ("l3", map (fun lv => Int (Z.b2z (2 <? lv)%Z)) (rank_dense (values_ x)));
     ("l4", map (fun lv => Int (Z.b2z (3 <? lv)%Z)) (rank_dense (values_ x))) ],
   ok tt).
Proof.
  intros Hlen.
  unfold add_levels, level_above, to_int, bind, read, write, lift, getitem,
    setitem_series.
  cbn [assign lookup String.eqb Ascii.eqb Bool.eqb nrows fst snd ok].
  rewrite ints_map_Int.
  cbn [assign lookup String.eqb Ascii.eqb Bool.eqb nrows fst snd ok].
  rewrite !length_map.
  rewrite (reindex_same (length (ID x)))
    by (unfold rank_dense; now rewrite !length_map).
  repeat
    (erewrite mapM_map by (intros; cbn; reflexivity);
     cbn [assign lookup String.eqb Ascii.eqb Bool.eqb nrows fst snd ok];
     rewrite ?length_map;
     rewrite ?(reindex_same (length (ID x)))
       by (unfold rank_dense; now rewrite !length_map)).
  reflexivity.
Qed.

Lemma sim_data_inv (db : list trial) (g : rng) (n_subs : nat) (noise : R)
  (o : options) (simdata : dataframe) (idx : list Z) :
  sim_data db g n_subs noise o = ok (simdata, idx) ->
  exists x,
    sim_arrays db g n_subs noise o = ok x /\
    idx = sub_idx x /\
    length db = 84 /\
    length (values_ x) = length (ID x) /\
    simdata =
    [ ("sub", map Int (ID x));
      ("choice", map Int (choice x));
      ("value", map Int (values_ x));
      ("risk", map Float (risks x));
      ("ambiguity", map Float (ambiguities x));
      ("riskTol", map Float (riskTol x));
      ("ambTol", map Float (ambTol x));
      ("level", map Int (rank_dense (values_ x)));
      ("l1", map (fun lv => Int (Z.b2z (0 <? lv)%Z)) (rank_dense (values_ x)));
      ("l2", map (fun lv => Int (Z.b2z (1 <? lv)%Z)) (rank_dense (values_ x)));
      ("l3", map (fun lv => Int (Z.b2z (2 <? lv)%Z)) (rank_dense (values_ x)));
      ("l4", map (fun lv => Int (Z.b2z (3 <? lv)%Z)) (rank_dense (values_ x))) ].
Proof.
  unfold sim_data. intros H.
  destruct (sim_arrays db g n_subs noise o) as [e|x] eqn:Ex; [discriminate|].
  destruct (frame_of x) as [e|fr] eqn:Ef; [discriminate|].
  apply frame_of_inv in Ef as [-> Hlen].
  rewrite (add_levels_run x Hlen) in H.
  unfold ok in H. inversion H; subst.
  exists x. repeat split; auto.
  apply sim_arrays_inv in Ex as [[Hn [_ [Hv [_ [_ [_ [_ [HID _]]]]]]]] _].
  rewrite Hv, HID in Hlen. nia.
Qed.

(** [sim_data] returns whenever the table has 84 rows with amounts that
    are not negative and the arguments are in the domain of the sampling
    calls. *)
Lemma sim_data_returns (db : list trial) (g : rng) (n_subs : nat) (noise : R)
  (o : options) :
  length db = 84 -> Forall (fun t => (0 <= value t)%Z) db ->
  0 < n_subs -> (0 <= noise)%R ->
  (0 < a_a o)%R -> (0 < a_b o)%R ->
  (0 < b_sd o)%R -> (lower_bound o < upper_bound o)%R ->
  exists simdata idx, sim_data db g n_subs noise o = ok (simdata, idx).
Proof.
  intros Hdb Hval Hn Hnoise Ha Hb Hsd Hlu.
  assert (Hne : db <> []) by (intros ->; discriminate).
  destruct (sim_arrays_returns db g n_subs noise o Hne Hval Hn Hnoise Ha Hb
              Hsd Hlu) as [x Hx].
  pose proof (sim_arrays_inv _ _ _ _ _ _ Hx)
    as [[_ [H1 [H2 [H3 [H4 [H5 [H6 [H7 _]]]]]]]] _].
  rewrite Hdb in *.
  destruct (frame_of_returns x) as [fr Hfr]; try congruence.
  unfold sim_data. rewrite Hx. cbn [ok]. rewrite Hfr. cbn [ok].
  apply frame_of_inv in Hfr as [-> Hlen].
  rewrite (add_levels_run x Hlen). eexists. eexists. reflexivity.
Qed.

Lemma amounts_dec (db : list trial) :
  forallb (fun t => (0 <=? value t)%Z) db = true ->
  Forall (fun t => (0 <= value t)%Z) db.
Proof.
  intros H. apply Forall_forall. intros t Ht.
  rewrite forallb_forall in H. specialize (H t Ht). lia.
Qed.

Lemma sample_simulation :
  exists simdata idx,
    sim_data Samples.sim_csv Samples.fixed_rng 2 0.3 defaults = ok (simdata, idx).
Proof.
  apply sim_data_returns; simpl; try lra; try lia.
  apply amounts_dec. vm_compute. reflexivity.
Defined.


(** C2.  In every frame [sim_data] returns, on every row and for each k
    from 1 to 4, the indicator lk is 1 exactly when the level of the row is
    at least k, and is 0 otherwise; so level k sets l1..lk and leaves the
    later indicators at 0. *)
Theorem level_indicators_cumulative (db : list trial) (g : rng) (n_subs : nat)
  (noise : R) (o : options) (simdata : dataframe) (idx : list Z) :
  sim_data db g n_subs noise o = ok (simdata, idx) ->
  exists level l1 l2 l3 l4 : list Z,
    getitem simdata "level" = ok (map Int level) /\
    getitem simdata "l1" = ok (map Int l1) /\
    getitem simdata "l2" = ok (map Int l2) /\
    getitem simdata "l3" = ok (map Int l3) /\
    getitem simdata "l4" = ok (map Int l4) /\
    length level = nrows simdata /\
    forall i lv,
      nth_error level i = Some lv ->
      forall k lk,
        In (k, lk) [(1, l1); (2, l2); (3, l3); (4, l4)]%Z ->
        exists b,
          nth_error lk i = Some b /\
          (b = 1 <-> k <= lv)%Z /\ (b = 0 <-> lv < k)%Z.
Proof.
  intros H.
  apply sim_data_inv in H as [x [Hx [_ [_ [Hlen ->]]]]].
  exists (rank_dense (values_ x)).
  exists (map (fun lv => Z.b2z (0 <? lv)%Z) (rank_dense (values_ x))).
  exists (map (fun lv => Z.b2z (1 <? lv)%Z) (rank_dense (values_ x))).
  exists (map (fun lv => Z.b2z (2 <? lv)%Z) (rank_dense (values_ x))).
  exists (map (fun lv => Z.b2z (3 <? lv)%Z) (rank_dense (values_ x))).
  rewrite !map_map.
  repeat (split; [reflexivity|]).
  split.
  - unfold rank_dense. cbn [nrows]. now rewrite !length_map.
  - intros i lv Hlv k lk Hin. simpl in Hin.
    destruct Hin as [Hin|[Hin|[Hin|[Hin|[]]]]]; inversion Hin; subst k lk;
      rewrite nth_error_map, Hlv; simpl;
      eexists; (split; [reflexivity|]);
      match goal with |- context [(?a <? lv)%Z] =>
        destruct (Z.ltb_spec a lv); simpl; lia end.
Qed.

Lemma level_indicators_cumulative_witness :
  exists simdata idx,
    sim_data Samples.sim_csv Samples.fixed_rng 2 0.3 defaults
    = ok (simdata, idx) /\
  exists level l1 l2 l3 l4,
    getitem simdata "level" = ok (map Int level) /\
    getitem simdata "l1" = ok (map Int l1) /\
    getitem simdata "l2" = ok (map Int l2) /\
    getitem simdata "l3" = ok (map Int l3) /\
    getitem simdata "l4" = ok (map Int l4) /\
    length level = nrows simdata /\
    forall i lv,
      nth_error level i = Some lv ->
      forall k lk,
        In (k, lk) [(1, l1); (2, l2); (3, l3); (4, l4)]%Z ->
        exists b,
          nth_error lk i = Some b /\
          (b = 1 <-> k <= lv)%Z /\ (b = 0 <-> lv < k)%Z.
Proof.
  destruct sample_simulation as [simdata [idx H]].
  exists simdata, idx. split; [exact H|].
  exact (level_indicators_cumulative _ _ _ _ _ _ _ H).
Defined.

(** C9.  In every frame [sim_data] returns, whatever the noise, [riskTol]
    lies between 0.1 and 1.6 and [ambTol] between -1.4 and 1.4 on every
    row. *)
Theorem attitudes_within_bounds (db : list trial) (g : rng) (n_subs : nat)
  (noise : R) (o : options) (simdata : dataframe) (idx : list Z) :
  sim_data db g n_subs noise o = ok (simdata, idx) ->
  exists riskTol ambTol : list R,
    getitem simdata "riskTol" = ok (map Float riskTol) /\
    getitem simdata "ambTol" = ok (map Float ambTol) /\
    length riskTol = nrows simdata /\
    length ambTol = nrows simdata /\
    Forall (fun t => (0.1 <= t <= 1.6)%R) riskTol /\
    Forall (fun t => (-1.4 <= t <= 1.4)%R) ambTol.
Proof.
  intros H.
  apply sim_data_inv in H as [x [Hx [_ [_ [Hlen ->]]]]].
  apply sim_arrays_inv in Hx
    as [[_ [_ [Hv [_ [_ [Hr [Ha _]]]]]]] [Hrisk [Hamb _]]].
  exists (riskTol x), (ambTol x).
  repeat (split; [reflexivity|]).
  cbn [nrows]. rewrite length_map. rewrite <- Hlen, Hv.
  repeat split; assumption.
Qed.

Lemma attitudes_within_bounds_witness :
  exists simdata idx,
    sim_data Samples.sim_csv Samples.fixed_rng 2 0.3 defaults
    = ok (simdata, idx) /\
  exists riskTol ambTol : list R,
    getitem simdata "riskTol" = ok (map Float riskTol) /\
    getitem simdata "ambTol" = ok (map Float ambTol) /\
    length riskTol = nrows simdata /\
    length ambTol = nrows simdata /\
    Forall (fun t => (0.1 <= t <= 1.6)%R) riskTol /\
    Forall (fun t => (-1.4 <= t <= 1.4)%R) ambTol.
Proof.
  destruct sample_simulation as [simdata [idx H]].
  exists simdata, idx. split; [exact H|].
  exact (attitudes_within_bounds _ _ _ _ _ _ _ H).
Defined.

End SimulationFacts.

(** ** The choice column *)

Section ChoiceFacts.
Import Pandas Numpy ExportSubData Simulation.





End ChoiceFacts.

(** ** The models built on a frame *)

Section ModelRuns.
Import Pandas Numpy PyMC Models.

Lemma broadcast_shape_same (n : nat) : broadcast_shape n n = ok n.
Proof. unfold broadcast_shape. now rewrite Nat.eqb_refl. Qed.

Lemma broadcast_same {A} (s : nat) (l : list A) :
  length l = s -> broadcast s l = l.
Proof. destruct l as [|x [|y t]]; simpl; intros <-; reflexivity. Qed.

Lemma values_ints (l : list Z) :
  values (map Int l) = ok (map (fun z => Some (IZR z)) l).
Proof. apply mapM_map. reflexivity. Qed.

Lemma values_floats (l : list R) : values (map Float l) = ok (map Some l).
Proof. apply mapM_map. reflexivity. Qed.

(** The arrays of the utility models on a frame whose columns hold
    numbers and have one entry per entry of [idx]. *)
Lemma utility_arrays_run (idx : list Z) (df : dataframe)
  (cv cr ca : column) (v r a : list (option R)) :
  lookup df "value" = Some cv -> values cv = ok v ->
  lookup df "risk" = Some cr -> values cr = ok r ->
  lookup df "ambiguity" = Some ca -> values ca = ok a ->
  length v = length idx -> length r = length idx -> length a = length idx ->
  utility_arrays idx df = (df, ok (zip_obs v r a idx)).
Proof.
  intros Hcv Hv Hcr Hr Hca Ha Lv Lr La.
  unfold utility_arrays, bind, read, lift, ret, getitem.
  rewrite Hcv. cbn [ok]. rewrite Hv. cbn [ok].
  rewrite Lv, broadcast_shape_same. cbn [ok].
  rewrite Hcr. cbn [ok]. rewrite Hca. cbn [ok]. rewrite Ha. cbn [ok].
  rewrite La, broadcast_shape_same. cbn [ok].
  rewrite Hr. cbn [ok]. rewrite Lr, broadcast_shape_same. cbn [ok].
  rewrite broadcast_shape_same. cbn [ok].
  now rewrite !broadcast_same.
Qed.

Lemma estimate_arrays_run (idx : list Z) (df : dataframe)
  (c1 c2 c3 c4 cr ca : column) (x1 x2 x3 x4 r a : list (option R)) :
  lookup df "l1" = Some c1 -> values c1 = ok x1 ->
  lookup df "l2" = Some c2 -> values c2 = ok x2 ->
  lookup df "l3" = Some c3 -> values c3 = ok x3 ->
  lookup df "l4" = Some c4 -> values c4 = ok x4 ->
  lookup df "risk" = Some cr -> values cr = ok r ->
  lookup df "ambiguity" = Some ca -> values ca = ok a ->
  length x1 = length idx -> length x2 = length idx ->
  length x3 = length idx -> length x4 = length idx ->
  length r = length idx -> length a = length idx ->
  estimate_arrays idx df =
  (df, ok {| a_l1 := x1; a_l2 := x2; a_l3 := x3; a_l4 := x4;
             a_risk := r; a_ambiguity := a; a_idx := idx |}).
Proof.
  intros H1 V1 H2 V2 H3 V3 H4 V4 Hr Vr Ha Va L1 L2 L3 L4 Lr La.
  unfold estimate_arrays, bind, read, lift, ret, getitem.
  rewrite H1. cbn [ok]. rewrite V1. cbn [ok].
  rewrite L1, broadcast_shape_same. cbn [ok].
  rewrite H2. cbn [ok]. rewrite V2. cbn [ok].
  rewrite L2, !broadcast_shape_same. cbn [ok].
  rewrite H3. cbn [ok]. rewrite V3. cbn [ok].
  rewrite L3, !broadcast_shape_same. cbn [ok].
  rewrite H4. cbn [ok]. rewrite V4. cbn [ok].
  rewrite L4, !broadcast_shape_same. cbn [ok].
  rewrite Hr. cbn [ok]. rewrite Ha. cbn [ok]. rewrite Va. cbn [ok].
  rewrite La, broadcast_shape_same. cbn [ok].
  rewrite Vr. cbn [ok]. rewrite Lr, !broadcast_shape_same. cbn [ok].
  rewrite !broadcast_shape_same. cbn [ok].
  now rewrite !broadcast_same.
Qed.

Lemma nth_error_zip_obs (a b c : list (option R)) (idx : list Z) (i : nat)
  (x y z : option R) (s : Z) :
  nth_error a i = Some x -> nth_error b i = Some y ->
  nth_error c i = Some z -> nth_error idx i = Some s ->
  nth_error (zip_obs a b c idx) i =
  Some {| o_a := x; o_b := y; o_c := z; o_idx := s |}.
Proof.
  revert b c idx i.
  induction a as [|x0 a IH]; intros [|y0 b] [|z0 c] [|s0 idx] [|i]; simpl;
    try discriminate.
  - intros Hx Hy Hz Hs. inversion Hx; inversion Hy; inversion Hz;
      inversion Hs. reflexivity.
  - apply IH.
Qed.

Lemma zip_obs_length (a b c : list (option R)) (idx : list Z) :
  length a = length idx -> length b = length idx -> length c = length idx ->
  length (zip_obs a b c idx) = length idx.
Proof.
  revert a b c.
  induction idx as [|i t IH]; intros [|x a] [|y b] [|z c] Ha Hb Hc;
    simpl in *; try discriminate; try reflexivity.
  f_equal. apply IH; lia.
Qed.

End ModelRuns.

(** ** The simulation grid *)

Section GridFacts.
Import Pandas PyMC Simulation.

Variable db : list trial.
Variables trace comparison : Type.
Variable rng_at : nat -> rng.
Variable sample_utility_at : nat -> model -> result trace.
Variable sample_estimate_at : nat -> model -> result trace.
Variable compare_at : nat -> trace -> trace -> result comparison.

Local Abbreviation attempt :=
  (Simulation.attempt db trace comparison rng_at sample_utility_at
     sample_estimate_at compare_at).
Local Abbreviation pass :=
  (Simulation.pass db trace comparison rng_at sample_utility_at
     sample_estimate_at compare_at).
Local Abbreviation grid_loop :=
  (Simulation.grid_loop db trace comparison rng_at sample_utility_at
     sample_estimate_at compare_at).
Local Abbreviation run_grid :=
  (Simulation.run_grid db trace comparison rng_at sample_utility_at
     sample_estimate_at compare_at).
Local Abbreviation rows_of :=
  (Simulation.rows_of db trace comparison rng_at sample_utility_at
     sample_estimate_at compare_at).
Local Abbreviation messages_of :=
  (Simulation.messages_of db trace comparison rng_at sample_utility_at
     sample_estimate_at compare_at).
Local Abbreviation succeeds :=
  (Simulation.succeeds db trace comparison rng_at sample_utility_at
     sample_estimate_at compare_at).

(** One pass: a failure prints its message and adds no row, a success adds
    exactly one row. *)
Lemma pass_spec (k : nat) (SIM : config) (st : grid_state comparison) :
  results _ (pass k SIM st) = results _ st ++ rows_of (k, SIM) /\
  printed _ (pass k SIM st) = printed _ st ++ messages_of (k, SIM).
Proof.
  unfold Simulation.pass, Simulation.rows_of, Simulation.messages_of. cbn [fst snd].
  destruct (Simulation.attempt _ _ _ _ _ _ _ k SIM) as [e|new_row];
    cbn [results printed]; rewrite ?app_nil_r, <- ?app_assoc; auto.
Qed.

Lemma grid_loop_spec (test : list config) (k : nat)
  (st : grid_state comparison) :
  results _ (grid_loop k test st) =
  results _ st ++ flat_map rows_of (numbered k test) /\
  printed _ (grid_loop k test st) =
  printed _ st ++ flat_map messages_of (numbered k test).
Proof.
  revert k st. induction test as [|SIM rest IH]; intros k st.
  - simpl. now rewrite !app_nil_r.
  - cbn [Simulation.grid_loop].
    destruct (IH (S k) (Simulation.pass db trace comparison rng_at
                          sample_utility_at sample_estimate_at compare_at
                          k SIM st)) as [Hr Hp].
    destruct (pass_spec k SIM st) as [Hr' Hp'].
    rewrite Hr, Hp, Hr', Hp'.
    unfold numbered. cbn [length seq combine flat_map].
    now rewrite <- !app_assoc.
Qed.

Lemma Utility_on_simulated (x : arrays) (rest : dataframe) (N : Z)
  (sample : model -> result trace) (t : trace) :
  length (values_ x) = length (sub_idx x) ->
  length (risks x) = length (sub_idx x) ->
  length (ambiguities x) = length (sub_idx x) ->
  (forall m, sample m = ok t) ->
  let simdata :=
    [ ("sub", map Int (ID x));
      ("choice", map Int (choice x));
      ("value", map Int (values_ x));
      ("risk", map Float (risks x)) ] ++
    ("ambiguity", map Float (ambiguities x)) :: rest in
  Models.Utility trace sample N (sub_idx x) simdata = (simdata, ok t).
Proof.
  intros Hv Hr Ha Hs simdata. cbn [app] in simdata.
  unfold Models.Utility, Models.utility_model, bind.
  erewrite utility_arrays_run;
    [|reflexivity|apply values_ints|reflexivity|apply values_floats
     |reflexivity|apply values_floats
     |now rewrite length_map|now rewrite length_map|now rewrite length_map].
  unfold read, lift, ret, getitem. subst simdata.
  cbn [lookup String.eqb Ascii.eqb Bool.eqb fst snd ok].
  now rewrite Hs.
Qed.

Lemma estimate_value_on_simulated (x : arrays) (pre : column)
  (l1 l2 l3 l4 : list Z) (N : Z) (sample : model -> result trace) (t : trace) :
  length l1 = length (sub_idx x) -> length l2 = length (sub_idx x) ->
  length l3 = length (sub_idx x) -> length l4 = length (sub_idx x) ->
  length (risks x) = length (sub_idx x) ->
  length (ambiguities x) = length (sub_idx x) ->
  (forall m, sample m = ok t) ->
  let simdata :=
    [ ("sub", map Int (ID x));
      ("choice", map Int (choice x));
      ("value", map Int (values_ x));
      ("risk", map Float (risks x));
      ("ambiguity", map Float (ambiguities x));
      ("riskTol", map Float (riskTol x));
      ("ambTol", map Float (ambTol x));
      ("level", pre);
      ("l1", map Int l1); ("l2", map Int l2);
      ("l3", map Int l3); ("l4", map Int l4) ] in
  Models.estimate_value trace sample N (sub_idx x) simdata = (simdata, ok t).
Proof.
  intros H1 H2 H3 H4 Hr Ha Hs simdata.
  unfold Models.estimate_value, Models.estimate_model, bind.
  erewrite estimate_arrays_run;
    [|reflexivity|apply values_ints|reflexivity|apply values_ints
     |reflexivity|apply values_ints|reflexivity|apply values_ints
     |reflexivity|apply values_floats|reflexivity|apply values_floats
     |now rewrite length_map|now rewrite length_map|now rewrite length_map
     |now rewrite length_map|now rewrite length_map|now rewrite length_map].
  unfold read, lift, ret, getitem. subst simdata.
  cbn [lookup String.eqb Ascii.eqb Bool.eqb fst snd ok].
  now rewrite Hs.
Qed.

(** A pass on which the simulator and both samplers return ends as the
    comparison does. *)
Lemma attempt_reaches_comparison (k N : nat) (noise : R) (tu te : trace) :
  length db = 84%nat -> Forall (fun t => (0 <= value t)%Z) db ->
  (0 < N)%nat -> (0 <= noise)%R ->
  (forall m, sample_utility_at k m = ok tu) ->
  (forall m, sample_estimate_at k m = ok te) ->
  attempt k (N, noise) =
  match compare_at k tu te with
  | inl e => inl e
  | inr comp =>
      ok {| row_N := N; row_noise := noise; row_Comparison := comp |}
  end.
Proof.
  intros Hdb Hval HN Hnoise HU HE.
  destruct (sim_data_returns db (rng_at k) N noise defaults)
    as [simdata [idx Hsim]]; auto; try (simpl; lra).
  unfold Simulation.attempt. cbn [fst snd]. rewrite Hsim. cbn [ok].
  apply sim_data_inv in Hsim as [x [Hx [-> [_ [Hlen ->]]]]].
  apply sim_arrays_inv in Hx
    as [[_ [_ [Hv [Hr [Ha [_ [_ [HID Hidx]]]]]]]] _].
  assert (Hi : length (sub_idx x) = length (ID x)).
  { rewrite Hidx, HID, repeat_each_length. unfold Numpy.arange.
    now rewrite length_map, length_seq. }
  pose proof (Utility_on_simulated x
             [ ("riskTol", map Float (riskTol x));
               ("ambTol", map Float (ambTol x));
               ("level", map Int (rank_dense (values_ x)));
               ("l1", map (fun lv => Int (Z.b2z (0 <? lv)%Z))
                        (rank_dense (values_ x)));
               ("l2", map (fun lv => Int (Z.b2z (1 <? lv)%Z))
                        (rank_dense (values_ x)));
               ("l3", map (fun lv => Int (Z.b2z (2 <? lv)%Z))
                        (rank_dense (values_ x)));
               ("l4", map (fun lv => Int (Z.b2z (3 <? lv)%Z))
                        (rank_dense (values_ x))) ]
             (Z.of_nat N) (sample_utility_at k) tu) as HUx.
  cbn [app] in HUx. rewrite HUx; auto; try congruence. clear HUx.
  rewrite <- !(map_map (fun lv => Z.b2z (_ <? lv)%Z) Int).
  rewrite (estimate_value_on_simulated x _ _ _ _ _ (Z.of_nat N)
             (sample_estimate_at k) te); auto;
    try (unfold rank_dense; rewrite !length_map; congruence); try congruence.
Qed.


Lemma in_numbered (test : list config) (s k : nat) (SIM : config) :
  nth_error test k = Some SIM -> In ((s + k)%nat, SIM) (numbered s test).
Proof.
  unfold numbered. revert s k.
  induction test as [|c rest IH]; intros s [|k] H; simpl in *;
    try discriminate.
  - inversion H. left. f_equal. lia.
  - right. replace (s + S k)%nat with (S s + k)%nat by lia. now apply IH.
Qed.

(** C10.  Whatever the simulator, the samplers and the comparison do on
    each pass, the loop goes through every configuration of the list: a
    configuration whose pass raises prints its failure message and adds no
    row, a configuration whose pass goes through adds exactly one row, in
    the order of the list. *)
Theorem grid_loop_isolates_failures (test : list config) :
  results _ (run_grid test) = flat_map rows_of (numbered 0 test) /\
  printed _ (run_grid test) = flat_map messages_of (numbered 0 test) /\
  length (results _ (run_grid test)) =
  length (filter succeeds (numbered 0 test)) /\
  (forall k SIM,
      nth_error test k = Some SIM ->
      In (Simulating (fst SIM) (snd SIM)) (printed _ (run_grid test)) /\
      (forall e, attempt k SIM = inl e ->
                 In (Failed (fst SIM) (snd SIM) e) (printed _ (run_grid test)) /\
                 rows_of (k, SIM) = []) /\
      (forall new_row, attempt k SIM = inr new_row ->
                       rows_of (k, SIM) = [new_row] /\
                       In new_row (results _ (run_grid test)))).
Proof.
  destruct (grid_loop_spec test 0 {| results := []; printed := [] |})
    as [Hr Hp].
  cbn [results printed app] in Hr, Hp.
  assert (Hnum : forall k SIM, nth_error test k = Some SIM ->
                               In (k, SIM) (numbered 0 test)).
  { intros k SIM H. apply (in_numbered test 0 k SIM H). }
  unfold Simulation.run_grid.
  split; [exact Hr|]. split; [exact Hp|]. split.
  - rewrite Hr. clear. induction (numbered 0 test) as [|p l IH];
      [reflexivity|].
    cbn [flat_map filter]. rewrite length_app, IH.
    unfold Simulation.rows_of, Simulation.succeeds.
    destruct (Simulation.attempt _ _ _ _ _ _ _ (fst p) (snd p)); reflexivity.
  - intros k SIM Hk. specialize (Hnum k SIM Hk).
    rewrite Hr, Hp. repeat split.
    + apply in_flat_map. exists (k, SIM). split; [exact Hnum|].
      left. reflexivity.
    + apply in_flat_map. exists (k, SIM). split; [exact Hnum|].
      unfold Simulation.messages_of. cbn [fst snd].
      rewrite H. right. left. reflexivity.
    + unfold Simulation.rows_of. cbn [fst snd].
      now rewrite H.
    + unfold Simulation.rows_of. cbn [fst snd].
      now rewrite H.
    + apply in_flat_map. exists (k, SIM). split; [exact Hnum|].
      unfold Simulation.rows_of. cbn [fst snd].
      rewrite H. left. reflexivity.
Qed.

End GridFacts.

Section GridSample.
Import Simulation.

Local Open Scope R_scope.

Lemma grid_loop_isolates_failures_witness :
  nth_error test 1 = Some (30%nat, 0.3) /\
  In (Simulating 30 0.3) (printed _ Samples.sample_grid) /\
  In (Failed 30 0.3 (OtherError "comparison failed"))
    (printed _ Samples.sample_grid) /\
  rows_of Samples.sim_csv nat nat (fun _ => Samples.fixed_rng) Samples.sampler
    Samples.sampler Samples.compare_fails_on_second (1%nat, (30%nat, 0.3)) = [] /\
  nth_error test 2 = Some (30%nat, 0.5) /\
  In {| row_N := 30; row_noise := 0.5; row_Comparison := 2%nat |}
    (results _ Samples.sample_grid).
Proof.
  pose proof (grid_loop_isolates_failures Samples.sim_csv nat nat
                (fun _ => Samples.fixed_rng) Samples.sampler Samples.sampler
                Samples.compare_fails_on_second test) as [_ [_ [_ H]]].
  assert (H1 : attempt Samples.sim_csv nat nat (fun _ => Samples.fixed_rng)
                 Samples.sampler Samples.sampler Samples.compare_fails_on_second
                 1 (30%nat, 0.3) = inl (OtherError "comparison failed")).
  { rewrite (attempt_reaches_comparison _ _ _ _ _ _ _ 1 30 0.3 1%nat 1%nat);
      try reflexivity; try lia; try lra.
    apply amounts_dec. vm_compute. reflexivity. }
  assert (H2 : attempt Samples.sim_csv nat nat (fun _ => Samples.fixed_rng)
                 Samples.sampler Samples.sampler Samples.compare_fails_on_second
                 2 (30%nat, 0.5) =
               inr {| row_N := 30; row_noise := 0.5; row_Comparison := 2%nat |}).
  { rewrite (attempt_reaches_comparison _ _ _ _ _ _ _ 2 30 0.5 2%nat 2%nat);
      try reflexivity; try lia; try lra.
    apply amounts_dec. vm_compute. reflexivity. }
  destruct (H 1%nat (30%nat, 0.3) eq_refl) as [Hs [Hf _]].
  destruct (Hf _ H1) as [Hfailed Hnone].
  destruct (H 2%nat (30%nat, 0.5) eq_refl) as [_ [_ Hok]].
  destruct (Hok _ H2) as [_ Hrow].
  repeat split; assumption.
Defined.

End GridSample.

(** * Further properties *)

(** ** File names *)

Section FileNames.
Import Pandas ExportSubData.

Lemma split_not_nil (sep : ascii) (s : string) : split sep s <> [].
Proof.
  induction s as [|c rest IH]; simpl; [discriminate|].
  destruct (Ascii.eqb c sep); [discriminate|].
  destruct (split sep rest); [contradiction|discriminate].
Qed.

Lemma split_length (sep : ascii) (s : string) :
  length (split sep s) = S (count_char sep s).
Proof.
  induction s as [|c rest IH]; simpl; [reflexivity|].
  destruct (Ascii.eqb c sep); simpl; [now rewrite IH|].
  destruct (split sep rest) as [|w ws] eqn:E; simpl in *; lia.
Qed.

Lemma index_split_sep (sep : ascii) (s : string) (n : nat) :
  index (split sep (String sep s)) (S n) = index (split sep s) n.
Proof. simpl. now rewrite Ascii.eqb_refl. Qed.

Lemma index_split_other (sep c : ascii) (s : string) (n : nat) :
  Ascii.eqb c sep = false ->
  index (split sep (String c s)) (S n) = index (split sep s) (S n).
Proof.
  intros H. simpl. rewrite H.
  destruct (split sep s) as [|w ws] eqn:E; [|reflexivity].
  now apply split_not_nil in E.
Qed.

Lemma index_split_first (sep : ascii) (a b : string) :
  occurs sep a = false ->
  index (split sep (String.append a (String sep b))) 0 = ok a.
Proof.
  induction a as [|c rest IH]; simpl; intros H.
  - now rewrite Ascii.eqb_refl.
  - apply orb_false_iff in H as [Hc Hrest]. rewrite Hc.
    specialize (IH Hrest). unfold index in IH.
    destruct (split sep (String.append rest (String sep b))) as [|w ws];
      simpl in *; [discriminate|].
    unfold ok in IH. inversion IH. reflexivity.
Qed.

Ltac peel_prefix :=
  repeat first
    [ rewrite index_split_sep
    | rewrite index_split_other by reflexivity ].

(** X1.  For a file name matched by the monetary or by the medical pattern
    whose first wildcard holds no underscore, the subject string is that
    first wildcard. *)
Theorem subject_of_matched_name (a b : string) :
  occurs "_" a = false ->
  subject_of (monetary_fname a b) = ok a /\
  subject_of (medical_fname a b) = ok a.
Proof.
  intros H. unfold subject_of, monetary_fname, medical_fname, glob_prefix.
  cbn [String.append]. split; peel_prefix.
  - apply (index_split_first "_" a ("RA/MDM_MON_" ++ (b ++ ".mat"))%string H).
  - apply (index_split_first "_" a ("RA/MDM_MED_" ++ (b ++ ".mat"))%string H).
Qed.

Lemma subject_of_matched_name_witness :
  subject_of (monetary_fname "12" "12") = ok "12" /\
  subject_of (medical_fname "12" "12") = ok "12".
Proof. exact (subject_of_matched_name "12" "12" eq_refl). Defined.

(** X2.  The subject string exists exactly when the file name holds at
    least five underscores; otherwise indexing the pieces raises
    [IndexError]. *)
Theorem subject_of_needs_five_underscores (fname : string) :
  ((5 <= count_char "_" fname)%nat <-> exists sub, subject_of fname = ok sub) /\
  ((count_char "_" fname < 5)%nat <-> subject_of fname = raise IndexError).
Proof.
  unfold subject_of, index.
  pose proof (split_length "_" fname) as Hlen.
  destruct (nth_error (split "_"%char fname) 5) as [s|] eqn:E.
  - assert (5 < length (split "_"%char fname))%nat
      by (apply nth_error_Some; congruence).
    split; split; intros H'; try lia; try discriminate. eauto.
  - apply nth_error_None in E.
    split; split; intros H'; try lia; try reflexivity.
    destruct H' as [sub H']. discriminate.
Qed.

End FileNames.

(** ** The extracted tables *)

Section TableFacts.
Import Pandas Numpy ExportSubData.

Lemma reindex_rows (n : nat) (c : column) : length (reindex n c) = n.
Proof.
  revert c. induction n as [|n IH]; intros [|x t]; simpl; auto.
Qed.

Lemma column_or_nan_rows (df : dataframe) (name : string) :
  wf df -> length (column_or_nan df name) = nrows df.
Proof.
  intros Hwf. unfold column_or_nan.
  destruct (lookup df name) as [c|] eqn:E.
  - eapply wf_lookup; eauto.
  - apply repeat_length.
Qed.

Lemma columns_nil (df : dataframe) : columns df = [] -> df = [].
Proof. destruct df; [reflexivity|discriminate]. Qed.

(** [pd.concat] of two well-formed frames is well formed and has the rows
    of both. *)
Lemma concat_rows (df1 df2 : dataframe) :
  wf df1 -> wf df2 ->
  wf (concat df1 df2) /\ nrows (concat df1 df2) = (nrows df1 + nrows df2)%nat.
Proof.
  intros H1 H2. unfold concat.
  set (names := columns df1 ++
                filter (fun n => negb (mem n (columns df1))) (columns df2)).
  assert (Hn : nrows (map (fun n => (n, column_or_nan df1 n ++ column_or_nan df2 n))
                        names) = (nrows df1 + nrows df2)%nat).
  { destruct names as [|n rest] eqn:E.
    - subst names. apply app_eq_nil in E as [Ea Eb].
      apply columns_nil in Ea. subst df1. simpl in Eb.
      assert (columns df2 = []).
      { destruct (columns df2); [reflexivity|discriminate]. }
      apply columns_nil in H. subst df2. reflexivity.
    - simpl. rewrite length_app, !column_or_nan_rows by assumption.
      reflexivity. }
  split; [|exact Hn].
  unfold wf. rewrite Hn. apply Forall_forall. intros p Hp.
  apply in_map_iff in Hp as [n [<- _]]. simpl.
  now rewrite length_app, !column_or_nan_rows.
Qed.

Lemma monetary_body_parts (f : mat_file) (db : dataframe) (out : list line) :
  monetary_body f = ok (db, out) ->
  exists mat sub cv,
    loadmat f = ok mat /\ subject_of (mat_fname f) = ok sub /\
    read_trials monetary mat = ok cv /\
    subject_table monetary mat sub cv = ok (db, out).
Proof.
  unfold monetary_body. intros H.
  destruct (loadmat f) as [e|mat]; simpl in H; [discriminate|].
  destruct (subject_of (mat_fname f)) as [e|sub]; simpl in H; [discriminate|].
  destruct (read_trials monetary mat) as [e|cv] eqn:E; simpl in H; [discriminate|].
  exists mat, sub, cv. auto.
Qed.

Lemma medical_body_parts (f : mat_file) (db : dataframe) (out : list line) :
  medical_body f = Rows db out ->
  exists mat sub cv,
    loadmat f = ok mat /\ subject_of (mat_fname f) = ok sub /\
    read_trials medical mat = ok cv /\
    subject_table medical mat sub cv = ok (db, out).
Proof.
  unfold medical_body. intros H.
  destruct (loadmat f) as [e|mat]; [discriminate|].
  destruct (subject_of (mat_fname f)) as [e|sub]; [discriminate|].
  destruct (read_trials medical mat) as [e|cv] eqn:E; [discriminate|].
  destruct (subject_table medical mat sub cv) as [e|[db' out']] eqn:E';
    [discriminate|].
  inversion H; subst. exists mat, sub, cv. auto.
Qed.

Lemma subject_table_shape (L : labels) (mat : mat_struct) (sub : string)
  (cv : list (string * string)) (db : dataframe) (out : list line) :
  subject_table L mat sub cv = ok (db, out) ->
  wf db /\ nrows db = length cv /\
  getitem db "sub" = ok (repeat (Str sub) (length cv)) /\
  getitem db "value" = ok (reindex (length cv) (vals mat)).
Proof.
  intros H. apply subject_table_inv in H as [catch [_ ->]].
  repeat split.
  - unfold wf. cbn [nrows]. rewrite !length_map.
    repeat constructor; cbn [snd];
      rewrite ?length_map, ?reindex_rows, ?repeat_length; reflexivity.
  - cbn [nrows]. now rewrite !length_map.
Qed.

(** X3.  A table extracted from one file, in either loop, is well formed
    with 84 rows, one per trial of the four blocks; its [sub] column holds
    on every row the sixth underscore-separated piece of the file name, and
    its [value] column is field 8 of the structure aligned on the 84 rows,
    not the option texts read in the loop over the trials. *)
Theorem extracted_table_shape :
  (forall f db out,
      monetary_body f = ok (db, out) ->
      wf db /\ nrows db = 84%nat /\
      exists mat sub,
        loadmat f = ok mat /\ subject_of (mat_fname f) = ok sub /\
        getitem db "sub" = ok (repeat (Str sub) 84) /\
        getitem db "value" = ok (reindex 84 (vals mat)))
  /\
  (forall f db out,
      medical_body f = Rows db out ->
      wf db /\ nrows db = 84%nat /\
      exists mat sub,
        loadmat f = ok mat /\ subject_of (mat_fname f) = ok sub /\
        getitem db "sub" = ok (repeat (Str sub) 84) /\
        getitem db "value" = ok (reindex 84 (vals mat))).
Proof.
  split; intros f db out H.
  - apply monetary_body_parts in H as [mat [sub [cv [Hl [Hs [Hr Ht]]]]]].
    apply subject_table_shape in Ht as [Hwf [Hn [Hsub Hval]]].
    rewrite (read_trials_length _ _ _ Hr) in *.
    repeat split; auto. exists mat, sub. auto.
  - apply medical_body_parts in H as [mat [sub [cv [Hl [Hs [Hr Ht]]]]]].
    apply subject_table_shape in Ht as [Hwf [Hn [Hsub Hval]]].
    rewrite (read_trials_length _ _ _ Hr) in *.
    repeat split; auto. exists mat, sub. auto.
Qed.

Lemma extracted_table_shape_witness :
  exists db,
    monetary_body Samples.mon_file = ok (db, []) /\
    wf db /\ nrows db = 84%nat /\
    exists mat sub,
      loadmat Samples.mon_file = ok mat /\
      subject_of (mat_fname Samples.mon_file) = ok sub /\
      getitem db "sub" = ok (repeat (Str sub) 84) /\
      getitem db "value" = ok (reindex 84 (vals mat)).
Proof.
  destruct sample_monetary_table as [db Hdb].
  exists db. split; [exact Hdb|].
  exact (proj1 extracted_table_shape _ _ _ Hdb).
Defined.

Lemma subject_table_ignores_texts (L : labels) (mat mat' : mat_struct)
  (sub : string) (cv cv' : list (string * string)) :
  vals mat = vals mat' -> risk mat = risk mat' ->
  ambiguity mat = ambiguity mat' -> rt mat = rt mat' ->
  map fst cv = map fst cv' ->
  subject_table L mat sub cv = subject_table L mat' sub cv'.
Proof.
  intros Hv Hr Ha Ht Hc.
  assert (Hlen : length cv = length cv').
  { rewrite <- (length_map fst cv), Hc. apply length_map. }
  unfold subject_table, setitem_series, setitem_scalar, getitem.
  cbn [assign lookup String.eqb Ascii.eqb Bool.eqb nrows rbind ok fst snd].
  rewrite !length_map.
  rewrite <- !(map_map fst Str), Hc, Hv, Hr, Ha, Ht, Hlen.
  reflexivity.
Qed.

(** X4.  The option texts that the loop over the trials collects in the
    list [value] (fields 2 and 3 of a trial) must be there to be read, but
    do not reach the table: [db['value'] = vals] overwrites them.  Two
    files of one name whose structures agree on fields 8, 9, 10 and [rt],
    and from whose trials the loop reads the same responses, give the
    same table and the same output, in the monetary and in the medical
    loop. *)
Theorem table_ignores_option_texts (f f' : mat_file) (mat mat' : mat_struct) :
  mat_fname f = mat_fname f' ->
  loadmat f = ok mat -> loadmat f' = ok mat' ->
  vals mat = vals mat' -> risk mat = risk mat' ->
  ambiguity mat = ambiguity mat' -> rt mat = rt mat' ->
  (forall cv cv',
      read_trials monetary mat = ok cv -> read_trials monetary mat' = ok cv' ->
      map fst cv = map fst cv' ->
      monetary_body f = monetary_body f') /\
  (forall cv cv',
      read_trials medical mat = ok cv -> read_trials medical mat' = ok cv' ->
      map fst cv = map fst cv' ->
      medical_body f = medical_body f').
Proof.
  intros Hn Hl Hl' Hv Hr Ha Ht. split; intros cv cv' Hcv Hcv' Hc.
  - unfold monetary_body. rewrite Hl, Hl', Hn. cbn [rbind ok].
    destruct (subject_of (mat_fname f')) as [e|sub]; [reflexivity|].
    cbn [rbind]. rewrite Hcv, Hcv'. cbn [rbind ok].
    now apply subject_table_ignores_texts.
  - unfold medical_body. rewrite Hl, Hl', Hn. cbn [ok].
    destruct (subject_of (mat_fname f')) as [e|sub]; [reflexivity|].
    rewrite Hcv, Hcv'. cbn [ok].
    now rewrite (subject_table_ignores_texts medical mat mat' sub cv cv').
Qed.

Lemma table_ignores_option_texts_witness :
  monetary_body Samples.mon_file = monetary_body Samples.mon_file_texts.
Proof.
  destruct (read_trials monetary Samples.mon_mat) as [e|cv] eqn:Hcv;
    [vm_compute in Hcv; discriminate|].
  destruct (loadmat Samples.mon_file_texts) as [e|mat'] eqn:Hl';
    [discriminate|].
  destruct (read_trials monetary mat') as [e|cv'] eqn:Hcv';
    [revert Hl' Hcv'; vm_compute; intros Hl'; inversion Hl'; subst mat';
     discriminate|].
  refine (proj1 (table_ignores_option_texts Samples.mon_file
                   Samples.mon_file_texts Samples.mon_mat mat'
                   eq_refl eq_refl Hl' _ _ _ _) cv cv' Hcv Hcv' _);
    unfold ok in Hl'; inversion Hl'; subst mat'; try reflexivity.
  revert Hcv Hcv'. vm_compute. intros Hcv Hcv'.
  inversion Hcv; inversion Hcv'. reflexivity.
Defined.

End TableFacts.

(** ** Catch trials *)

Section CatchFacts.
Import Pandas Numpy ExportSubData.

(** The output of a loop body next to its table. *)
Lemma subject_table_out (L : labels) (mat : mat_struct) (sub : string)
  (cv : list (string * string)) (db : dataframe) (out : list line) :
  String.eqb (reference_label L) (lottery_label L) = false ->
  subject_table L mat sub cv = ok (db, out) ->
  let n := lottery_on_catch L cv (reindex (length cv) (vals mat)) in
  out = if 5 <? n then [PrintCatch sub (Int n)] else [].
Proof.
  intros Hne.
  unfold subject_table, setitem_series, setitem_scalar, getitem.
  cbn [assign lookup String.eqb Ascii.eqb Bool.eqb nrows rbind ok fst snd].
  rewrite !length_map.
  rewrite <- (map_map fst Str cv), recode_texts.
  rewrite (reindex_same (length cv) (map (recode_text L) (map fst cv)))
    by now rewrite !length_map.
  intros H.
  destruct (nansum (mask (map (recode_text L) (map fst cv))
                      (reindex (length cv) (vals mat)))) as [e|catch] eqn:E;
    simpl in H; [discriminate|].
  apply (nansum_counts_lottery L Hne) in E. subst catch.
  simpl in H. inversion H. reflexivity.
Qed.

(** X5.  A loop body prints the subject with the catch count exactly when
    the participant chose the lottery on more than 5 catch trials, and
    prints nothing otherwise. *)
Theorem catch_printed_above_five :
  (forall f db out,
      monetary_body f = ok (db, out) ->
      exists mat sub cv,
        loadmat f = ok mat /\ subject_of (mat_fname f) = ok sub /\
        read_trials monetary mat = ok cv /\
        let n := lottery_on_catch monetary cv (reindex 84 (vals mat)) in
        (5 < n -> out = [PrintCatch sub (Int n)]) /\ (n <= 5 -> out = []))
  /\
  (forall f db out,
      medical_body f = Rows db out ->
      exists mat sub cv,
        loadmat f = ok mat /\ subject_of (mat_fname f) = ok sub /\
        read_trials medical mat = ok cv /\
        let n := lottery_on_catch medical cv (reindex 84 (vals mat)) in
        (5 < n -> out = [PrintCatch sub (Int n)]) /\ (n <= 5 -> out = [])).
Proof.
  split; intros f db out H.
  - apply monetary_body_parts in H as [mat [sub [cv [Hl [Hs [Hr Ht]]]]]].
    exists mat, sub, cv. repeat (split; [assumption|]).
    apply subject_table_out in Ht; [|reflexivity].
    rewrite (read_trials_length _ _ _ Hr) in Ht. cbv zeta in *.
    destruct (Z.ltb_spec 5 (lottery_on_catch monetary cv (reindex 84 (vals mat))));
      split; intros; auto; lia.
  - apply medical_body_parts in H as [mat [sub [cv [Hl [Hs [Hr Ht]]]]]].
    exists mat, sub, cv. repeat (split; [assumption|]).
    apply subject_table_out in Ht; [|reflexivity].
    rewrite (read_trials_length _ _ _ Hr) in Ht. cbv zeta in *.
    destruct (Z.ltb_spec 5 (lottery_on_catch medical cv (reindex 84 (vals mat))));
      split; intros; auto; lia.
Qed.

Lemma catch_printed_above_five_witness :
  exists db mat sub cv,
    monetary_body Samples.mon_file = ok (db, []) /\
    loadmat Samples.mon_file = ok mat /\
    subject_of (mat_fname Samples.mon_file) = ok sub /\
    read_trials monetary mat = ok cv /\
    lottery_on_catch monetary cv (reindex 84 (vals mat)) <= 5.
Proof.
  destruct sample_monetary_table as [db Hdb].
  destruct (proj1 catch_printed_above_five _ _ _ Hdb)
    as [mat [sub [cv [Hl [Hs [Hr _]]]]]].
  exists db, mat, sub, cv. repeat (split; [assumption|]).
  revert Hl Hr. vm_compute. intros Hl Hr.
  inversion Hl; subst mat. inversion Hr; subst cv. vm_compute. discriminate.
Defined.

Lemma lottery_on_catch_bounds (L : labels) (cv : list (string * string))
  (value : column) :
  0 <= lottery_on_catch L cv value <= Z.of_nat (catch_trials value).
Proof.
  unfold lottery_on_catch, catch_trials. split; [lia|].
  apply inj_le. revert value.
  induction cv as [|p t IH]; intros [|v vs]; simpl; try lia.
  specialize (IH vs).
  destruct (eq5 v); simpl; [|exact IH].
  destruct (String.eqb (fst p) (lottery_label L)); simpl; lia.
Qed.

(** X6.  The catch count stored in a table lies between 0 and the number
    of catch trials (rows with value 5) of that table, which is at most
    84. *)
Theorem catch_count_bounds :
  (forall f db out,
      monetary_body f = ok (db, out) ->
      exists n value,
        getitem db "catch" = ok (repeat (Int n) 84) /\
        getitem db "value" = ok value /\
        0 <= n <= Z.of_nat (catch_trials value) /\
        (catch_trials value <= 84)%nat)
  /\
  (forall f db out,
      medical_body f = Rows db out ->
      exists n value,
        getitem db "catch" = ok (repeat (Int n) 84) /\
        getitem db "value" = ok value /\
        0 <= n <= Z.of_nat (catch_trials value) /\
        (catch_trials value <= 84)%nat).
Proof.
  split; intros f db out H.
  - apply monetary_body_parts in H as [mat [sub [cv [Hl [Hs [Hr Ht]]]]]].
    pose proof (subject_table_catch monetary mat sub cv db out eq_refl Ht) as Hc.
    apply subject_table_shape in Ht as [_ [_ [_ Hv]]].
    rewrite (read_trials_length _ _ _ Hr) in *.
    eexists. eexists. split; [exact Hc|]. split; [exact Hv|].
    split; [apply lottery_on_catch_bounds|].
    unfold catch_trials.
    rewrite <- (reindex_rows 84 (vals mat)) at 2. apply filter_length_le.
  - apply medical_body_parts in H as [mat [sub [cv [Hl [Hs [Hr Ht]]]]]].
    pose proof (subject_table_catch medical mat sub cv db out eq_refl Ht) as Hc.
    apply subject_table_shape in Ht as [_ [_ [_ Hv]]].
    rewrite (read_trials_length _ _ _ Hr) in *.
    eexists. eexists. split; [exact Hc|]. split; [exact Hv|].
    split; [apply lottery_on_catch_bounds|].
    unfold catch_trials.
    rewrite <- (reindex_rows 84 (vals mat)) at 2. apply filter_length_le.
Qed.

Lemma catch_count_bounds_witness :
  exists db n value,
    medical_body Samples.med_file = Rows db [] /\
    getitem db "catch" = ok (repeat (Int n) 84) /\
    getitem db "value" = ok value /\
    0 <= n <= Z.of_nat (catch_trials value) /\
    (catch_trials value <= 84)%nat.
Proof.
  destruct sample_medical_table as [db Hdb].
  destruct (proj2 catch_count_bounds _ _ _ Hdb) as [n [value H]].
  exists db, n, value. split; [exact Hdb|exact H].
Defined.

(** A response outside the vocabulary on a catch trial stops the sum. *)
Lemma nansum_text_raises (L : labels) (raws : list string) :
  forall (value : column) (a : Z) (i : nat) (raw : string) (v : cell),
    nth_error raws i = Some raw -> ~ In raw (vocabulary L) ->
    nth_error value i = Some v -> eq5 v = true ->
    nansum_from (Int a) (mask (map (recode_text L) raws) value) = raise TypeError.
Proof.
  induction raws as [|s t IH]; intros value a i raw v Hraw Hvoc Hv H5.
  - destruct i; discriminate.
  - destruct value as [|v0 vs]; [destruct i; discriminate|].
    destruct i as [|i]; simpl in Hraw, Hv.
    + inversion Hraw; inversion Hv; subst s v0.
      cbn [map mask]. rewrite H5. cbn [nansum_from].
      assert (Hs : recode_text L raw = Str raw).
      { unfold recode_text. unfold vocabulary in Hvoc. simpl in Hvoc.
        destruct (String.eqb_spec raw (reference_label L));
          [intuition congruence|].
        destruct (String.eqb_spec raw (lottery_label L));
          [intuition congruence|].
        destruct (String.eqb_spec raw "None");
          [intuition congruence|reflexivity]. }
      rewrite Hs. reflexivity.
    + cbn [map mask]. destruct (eq5 v0).
      * cbn [nansum_from]. unfold recode_text.
        destruct (String.eqb s (reference_label L));
          [cbn [add rbind ok]; eapply IH; eauto|].
        destruct (String.eqb s (lottery_label L));
          [cbn [add rbind ok]; eapply IH; eauto|].
        destruct (String.eqb s "None");
          [cbn [add rbind ok]; eapply IH; eauto|].
        reflexivity.
      * eapply IH; eauto.
Qed.

Lemma subject_table_text_raises (L : labels) (mat : mat_struct) (sub : string)
  (cv : list (string * string)) (i : nat) (raw : string) (v : cell) :
  nth_error (map fst cv) i = Some raw -> ~ In raw (vocabulary L) ->
  nth_error (reindex (length cv) (vals mat)) i = Some v -> eq5 v = true ->
  subject_table L mat sub cv = raise TypeError.
Proof.
  intros Hraw Hvoc Hv H5.
  unfold subject_table, setitem_series, setitem_scalar, getitem.
  cbn [assign lookup String.eqb Ascii.eqb Bool.eqb nrows rbind ok fst snd].
  rewrite !length_map.
  rewrite <- (map_map fst Str cv), recode_texts.
  rewrite (reindex_same (length cv) (map (recode_text L) (map fst cv)))
    by now rewrite !length_map.
  unfold nansum.
  now rewrite (nansum_text_raises L _ _ 0 i raw v Hraw Hvoc Hv H5).
Qed.

(** X7.  A response that is none of the three labels, given on a catch
    trial, makes the catch sum raise [TypeError].  The monetary body raises
    it; in the medical loop the sum lies outside the [try] block, so the
    file is not skipped: the cell stops with [TypeError] and keeps its state
    as it was before the file. *)
Theorem unknown_response_on_catch_trial_raises
  (f : mat_file) (mat : mat_struct) (sub : string) (L : labels)
  (cv : list (string * string)) (i : nat) (raw : string) (v : cell) :
  loadmat f = ok mat -> subject_of (mat_fname f) = ok sub ->
  read_trials L mat = ok cv ->
  nth_error (map fst cv) i = Some raw -> ~ In raw (vocabulary L) ->
  nth_error (reindex 84 (vals mat)) i = Some v -> eq5 v = true ->
  (L = monetary ->
   monetary_body f = raise TypeError /\
   forall rest st, monetary_loop (f :: rest) st = (st, Raised TypeError)) /\
  (L = medical ->
   medical_body f = Abort TypeError /\
   forall rest st, medical_loop (f :: rest) st = (st, Raised TypeError)).
Proof.
  intros Hl Hs Hr Hraw Hvoc Hv H5.
  rewrite <- (read_trials_length _ _ _ Hr) in Hv.
  pose proof (subject_table_text_raises L mat sub cv i raw v Hraw Hvoc Hv H5)
    as Ht.
  split; intros ->.
  - assert (Hb : monetary_body f = raise TypeError).
    { unfold monetary_body. rewrite Hl. cbn [ok rbind]. rewrite Hs.
      cbn [ok rbind]. rewrite Hr. cbn [ok rbind]. exact Ht. }
    split; [exact Hb|]. intros rest st. cbn [monetary_loop]. now rewrite Hb.
  - assert (Hb : medical_body f = Abort TypeError).
    { unfold medical_body. rewrite Hl. cbn [ok]. rewrite Hs. cbn [ok].
      rewrite Hr. cbn [ok]. now rewrite Ht. }
    split; [exact Hb|]. intros rest st. cbn [medical_loop]. now rewrite Hb.
Qed.

Lemma unknown_response_on_catch_trial_raises_witness :
  medical_body Samples.med_odd = Abort TypeError /\
  forall rest st,
    medical_loop (Samples.med_odd :: rest) st = (st, Raised TypeError).
Proof.
  destruct (read_trials medical Samples.med_odd_mat) as [e|cv] eqn:Hcv;
    [vm_compute in Hcv; discriminate|].
  refine (proj2 (unknown_response_on_catch_trial_raises Samples.med_odd
                   Samples.med_odd_mat "40" medical cv 0 "Experimental" (Int 5)
                   eq_refl _ Hcv _ _ _ eq_refl) eq_refl).
  - vm_compute. reflexivity.
  - revert Hcv. vm_compute. intros Hcv. inversion Hcv. reflexivity.
  - vm_compute. intros [H|[H|[H|[]]]]; discriminate.
  - vm_compute. reflexivity.
Defined.

End CatchFacts.

(** ** The two loops over the files *)

Section LoopFacts.
Import Pandas Numpy ExportSubData.

(** X8.  A loop over two lists of files one after the other is the loop
    over the first list followed, if that one runs to its end, by the loop
    over the second list from the state reached; if the first one raises,
    the second list is never read.  This holds for both loops. *)
Theorem loops_compose (files files' : list mat_file) (st : cell_state) :
  monetary_loop (files ++ files') st =
  match monetary_loop files st with
  | (st', Finished) => monetary_loop files' st'
  | (st', Raised e) => (st', Raised e)
  end
  /\
  medical_loop (files ++ files') st =
  match medical_loop files st with
  | (st', Finished) => medical_loop files' st'
  | (st', Raised e) => (st', Raised e)
  end.
Proof.
  split; revert st; induction files as [|f rest IH]; intros st.
  - cbn [app monetary_loop]. now destruct (monetary_loop files' st) as [? [|?]].
  - cbn [app monetary_loop].
    destruct (monetary_body f) as [e|[db out]]; [reflexivity|apply IH].
  - cbn [app medical_loop]. now destruct (medical_loop files' st) as [? [|?]].
  - cbn [app medical_loop].
    destruct (medical_body f) as [out|db out|e];
      [apply IH|apply IH|reflexivity].
Qed.

Lemma failed_lines_app (out out' : list line) :
  failed_lines (out ++ out') = (failed_lines out + failed_lines out')%nat.
Proof. unfold failed_lines. now rewrite filter_app, length_app. Qed.

Lemma subject_table_no_failed_line (L : labels) (mat : mat_struct)
  (sub : string) (cv : list (string * string)) (db : dataframe)
  (out : list line) :
  subject_table L mat sub cv = ok (db, out) -> failed_lines out = 0%nat.
Proof.
  unfold subject_table, setitem_series, setitem_scalar, getitem.
  cbn [assign lookup String.eqb Ascii.eqb Bool.eqb nrows rbind ok fst snd].
  intros H.
  destruct (nansum _) as [e|catch]; simpl in H; [discriminate|].
  destruct (gt5 catch) as [e|[|]]; simpl in H; [discriminate| |];
    inversion H; reflexivity.
Qed.

Lemma monetary_loop_rows (files : list mat_file) :
  forall st st',
    monetary_loop files st = (st', Finished) -> wf (df st) ->
    wf (df st') /\
    nrows (df st') = (nrows (df st) + 84 * length files)%nat /\
    failed_lines (stdout st') = failed_lines (stdout st).
Proof.
  induction files as [|f rest IH]; intros st st' H Hwf.
  - simpl in H. inversion H; subst. repeat split; auto; simpl; lia.
  - cbn [monetary_loop] in H.
    destruct (monetary_body f) as [e|[db out]] eqn:E; [discriminate|].
    apply monetary_body_parts in E as [mat [sub [cv [_ [_ [Hr Ht]]]]]].
    pose proof (subject_table_no_failed_line _ _ _ _ _ _ Ht) as Hout.
    apply subject_table_shape in Ht as [Hwfdb [Hn _]].
    rewrite (read_trials_length _ _ _ Hr) in Hn.
    destruct (concat_rows (df st) db Hwf Hwfdb) as [Hwfc Hnc].
    apply IH in H as [H1 [H2 H3]]; [|exact Hwfc].
    cbn [df stdout] in *. rewrite failed_lines_app, Hout in H3.
    repeat split; auto; simpl; lia.
Qed.

Lemma medical_loop_rows (files : list mat_file) :
  forall st st',
    medical_loop files st = (st', Finished) -> wf (df st) ->
    wf (df st') /\
    (nrows (df st') + 84 * failed_lines (stdout st') =
     nrows (df st) + 84 * failed_lines (stdout st) + 84 * length files)%nat.
Proof.
  induction files as [|f rest IH]; intros st st' H Hwf.
  - simpl in H. inversion H; subst. split; auto; simpl; lia.
  - cbn [medical_loop] in H.
    destruct (medical_body f) as [out|db out|e] eqn:E; [| |discriminate].
    + assert (Hout : failed_lines out = 1%nat).
      { unfold medical_body in E.
        destruct (loadmat f); [discriminate|].
        destruct (subject_of (mat_fname f)); [discriminate|].
        destruct (read_trials medical m); [inversion E; reflexivity|].
        destruct (subject_table medical m s l) as [|[? ?]]; discriminate. }
      apply IH in H as [H1 H2]; [|exact Hwf].
      cbn [df stdout] in *. rewrite failed_lines_app, Hout in H2.
      split; auto. simpl. lia.
    + apply medical_body_parts in E as [mat [sub [cv [_ [_ [Hr Ht]]]]]].
      pose proof (subject_table_no_failed_line _ _ _ _ _ _ Ht) as Hout.
      apply subject_table_shape in Ht as [Hwfdb [Hn _]].
      rewrite (read_trials_length _ _ _ Hr) in Hn.
      destruct (concat_rows (df st) db Hwf Hwfdb) as [Hwfc Hnc].
      apply IH in H as [H1 H2]; [|exact Hwfc].
      cbn [df stdout] in *. rewrite failed_lines_app, Hout in H2.
      split; auto. simpl. lia.
Qed.

(** X9.  When a loop runs to its end, the exported frame is well formed
    and holds one row per trial: 84 rows for every file in the monetary
    loop, which prints no ["failed choice"] line; in the medical loop 84
    rows for every file except those reported by a ["failed choice"]
    line. *)
Theorem exported_frame_has_one_row_per_trial :
  (forall files st',
      monetary_loop files start = (st', Finished) ->
      wf (df st') /\
      nrows (df st') = (84 * length files)%nat /\
      failed_lines (stdout st') = 0%nat)
  /\
  (forall files st',
      medical_loop files start = (st', Finished) ->
      wf (df st') /\
      (nrows (df st') + 84 * failed_lines (stdout st') = 84 * length files)%nat).
Proof.
  split; intros files st' H.
  - apply monetary_loop_rows in H; [|constructor]. exact H.
  - apply medical_loop_rows in H; [|constructor].
    destruct H as [H1 H2]. split; [exact H1|]. simpl in H2. lia.
Qed.

Lemma exported_frame_has_one_row_per_trial_witness :
  exists st',
    medical_loop [Samples.med_file; Samples.med_short; Samples.med_file'] start
    = (st', Finished) /\
    wf (df st') /\
    (nrows (df st') + 84 * failed_lines (stdout st') = 84 * 3)%nat.
Proof.
  destruct (medical_loop
              [Samples.med_file; Samples.med_short; Samples.med_file'] start)
    as [st' oc] eqn:E.
  assert (oc = Finished).
  { apply (f_equal snd) in E. vm_compute in E. now subst oc. }
  subst oc. exists st'. split; [reflexivity|].
  exact (proj2 exported_frame_has_one_row_per_trial _ _ E).
Defined.

End LoopFacts.

(** ** The numbering cell *)

Section NumberingFacts.
Import Pandas Models.

Lemma lookup_assign_distinct (df : dataframe) (name other : string) (c : column) :
  other <> name -> lookup (assign df name c) other = lookup df other.
Proof.
  intros Hne.
  induction df as [|[n c0] rest IH]; simpl.
  - destruct (String.eqb_spec name other); [congruence|reflexivity].
  - destruct (String.eqb_spec n name); simpl.
    + subst n. destruct (String.eqb_spec name other); [congruence|reflexivity].
    + now rewrite IH.
Qed.

Lemma assign_twice (df : dataframe) (name : string) (c c' : column) :
  assign (assign df name c) name c' = assign df name c'.
Proof.
  induction df as [|[n c0] rest IH]; simpl.
  - now rewrite String.eqb_refl.
  - destruct (String.eqb n name) eqn:E; simpl; rewrite E; [reflexivity|].
    now rewrite IH.
Qed.

Lemma nrows_assign_rows (df : dataframe) (name : string) (c : column) :
  length c = nrows df -> nrows (assign df name c) = nrows df.
Proof.
  destruct df as [|[n c0] rest]; simpl; intros H; [exact H|].
  destruct (String.eqb n name); simpl; auto.
Qed.

(** The numbering cell on a frame with an integer [sub] column. *)
Lemma assign_subn_run (db : dataframe) (sub : list Z) :
  wf db -> getitem db "sub" = ok (map Int sub) ->
  assign_subn db =
  (assign db "subn" (map Int (map (fun x => rank_of sub x - 1) sub)), ok tt).
Proof.
  intros Hwf Hget.
  assert (Hlen : length (map Int sub) = nrows db).
  { unfold getitem in Hget.
    destruct (lookup db "sub") as [c|] eqn:E; [|discriminate].
    inversion Hget; subst. eapply wf_lookup; eauto. }
  unfold assign_subn, bind, read, lift, write. rewrite Hget.
  cbn [ok]. rewrite ints_map_Int. cbn [ok].
  unfold setitem_series, rank_dense.
  rewrite map_map. rewrite <- (map_map (fun x => rank_of sub x - 1) Int).
  rewrite reindex_same; [reflexivity|].
  rewrite <- Hlen. now rewrite !length_map.
Qed.

(** X10.  The numbering cell touches the [subn] column only: every other
    column reads as before; when the cell raises, the frame is as it was;
    and a frame without a [sub] column makes it raise [KeyError]. *)
Theorem assign_subn_touches_subn_only (db : dataframe) :
  (forall name, name <> "subn" ->
                getitem (fst (assign_subn db)) name = getitem db name) /\
  (forall e, snd (assign_subn db) = inl e -> fst (assign_subn db) = db) /\
  (lookup db "sub" = None -> assign_subn db = (db, raise (KeyError "sub"))).
Proof.
  unfold assign_subn, bind, read, lift, write, getitem, setitem_series.
  destruct (lookup db "sub") as [c|] eqn:E; cbn [ok raise fst snd].
  - destruct (ints c) as [e|xs]; cbn [fst snd].
    + repeat split; auto. discriminate.
    + repeat split; try discriminate.
      intros name Hne. now rewrite lookup_assign_distinct.
  - repeat split; auto.
Qed.

Lemma assign_subn_touches_subn_only_witness :
  getitem (fst (assign_subn Samples.cleaned)) "choice" =
  getitem Samples.cleaned "choice" /\
  assign_subn [("choice", [Int 1])] =
  ([("choice", [Int 1])], raise (KeyError "sub")).
Proof.
  split.
  - apply (proj1 (assign_subn_touches_subn_only Samples.cleaned)).
    discriminate.
  - apply (proj2 (proj2 (assign_subn_touches_subn_only [("choice", [Int 1])]))).
    reflexivity.
Defined.

(** X11.  Running the numbering cell a second time changes nothing: the
    frame after two runs is the frame after one. *)
Theorem assign_subn_idempotent (db : dataframe) (sub : list Z) :
  wf db -> getitem db "sub" = ok (map Int sub) ->
  assign_subn (fst (assign_subn db)) = assign_subn db.
Proof.
  intros Hwf Hget.
  assert (Hlen : length (map Int sub) = nrows db).
  { unfold getitem in Hget.
    destruct (lookup db "sub") as [c|] eqn:E; [|discriminate].
    inversion Hget; subst. eapply wf_lookup; eauto. }
  rewrite (assign_subn_run db sub Hwf Hget). cbn [fst].
  set (col := map Int (map (fun x => rank_of sub x - 1) sub)).
  assert (Hcol : length col = nrows db)
    by (unfold col; rewrite <- Hlen; now rewrite !length_map).
  unfold assign_subn, bind, read, lift, write, getitem.
  rewrite lookup_assign_distinct by discriminate.
  unfold getitem in Hget. destruct (lookup db "sub") as [c|]; [|discriminate].
  inversion Hget; subst c. cbn [ok]. rewrite ints_map_Int. cbn [ok].
  unfold setitem_series, rank_dense.
  rewrite nrows_assign_rows by exact Hcol.
  rewrite assign_twice.
  rewrite map_map. rewrite <- (map_map (fun x => rank_of sub x - 1) Int).
  fold col. now rewrite (reindex_same _ _ Hcol).
Qed.

Lemma assign_subn_idempotent_witness :
  assign_subn (fst (assign_subn Samples.cleaned)) = assign_subn Samples.cleaned.
Proof.
  apply (assign_subn_idempotent Samples.cleaned [12; 7; 12; 30]).
  - repeat constructor.
  - reflexivity.
Defined.

Lemma nodup_map_length {A B} (decA : forall x y : A, {x = y} + {x <> y})
  (decB : forall x y : B, {x = y} + {x <> y}) (f : A -> B) (l : list A) :
  (forall x y, In x l -> In y l -> f x = f y -> x = y) ->
  length (nodup decB (map f l)) = length (nodup decA l).
Proof.
  induction l as [|a t IH]; intros Hinj; [reflexivity|].
  cbn [map nodup].
  assert (IH' : length (nodup decB (map f t)) = length (nodup decA t)).
  { apply IH. intros x y Hx Hy. apply Hinj; simpl; auto. }
  destruct (in_dec decB (f a) (map f t)) as [Hin|Hnin];
    destruct (in_dec decA a t) as [Hin'|Hnin']; simpl; auto.
  - exfalso. apply in_map_iff in Hin as [y [Hfy Hy]].
    assert (y = a) by (apply Hinj; simpl; auto). subst y. contradiction.
  - exfalso. apply Hnin. now apply in_map.
Qed.

(** X12.  After the numbering cell, [n_subs] is the number of distinct
    participants, [idx] is the [subn] column, one entry per row, and every
    entry of [idx] is a valid position in an array of [n_subs] entries.
    Reading [n_subs] and [idx] leaves the frame as it is. *)
Theorem idx_within_n_subs (db : dataframe) (sub : list Z) :
  wf db -> getitem db "sub" = ok (map Int sub) ->
  let db' := fst (assign_subn db) in
  n_subs_of db' = (db', ok (nunique sub)) /\
  exists idx,
    idx_of db' = (db', ok idx) /\
    getitem db' "subn" = ok (map Int idx) /\
    length idx = nrows db /\
    Forall (fun i => 0 <= i < Z.of_nat (nunique sub)) idx.
Proof.
  intros Hwf Hget db'. subst db'.
  assert (Hlen : length (map Int sub) = nrows db).
  { unfold getitem in Hget.
    destruct (lookup db "sub") as [c|] eqn:E; [|discriminate].
    inversion Hget; subst. eapply wf_lookup; eauto. }
  rewrite (assign_subn_run db sub Hwf Hget). cbn [fst].
  set (idx := map (fun x => rank_of sub x - 1) sub).
  assert (Hsubn : getitem (assign db "subn" (map Int idx)) "subn"
                  = ok (map Int idx)).
  { unfold getitem. now rewrite lookup_assign_same. }
  split.
  - unfold n_subs_of, bind, read, lift, ret. rewrite Hsubn. cbn [ok].
    rewrite ints_map_Int. cbn [ok]. do 2 f_equal.
    unfold nunique, idx. apply nodup_map_length.
    intros x y Hx Hy Hxy. apply (rank_of_eq sub x y Hx Hy). lia.
  - exists idx. repeat split.
    + unfold idx_of, bind, read, lift. rewrite Hsubn. cbn [ok].
      now rewrite ints_map_Int.
    + exact Hsubn.
    + unfold idx. rewrite <- Hlen. now rewrite !length_map.
    + apply Forall_forall. intros i Hi. unfold idx in Hi.
      apply in_map_iff in Hi as [x [<- Hx]].
      pose proof (rank_of_range sub x Hx). lia.
Qed.

Lemma idx_within_n_subs_witness :
  n_subs_of (fst (assign_subn Samples.cleaned)) =
  (fst (assign_subn Samples.cleaned), ok (nunique [12; 7; 12; 30])) /\
  exists idx,
    idx_of (fst (assign_subn Samples.cleaned)) =
    (fst (assign_subn Samples.cleaned), ok idx) /\
    getitem (fst (assign_subn Samples.cleaned)) "subn" = ok (map Int idx) /\
    length idx = nrows Samples.cleaned /\
    Forall (fun i => 0 <= i < Z.of_nat (nunique [12; 7; 12; 30])) idx.
Proof.
  apply (idx_within_n_subs Samples.cleaned [12; 7; 12; 30]).
  - repeat constructor.
  - reflexivity.
Defined.

End NumberingFacts.

(** ** The models handed to the sampler *)

Section ModelFacts.
Import Pandas Numpy PyMC Models Simulation.

Variable trace : Type.
Variable sample : model -> result trace.

Local Open Scope nat_scope.

Lemma broadcast_shape_inv (n k s : nat) :
  broadcast_shape n k = ok s ->
  (n = k \/ n = 1 \/ k = 1) /\ s = (if n =? 1 then k else n).
Proof.
  unfold broadcast_shape.
  destruct (Nat.eqb_spec n k) as [->|Hnk].
  - intros H. unfold ok in H. inversion H. split; [auto|].
    now destruct (s =? 1).
  - destruct (Nat.eqb_spec n 1) as [->|Hn].
    + intros H. unfold ok in H. inversion H. auto.
    + destruct (Nat.eqb_spec k 1) as [->|Hk]; [|discriminate].
      intros H. unfold ok in H. inversion H. auto.
Qed.

Lemma broadcast_length {A} (s : nat) (l : list A) :
  length l = s \/ length l = 1 -> length (broadcast s l) = s.
Proof.
  destruct l as [|x [|y t]]; simpl; intros [H|H]; try lia;
    try discriminate; now rewrite repeat_length.
Qed.

Lemma level_values_length (l1 l2 l3 l4 : list (option R)) (idx : list Z)
  (θ : point) :
  length l1 = length idx -> length l2 = length idx ->
  length l3 = length idx -> length l4 = length idx ->
  length (level_values l1 l2 l3 l4 idx θ) = length idx.
Proof.
  revert l1 l2 l3 l4.
  induction idx as [|i t IH]; intros [|x1 l1] [|x2 l2] [|x3 l3] [|x4 l4];
    simpl; intros H1 H2 H3 H4; try discriminate; try reflexivity.
  f_equal. apply IH; lia.
Qed.

Lemma values_length (c : column) (v : list (option R)) :
  values c = ok v -> length v = length c.
Proof. apply mapM_length. Qed.

Lemma broadcast_shape_sym (n k s : nat) :
  broadcast_shape n k = ok s -> broadcast_shape k n = ok s.
Proof.
  unfold broadcast_shape.
  destruct (Nat.eqb_spec n k) as [->|Hnk].
  - now rewrite Nat.eqb_refl.
  - destruct (Nat.eqb_spec k n) as [->|_]; [contradiction|].
    destruct (Nat.eqb_spec n 1) as [->|Hn];
      destruct (Nat.eqb_spec k 1) as [->|Hk]; try contradiction; auto.
Qed.

Lemma broadcast_shape_absorb (n k s : nat) :
  broadcast_shape n k = ok s -> broadcast_shape n s = ok s.
Proof.
  intros H. apply broadcast_shape_inv in H as [_ ->].
  unfold broadcast_shape.
  destruct (Nat.eqb_spec n 1) as [->|Hn].
  - destruct (Nat.eqb_spec 1 k); [congruence|reflexivity].
  - now rewrite Nat.eqb_refl.
Qed.

Lemma wf_getitem (df : dataframe) (name : string) (c : column) :
  wf df -> getitem df name = ok c -> length c = nrows df.
Proof.
  unfold getitem. intros Hwf H.
  destruct (lookup df name) as [c'|] eqn:E; [|discriminate].
  unfold ok in H. inversion H; subst c'. eapply wf_lookup; eauto.
Qed.

(** One statement of a function that reads a well-formed frame: a column
    is found and has the rows of the frame, its array of numbers has as
    many, and a shape is the one the first combination gave. *)
Ltac run_step H Hwf :=
  lazymatch type of H with
  | snd (match getitem ?df ?n with inl _ => _ | inr _ => _ end) = _ =>
      let E := fresh "G" in
      destruct (getitem df n) eqn:E; cbn [ok raise fst snd] in H;
      [discriminate|apply (wf_getitem _ _ _ Hwf) in E]
  | snd (match values ?c with inl _ => _ | inr _ => _ end) = _ =>
      let E := fresh "V" in
      destruct (values c) eqn:E; cbn [ok raise fst snd] in H;
      [discriminate|
       apply values_length in E;
       match goal with
       | G : length c = nrows _ |- _ => rewrite G in E
       end;
       rewrite ?E in H]
  | snd (match broadcast_shape ?a ?b with inl _ => _ | inr _ => _ end) = _ =>
      first
        [ rewrite broadcast_shape_same in H; cbn [ok raise fst snd] in H
        | match goal with
          | Es : broadcast_shape _ _ = inr _ |- _ =>
              first [ rewrite Es in H
                    | rewrite (broadcast_shape_sym _ _ _ Es) in H
                    | rewrite (broadcast_shape_absorb _ _ _ Es) in H ];
              cbn [ok raise fst snd] in H
          end
        | let Es := fresh "Es" in
          destruct (broadcast_shape a b) eqn:Es; cbn [ok raise fst snd] in H;
          [discriminate|] ]
  end.

(** The arrays of the utility models, when they are built from a frame:
    the shapes of the frame and of [idx] fit, and there is one trial per
    row, or per entry of [idx] if the frame has a single row. *)
Lemma utility_arrays_built (idx : list Z) (df : dataframe) (trials : list obs) :
  wf df -> snd (utility_arrays idx df) = ok trials ->
  (nrows df = length idx \/ nrows df = 1 \/ length idx = 1) /\
  length trials = (if nrows df =? 1 then length idx else nrows df).
Proof.
  intros Hwf.
  unfold utility_arrays, bind, read, lift, ret. intros H.
  repeat run_step H Hwf.
  unfold ok in H. inversion H; subst trials. clear H.
  apply broadcast_shape_inv in Es as [Hc Hs]. split; [exact Hc|].
  rewrite <- Hs.
  rewrite zip_obs_length; rewrite !broadcast_length; try reflexivity;
    rewrite Hs; destruct (Nat.eqb_spec (nrows df) 1); lia.
Qed.

Lemma estimate_arrays_built (idx : list Z) (df : dataframe) (x : level_arrays) :
  wf df -> snd (estimate_arrays idx df) = ok x ->
  (nrows df = length idx \/ nrows df = 1 \/ length idx = 1) /\
  forall θ, length (estimate_likelihood x θ) =
            (if nrows df =? 1 then length idx else nrows df).
Proof.
  intros Hwf.
  unfold estimate_arrays, bind, read, lift, ret. intros H.
  repeat run_step H Hwf.
  unfold ok in H. inversion H; subst x. clear H.
  apply broadcast_shape_inv in Es as [Hc Hs]. split; [exact Hc|].
  intros θ. rewrite <- Hs.
  unfold estimate_likelihood.
  cbn [a_l1 a_l2 a_l3 a_l4 a_risk a_ambiguity a_idx].
  rewrite length_map.
  rewrite zip_obs_length; rewrite ?level_values_length;
    rewrite !broadcast_length; try reflexivity;
    rewrite Hs; destruct (Nat.eqb_spec (nrows df) 1); lia.
Qed.

Lemma bind_returns {A B} (c : DF A) (k : A -> DF B) (df : dataframe) (b : B) :
  leaves_unchanged c -> snd (bind c k df) = ok b ->
  exists a, snd (c df) = ok a /\ snd (k a df) = ok b.
Proof.
  intros Hc. unfold bind. specialize (Hc df).
  destruct (c df) as [df' [e|a]]; simpl in *; [discriminate|].
  subst df'. eauto.
Qed.

Lemma bind_lift_returns {A B} (c : DF A) (f : A -> result B) (df : dataframe)
  (b : B) :
  snd (bind c (fun a => lift (f a)) df) = ok b ->
  exists a, snd (c df) = ok a /\ f a = ok b.
Proof.
  unfold bind, lift. destruct (c df) as [df' [e|a]]; simpl; [discriminate|].
  intros H. eauto.
Qed.

Lemma utility_model_inv (hyper : list rv) (n_subs : Z) (idx : list Z)
  (df : dataframe) (m : model) :
  snd (utility_model hyper n_subs idx df) = ok m ->
  exists trials,
    snd (utility_arrays idx df) = ok trials /\
    getitem df "choice" = ok (observed m) /\
    forall θ, mu m θ = utility_likelihood trials θ.
Proof.
  unfold utility_model. intros H.
  apply bind_returns in H as [trials [Ht H]];
    [|apply utility_arrays_unchanged].
  exists trials. split; [exact Ht|].
  unfold bind, read, ret in H.
  destruct (getitem df "choice") as [e|c]; cbn [fst snd] in H;
    [discriminate|].
  unfold ok in H. inversion H. auto.
Qed.

Lemma estimate_model_inv (hyper subject : list rv) (idx : list Z)
  (df : dataframe) (m : model) :
  snd (estimate_model hyper subject idx df) = ok m ->
  exists x,
    snd (estimate_arrays idx df) = ok x /\
    getitem df "choice" = ok (observed m) /\
    forall θ, mu m θ = estimate_likelihood x θ.
Proof.
  unfold estimate_model. intros H.
  apply bind_returns in H as [x [Hx H]];
    [|apply estimate_arrays_unchanged].
  exists x. split; [exact Hx|].
  unfold bind, read, ret in H.
  destruct (getitem df "choice") as [e|c]; cbn [fst snd] in H;
    [discriminate|].
  unfold ok in H. inversion H. auto.
Qed.

Lemma Utility_uninformed_inv (n_subs : Z) (idx : list Z) (df : dataframe)
  (t : trace) :
  snd (Utility_uninformed trace sample n_subs idx df) = ok t ->
  exists m trials,
    sample m = ok t /\
    snd (utility_arrays idx df) = ok trials /\
    getitem df "choice" = ok (observed m) /\
    (forall θ, mu m θ = uninformed_likelihood trials θ) /\
    map rv_name (free_rvs m) = ["α"; "β"; "γ"]%string.
Proof.
  unfold Utility_uninformed. intros H.
  apply bind_returns in H as [trials [Ht H]];
    [|apply utility_arrays_unchanged].
  unfold bind, read, lift in H.
  destruct (getitem df "choice") as [e|c]; cbn [fst snd] in H;
    [discriminate|].
  eexists. exists trials. split; [exact H|]. auto.
Qed.

(** X14.  Whenever one of the fitting functions of the two notebooks
    returns a trace, the sampler was given a model observed on the
    [choice] column of the frame.  The number of rows and the length of
    [idx] are then equal, or one of them is 1: a single index is used for
    every row, and a frame of one row is repeated for every index.  The
    likelihood has one success probability per row, or per entry of [idx]
    if the frame has a single row. *)
Theorem fitted_model_has_one_probability_per_trial
  (n_subs : Z) (idx : list Z) (df : dataframe) (t : trace) :
  wf df ->
  snd (Utility trace sample n_subs idx df) = ok t \/
  snd (Utility_less_informed trace sample n_subs idx df) = ok t \/
  snd (estimate_value trace sample n_subs idx df) = ok t \/
  snd (estamte_values_less trace sample n_subs idx df) = ok t \/
  snd (Utility_uninformed trace sample n_subs idx df) = ok t ->
  exists m,
    sample m = ok t /\
    getitem df "choice" = ok (observed m) /\
    (nrows df = length idx \/ nrows df = 1 \/ length idx = 1) /\
    (forall θ, length (mu m θ) =
               (if nrows df =? 1 then length idx else nrows df)) /\
    (length idx = nrows df -> forall θ, length (mu m θ) = nrows df).
Proof.
  intros Hwf H.
  assert (Hm : exists m,
             sample m = ok t /\
             getitem df "choice" = ok (observed m) /\
             (nrows df = length idx \/ nrows df = 1 \/ length idx = 1) /\
             (forall θ, length (mu m θ) =
                        (if nrows df =? 1 then length idx else nrows df))).
  { destruct H as [H|[H|[H|[H|H]]]].
    - apply bind_lift_returns in H as [m [Hm Hs]]. exists m.
      apply utility_model_inv in Hm as [trials [Ht [Hc Hmu]]].
      destruct (utility_arrays_built _ _ _ Hwf Ht) as [Hk Hl].
      repeat split; auto. intros θ. rewrite Hmu. unfold utility_likelihood.
      now rewrite length_map.
    - apply bind_lift_returns in H as [m [Hm Hs]]. exists m.
      apply utility_model_inv in Hm as [trials [Ht [Hc Hmu]]].
      destruct (utility_arrays_built _ _ _ Hwf Ht) as [Hk Hl].
      repeat split; auto. intros θ. rewrite Hmu. unfold utility_likelihood.
      now rewrite length_map.
    - apply bind_lift_returns in H as [m [Hm Hs]]. exists m.
      apply estimate_model_inv in Hm as [x [Hx [Hc Hmu]]].
      destruct (estimate_arrays_built _ _ _ Hwf Hx) as [Hk Hl].
      repeat split; auto. intros θ. now rewrite Hmu.
    - apply bind_lift_returns in H as [m [Hm Hs]]. exists m.
      apply estimate_model_inv in Hm as [x [Hx [Hc Hmu]]].
      destruct (estimate_arrays_built _ _ _ Hwf Hx) as [Hk Hl].
      repeat split; auto. intros θ. now rewrite Hmu.
    - apply Utility_uninformed_inv in H
        as [m [trials [Hs [Ht [Hc [Hmu _]]]]]]. exists m.
      destruct (utility_arrays_built _ _ _ Hwf Ht) as [Hk Hl].
      repeat split; auto. intros θ. rewrite Hmu. unfold uninformed_likelihood.
      now rewrite length_map. }
  destruct Hm as [m [Hs [Hc [Hk Hl]]]]. exists m.
  repeat split; auto.
  intros Hi θ. rewrite Hl. destruct (Nat.eqb_spec (nrows df) 1); lia.
Qed.

Lemma values_nth (c : column) (v : list (option R)) (i : nat) (x : cell)
  (y : option R) :
  values c = ok v -> nth_error c i = Some x -> to_float x = ok y ->
  nth_error v i = Some y.
Proof.
  intros Hv Hx Hy. apply mapM_inv in Hv as [_ Hn].
  destruct (Hn i x Hx) as [y' [Hy' Hf]]. rewrite Hy in Hf.
  unfold ok in Hf. inversion Hf. now subst y'.
Qed.

(** With one entry of [idx] per row, trial i of the utility models holds
    the numbers of row i. *)
Lemma utility_arrays_rows (idx : list Z) (df : dataframe) (trials : list obs) :
  wf df -> length idx = nrows df ->
  snd (utility_arrays idx df) = ok trials ->
  exists v r a,
    (exists c, getitem df "value" = ok c /\ values c = ok v) /\
    (exists c, getitem df "risk" = ok c /\ values c = ok r) /\
    (exists c, getitem df "ambiguity" = ok c /\ values c = ok a) /\
    trials = zip_obs v r a idx.
Proof.
  intros Hwf Hidx.
  unfold utility_arrays, bind, read, lift, ret. rewrite Hidx. intros H.
  destruct (getitem df "value") as [e|cv] eqn:Gv; cbn [ok raise fst snd] in H;
    [discriminate|].
  destruct (values cv) as [e|v] eqn:Vv; cbn [ok raise fst snd] in H;
    [discriminate|].
  rewrite (values_length _ _ Vv), (wf_getitem _ _ _ Hwf Gv),
    broadcast_shape_same in H.
  cbn [ok raise fst snd] in H.
  destruct (getitem df "risk") as [e|cr] eqn:Gr; cbn [ok raise fst snd] in H;
    [discriminate|].
  destruct (getitem df "ambiguity") as [e|ca] eqn:Ga;
    cbn [ok raise fst snd] in H; [discriminate|].
  destruct (values ca) as [e|a] eqn:Va; cbn [ok raise fst snd] in H;
    [discriminate|].
  rewrite (values_length _ _ Va), (wf_getitem _ _ _ Hwf Ga),
    broadcast_shape_same in H.
  cbn [ok raise fst snd] in H.
  destruct (values cr) as [e|r] eqn:Vr; cbn [ok raise fst snd] in H;
    [discriminate|].
  rewrite (values_length _ _ Vr), (wf_getitem _ _ _ Hwf Gr),
    !broadcast_shape_same in H.
  cbn [ok raise fst snd] in H.
  rewrite broadcast_shape_same in H. cbn [ok raise fst snd] in H.
  unfold ok in H. inversion H; subst trials. clear H.
  apply values_length in Vv as Lv. apply values_length in Vr as Lr.
  apply values_length in Va as La.
  rewrite (wf_getitem _ _ _ Hwf Gv) in Lv.
  rewrite (wf_getitem _ _ _ Hwf Gr) in Lr.
  rewrite (wf_getitem _ _ _ Hwf Ga) in La.
  exists v, r, a.
  rewrite !broadcast_same by congruence.
  repeat split; eauto.
Qed.

Local Open Scope R_scope.

(** The logistic function of a real number. *)
Local Abbreviation logistic x := (1 / (1 + exp (- x))).

Lemma logistic_range (x : R) : 0 < logistic x < 1.
Proof.
  pose proof (exp_pos (- x)) as He. split.
  - apply Rdiv_lt_0_compat; lra.
  - apply (Rmult_lt_reg_r (1 + exp (- x))); [lra|].
    unfold Rdiv. rewrite Rmult_assoc, Rinv_l by lra. lra.
Qed.

Lemma logistic_increasing (x y : R) : x <= y -> logistic x <= logistic y.
Proof.
  intros H. unfold Rdiv. rewrite !Rmult_1_l.
  pose proof (exp_pos (- x)). pose proof (exp_pos (- y)).
  apply Rinv_le_contravar; [lra|].
  destruct H as [H| ->]; [|lra].
  assert (exp (- y) < exp (- x)) by (apply exp_increasing; lra). lra.
Qed.

Lemma logistic_zero : logistic 0 = 1 / 2.
Proof. rewrite Ropp_0, exp_0. lra. Qed.

Lemma invlogit_range (x : float64) :
  invlogit x = Nan \/ exists q, invlogit x = Fin q /\ 0 <= q <= 1.
Proof.
  destruct x as [x|[|]|]; simpl; auto; right.
  - eexists. split; [reflexivity|]. pose proof (logistic_range x). lra.
  - exists 0. split; [reflexivity|lra].
  - exists 1. split; [reflexivity|lra].
Qed.

Lemma pow_Rpower (x y : R) : 0 < x -> pow (Fin x) y = Fin (Rpower x y).
Proof.
  intros Hx. unfold pow.
  destruct (Reqb y 0) eqn:E.
  - apply Reqb_true in E. subst y. now rewrite Rpower_O.
  - apply Rltb_true in Hx. now rewrite Hx.
Qed.

(** On a positive amount and with a temperature that is not zero, the
    probability of the utility model is the logistic function of the
    difference of the subjective values, divided by the temperature. *)
Lemma Utility_mu_number (value risk ambiguity α β γ : R) :
  0 < value -> γ <> 0 ->
  Utility_mu (Fin value) (Fin risk) (Fin ambiguity) α β γ =
  Fin (logistic ((Rpower value α * (risk - β * (ambiguity / 2))
                  - Rpower 5 α) / γ)).
Proof.
  intros Hv Hg. unfold Utility_mu. cbv zeta.
  rewrite !pow_Rpower by lra.
  assert (H2 : Reqb 2 0 = false) by (apply Reqb_false; lra).
  assert (Hg0 : Reqb γ 0 = false) by now apply Reqb_false.
  unfold fdiv at 2. rewrite H2. cbn [fmul fsub fneg fadd].
  unfold fdiv. rewrite Hg0. reflexivity.
Qed.

(** X13.  [Utility_uninformed] leaves the frame as it was.  When it
    returns a trace, the model it gave the sampler declares γ with a
    prior, next to α and β, but its likelihood does not depend on γ: two
    points that agree on α and β give the same success probabilities. *)
Theorem uninformed_likelihood_ignores_gamma :
  (forall n_subs idx df,
      fst (Utility_uninformed trace sample n_subs idx df) = df) /\
  (forall n_subs idx df t,
      snd (Utility_uninformed trace sample n_subs idx df) = ok t ->
      exists m,
        sample m = ok t /\
        getitem df "choice" = ok (observed m) /\
        map rv_name (free_rvs m) = ["α"; "β"; "γ"]%string /\
        forall θ θ' : point,
          (forall i, θ "α"%string i = θ' "α"%string i) ->
          (forall i, θ "β"%string i = θ' "β"%string i) ->
          mu m θ = mu m θ').
Proof.
  split.
  - intros n_subs idx df. unfold Utility_uninformed.
    apply (bind_unchanged _ _ (utility_arrays_unchanged idx)).
    intros trials. apply (bind_unchanged _ _ (read_unchanged _)).
    intros choice. apply lift_unchanged.
  - intros n_subs idx df t H.
    apply Utility_uninformed_inv in H as [m [trials [Hs [_ [Hc [Hmu Hrv]]]]]].
    exists m. repeat split; auto.
    intros θ θ' Ha Hb. rewrite !Hmu. unfold uninformed_likelihood.
    apply map_ext. intros o. now rewrite Ha, Hb.
Qed.

(** X19.  The success probabilities of the model that a fitting function
    gives the sampler are never infinite and never outside [0, 1]: at
    every point each of them is NaN or a number between 0 and 1.  The same
    holds of the probability [sim_data] computes for a trial, which is a
    number whenever the amount is not negative and the risk attitude is
    positive, as it is after clipping. *)
Theorem choice_probabilities_in_unit_interval :
  (forall n_subs idx df t,
      snd (Utility trace sample n_subs idx df) = ok t \/
      snd (Utility_less_informed trace sample n_subs idx df) = ok t \/
      snd (estimate_value trace sample n_subs idx df) = ok t \/
      snd (estamte_values_less trace sample n_subs idx df) = ok t \/
      snd (Utility_uninformed trace sample n_subs idx df) = ok t ->
      exists m,
        sample m = ok t /\
        forall θ, Forall probability_or_nan (mu m θ)) /\
  (forall value risk ambiguity riskTol ambTol,
      probability_or_nan
        (choice_probability value risk ambiguity riskTol ambTol) /\
      (0 <= value -> 0.1 <= riskTol ->
       exists q,
         choice_probability value risk ambiguity riskTol ambTol = Fin q /\
         0 <= q <= 1)).
Proof.
  split.
  - intros n_subs idx df t [H|[H|[H|[H|H]]]].
    + apply bind_lift_returns in H as [m [Hm Hs]]. exists m.
      apply utility_model_inv in Hm as [trials [_ [_ Hmu]]].
      split; [exact Hs|]. intros θ. rewrite Hmu.
      apply Forall_forall. intros p Hp.
      apply in_map_iff in Hp as [o [<- _]]. apply invlogit_range.
    + apply bind_lift_returns in H as [m [Hm Hs]]. exists m.
      apply utility_model_inv in Hm as [trials [_ [_ Hmu]]].
      split; [exact Hs|]. intros θ. rewrite Hmu.
      apply Forall_forall. intros p Hp.
      apply in_map_iff in Hp as [o [<- _]]. apply invlogit_range.
    + apply bind_lift_returns in H as [m [Hm Hs]]. exists m.
      apply estimate_model_inv in Hm as [x [_ [_ Hmu]]].
      split; [exact Hs|]. intros θ. rewrite Hmu.
      apply Forall_forall. intros p Hp.
      apply in_map_iff in Hp as [o [<- _]]. apply invlogit_range.
    + apply bind_lift_returns in H as [m [Hm Hs]]. exists m.
      apply estimate_model_inv in Hm as [x [_ [_ Hmu]]].
      split; [exact Hs|]. intros θ. rewrite Hmu.
      apply Forall_forall. intros p Hp.
      apply in_map_iff in Hp as [o [<- _]]. apply invlogit_range.
    + apply Utility_uninformed_inv in H as [m [trials [Hs [_ [_ [Hmu _]]]]]].
      exists m. split; [exact Hs|]. intros θ. rewrite Hmu.
      apply Forall_forall.
      intros p Hp. apply in_map_iff in Hp as [o [<- _]].
      apply invlogit_range.
  - intros value risk ambiguity riskTol ambTol. split.
    + unfold choice_probability. cbv zeta. apply expit_range.
    + intros Hv Hr. apply choice_probability_number; lra.
Qed.

(** Row i of the likelihood of [Utility], on a frame with one entry of
    [idx] per row, when the row holds numbers, a positive amount among
    them, and the temperature of its subject is not zero. *)
Lemma utility_row (n_subs : Z) (idx : list Z) (df : dataframe) (m : model)
  (hyper : list rv) :
  wf df -> length idx = nrows df ->
  snd (utility_model hyper n_subs idx df) = ok m ->
  forall (θ : point) value risk ambiguity i s cv cr ca v r a,
    getitem df "value" = ok value -> getitem df "risk" = ok risk ->
    getitem df "ambiguity" = ok ambiguity ->
    nth_error idx i = Some s -> nth_error value i = Some cv ->
    nth_error risk i = Some cr -> nth_error ambiguity i = Some ca ->
    to_float cv = ok (Some v) -> to_float cr = ok (Some r) ->
    to_float ca = ok (Some a) ->
    0 < v -> θ "γ"%string s <> 0 ->
    nth_error (mu m θ) i =
    Some (Fin (logistic
                 ((Rpower v (θ "alpha"%string s * 2)
                   * (r - θ "β"%string s * (a / 2))
                   - Rpower 5 (θ "alpha"%string s * 2))
                  / θ "γ"%string s))).
Proof.
  intros Hwf Hidx Hm θ value risk ambiguity i s cv cr ca v r a
    Gv Gr Ga Hs Hcv Hcr Hca Tv Tr Ta Hv Hg.
  apply utility_model_inv in Hm as [trials [Ht [_ Hmu]]]. rewrite Hmu.
  apply utility_arrays_rows in Ht
    as [lv [lr [la [[c1 [G1 V1]] [[c2 [G2 V2]] [[c3 [G3 V3]] ->]]]]]];
    auto.
  rewrite Gv in G1. rewrite Gr in G2. rewrite Ga in G3.
  unfold ok in G1, G2, G3. inversion G1; inversion G2; inversion G3.
  subst c1 c2 c3.
  unfold utility_likelihood. rewrite nth_error_map.
  erewrite nth_error_zip_obs;
    [|eapply values_nth; eauto|eapply values_nth; eauto
     |eapply values_nth; eauto|exact Hs].
  cbn [option_map o_a o_b o_c o_idx of_option].
  now rewrite Utility_mu_number.
Qed.

(** X20.  In the model [Utility] gives the sampler, on a frame with one
    entry of [idx] per row, a row that holds numbers with a positive
    amount has, at every point with a positive γ for its subject, the
    logistic function of (value ** α * (risk - β * ambiguity / 2) - 5 ** α)
    / γ as its success probability, α being twice [alpha].  So a row of
    the same subject with the same amount and ambiguity and a winning
    probability at least as high has a success probability at least as
    high; a row that pays the reference amount 5 for sure has one half; a
    catch trial (5 with a probability of at most 1, no ambiguity) has at
    most one half. *)
Theorem utility_model_prefers_better_odds (n_subs : Z) (idx : list Z)
  (df : dataframe) (t : trace) :
  wf df -> length idx = nrows df ->
  snd (Utility trace sample n_subs idx df) = ok t ->
  exists m,
    sample m = ok t /\
    forall (θ : point) value risk ambiguity i s cv cr ca v r a,
      getitem df "value" = ok value -> getitem df "risk" = ok risk ->
      getitem df "ambiguity" = ok ambiguity ->
      nth_error idx i = Some s -> nth_error value i = Some cv ->
      nth_error risk i = Some cr -> nth_error ambiguity i = Some ca ->
      to_float cv = ok (Some v) -> to_float cr = ok (Some r) ->
      to_float ca = ok (Some a) ->
      0 < v -> 0 < θ "γ"%string s ->
      exists q,
        nth_error (mu m θ) i = Some (Fin q) /\
        q = 1 / (1 + exp (- ((Rpower v (θ "alpha"%string s * 2)
                              * (r - θ "β"%string s * (a / 2))
                              - Rpower 5 (θ "alpha"%string s * 2))
                             / θ "γ"%string s))) /\
        (v = 5 -> a = 0 -> r = 1 -> q = 1 / 2) /\
        (v = 5 -> a = 0 -> r <= 1 -> q <= 1 / 2) /\
        forall j cv' cr' ca' r',
          nth_error idx j = Some s -> nth_error value j = Some cv' ->
          nth_error risk j = Some cr' -> nth_error ambiguity j = Some ca' ->
          to_float cv' = ok (Some v) -> to_float cr' = ok (Some r') ->
          to_float ca' = ok (Some a) ->
          r <= r' ->
          exists q', nth_error (mu m θ) j = Some (Fin q') /\ q <= q'.
Proof.
  intros Hwf Hidx H.
  apply bind_lift_returns in H as [m [Hm Hs]]. exists m.
  split; [exact Hs|].
  intros θ value risk ambiguity i s cv cr ca v r a
    Gv Gr Ga Hi Hcv Hcr Hca Tv Tr Ta Hv Hg.
  pose proof (utility_row _ _ _ _ _ Hwf Hidx Hm) as Hrow.
  eexists. split; [eapply Hrow; eauto; lra|]. split; [reflexivity|].
  set (α := θ "alpha"%string s * 2).
  assert (Hp : 0 < Rpower v α) by (unfold Rpower; apply exp_pos).
  assert (H5 : 0 < Rpower 5 α) by (unfold Rpower; apply exp_pos).
  assert (Hinv : 0 < / θ "γ"%string s) by now apply Rinv_0_lt_compat.
  split; [|split].
  - intros -> -> ->. rewrite <- logistic_zero. do 4 f_equal. field. lra.
  - intros -> -> Hr. rewrite <- logistic_zero.
    apply logistic_increasing. unfold Rdiv.
    replace 0 with (0 * / θ "γ"%string s) by lra.
    apply Rmult_le_compat_r; [lra|]. nra.
  - intros j cv' cr' ca' r' Hj Hcv' Hcr' Hca' Tv' Tr' Ta' Hle.
    eexists. split; [eapply Hrow; eauto; lra|].
    apply logistic_increasing. unfold Rdiv.
    apply Rmult_le_compat_r; [lra|]. fold α. nra.
Qed.

End ModelFacts.

Lemma uninformed_likelihood_ignores_gamma_witness :
  exists m,
    Samples.sample_at_once m = ok 3%nat /\
    PyMC.mu m (fun name _ => if String.eqb name "γ" then 1%R else 0.5%R) =
    PyMC.mu m (fun name _ => if String.eqb name "γ" then 3%R else 0.5%R).
Proof.
  assert (H : snd (Models.Utility_uninformed nat Samples.sample_at_once 1
                     [0; 0] Samples.two_trials) = ok 3%nat)
    by (vm_compute; reflexivity).
  destruct (proj2 (uninformed_likelihood_ignores_gamma nat Samples.sample_at_once)
              1%Z [0; 0]%Z Samples.two_trials 3%nat H)
    as [m [Hs [_ [_ Hmu]]]].
  exists m. split; [exact Hs|]. apply Hmu; reflexivity.
Defined.

Lemma fitted_model_has_one_probability_per_trial_witness :
  (exists m,
      Samples.sample_at_once m = ok 7%nat /\
      Pandas.getitem Samples.two_trials "choice" = ok (PyMC.observed m) /\
      forall θ, length (PyMC.mu m θ) = 2%nat) /\
  (exists m,
      snd (Models.Utility nat Samples.sample_at_once 1 [0] Samples.two_trials)
      = ok 7%nat /\
      Samples.sample_at_once m = ok 7%nat /\
      forall θ, length (PyMC.mu m θ) = 2%nat).
Proof.
  assert (Hwf : Pandas.wf Samples.two_trials) by (repeat constructor).
  assert (H2 : snd (Models.Utility nat Samples.sample_at_once 1 [0; 0]
                      Samples.two_trials) = ok 7%nat)
    by (vm_compute; reflexivity).
  assert (H1 : snd (Models.Utility nat Samples.sample_at_once 1 [0]
                      Samples.two_trials) = ok 7%nat)
    by (vm_compute; reflexivity).
  split.
  - destruct (fitted_model_has_one_probability_per_trial nat
                Samples.sample_at_once 1 [0; 0] Samples.two_trials 7%nat Hwf
                (or_introl H2)) as [m [Hs [Hc [_ [Hl _]]]]].
    exists m. auto.
  - destruct (fitted_model_has_one_probability_per_trial nat
                Samples.sample_at_once 1 [0] Samples.two_trials 7%nat Hwf
                (or_introl H1)) as [m [Hs [Hc [_ [Hl _]]]]].
    exists m. auto.
Defined.

Lemma choice_probabilities_in_unit_interval_witness :
  exists m,
    Samples.sample_at_once m = ok 7%nat /\
    Forall Numpy.probability_or_nan (PyMC.mu m Samples.flat_point).
Proof.
  assert (H : snd (Models.Utility nat Samples.sample_at_once 1 [0; 0]
                     Samples.two_trials) = ok 7%nat)
    by (vm_compute; reflexivity).
  destruct (proj1 (choice_probabilities_in_unit_interval nat
                     Samples.sample_at_once)
              1%Z [0; 0]%Z Samples.two_trials 7%nat (or_introl H))
    as [m [Hs Hp]].
  exists m. auto.
Defined.

Lemma utility_model_prefers_better_odds_witness :
  exists m q q' h,
    Samples.sample_at_once m = ok 7%nat /\
    nth_error (PyMC.mu m Samples.flat_point) 0 = Some (Numpy.Fin q) /\
    nth_error (PyMC.mu m Samples.flat_point) 1 = Some (Numpy.Fin q') /\
    nth_error (PyMC.mu m Samples.flat_point) 2 = Some (Numpy.Fin h) /\
    (q <= q')%R /\ (h <= 1 / 2)%R.
Proof.
  assert (Hwf : Pandas.wf Samples.three_odds) by (repeat constructor).
  assert (H : snd (Models.Utility nat Samples.sample_at_once 1 [0; 0; 0]
                     Samples.three_odds) = ok 7%nat)
    by (vm_compute; reflexivity).
  destruct (utility_model_prefers_better_odds nat Samples.sample_at_once
              1 [0; 0; 0] Samples.three_odds 7%nat Hwf eq_refl H)
    as [m [Hs Hrows]].
  assert (Hg : (0 < Samples.flat_point "γ" 0%Z)%R)
    by (unfold Samples.flat_point; lra).
  destruct (Hrows Samples.flat_point _ _ _ 0%nat 0%Z _ _ _ 8%R 0.25%R 0%R
              eq_refl eq_refl eq_refl eq_refl eq_refl eq_refl eq_refl
              eq_refl eq_refl eq_refl ltac:(lra) Hg)
    as [q [Hq [_ [_ [_ Hmono]]]]].
  destruct (Hmono 1%nat _ _ _ 0.75%R eq_refl eq_refl eq_refl eq_refl
              eq_refl eq_refl eq_refl ltac:(lra)) as [q' [Hq' Hle]].
  destruct (Hrows Samples.flat_point _ _ _ 2%nat 0%Z _ _ _ 5%R 0.5%R 0%R
              eq_refl eq_refl eq_refl eq_refl eq_refl eq_refl eq_refl
              eq_refl eq_refl eq_refl ltac:(lra) Hg)
    as [h [Hh [_ [_ [Hcatch _]]]]].
  exists m, q, q', h. repeat split; auto.
  apply Hcatch; try reflexivity; lra.
Defined.

(** ** The frame of the simulator *)

Section SimulatedFrame.
Import Pandas Numpy PyMC Simulation.

Lemma frame_of_raises (x : arrays) :
  length (values_ x) <> length (ID x) -> frame_of x = raise ValueError.
Proof.
  intros H. destruct (frame_of x) as [e|fr] eqn:E.
  - unfold frame_of in E. destruct (_ && _); [discriminate|now symmetry].
  - apply frame_of_inv in E as [_ E]. contradiction.
Qed.

(** X15.  [sim_data] returns only if the table of choices has 84 rows,
    there is at least one subject, the noise is not negative, both shape
    parameters of the beta distribution and [b_sd] are positive and the
    lower bound lies below the upper bound; and then it does return if no
    amount of the table is negative.  Otherwise it raises, in this order:
    [ValueError] for a shape parameter that is not positive,
    [ZeroDivisionError] for [b_sd = 0], [ValueError] for a negative [b_sd]
    or bounds that are not in order, [ZeroDivisionError] for no subject,
    [ValueError] for a negative noise, [TypeError] for a table without
    rows, and [ValueError] for a table of another length. *)
Theorem sim_data_domain (db : list trial) (g : rng) (n_subs : nat) (noise : R)
  (o : options) :
  ((exists simdata idx, sim_data db g n_subs noise o = ok (simdata, idx)) ->
   length db = 84%nat /\ (0 < n_subs)%nat /\ (0 <= noise)%R /\
   (0 < a_a o)%R /\ (0 < a_b o)%R /\ (0 < b_sd o)%R /\
   (lower_bound o < upper_bound o)%R) /\
  (length db = 84%nat -> Forall (fun t => (0 <= value t)%Z) db ->
   (0 < n_subs)%nat -> (0 <= noise)%R ->
   (0 < a_a o)%R -> (0 < a_b o)%R -> (0 < b_sd o)%R ->
   (lower_bound o < upper_bound o)%R ->
   exists simdata idx, sim_data db g n_subs noise o = ok (simdata, idx)) /\
  ((a_a o <= 0)%R \/ (a_b o <= 0)%R ->
   sim_data db g n_subs noise o = raise ValueError) /\
  ((0 < a_a o)%R -> (0 < a_b o)%R ->
   (b_sd o = 0%R -> sim_data db g n_subs noise o = raise ZeroDivisionError) /\
   ((b_sd o < 0)%R \/ (upper_bound o <= lower_bound o)%R ->
    b_sd o <> 0%R -> sim_data db g n_subs noise o = raise ValueError) /\
   ((0 < b_sd o)%R -> (lower_bound o < upper_bound o)%R ->
    (n_subs = 0%nat ->
     sim_data db g n_subs noise o = raise ZeroDivisionError) /\
    ((0 < n_subs)%nat -> (noise < 0)%R ->
     sim_data db g n_subs noise o = raise ValueError) /\
    ((0 < n_subs)%nat -> (0 <= noise)%R -> db = [] ->
     sim_data db g n_subs noise o = raise TypeError) /\
    ((0 < n_subs)%nat -> (0 <= noise)%R -> db <> [] ->
     Forall (fun t => (0 <= value t)%Z) db -> length db <> 84%nat ->
     sim_data db g n_subs noise o = raise ValueError))).
Proof.
  split; [|split; [|split]].
  - intros [simdata [idx H]].
    apply sim_data_inv in H as [x [Hx [_ [Hdb _]]]].
    apply sim_arrays_domain in Hx. tauto.
  - apply sim_data_returns.
  - intros Hab. unfold sim_data, sim_arrays.
    assert (Hpre : Rltb 0 (a_a o) && Rltb 0 (a_b o) = false).
    { destruct Hab as [H|H]; apply Rltb_false in H; rewrite H;
        [reflexivity|apply andb_false_r]. }
    now rewrite Hpre.
  - intros Ha Hb.
    assert (Hpre : Rltb 0 (a_a o) && Rltb 0 (a_b o) = true).
    { apply Rltb_true in Ha, Hb. now rewrite Ha, Hb. }
    split; [|split].
    + intros Hsd. apply Reqb_true in Hsd.
      unfold sim_data, sim_arrays. now rewrite Hpre, Hsd.
    + intros Hbad Hsd. apply Reqb_false in Hsd.
      unfold sim_data, sim_arrays. rewrite Hpre, Hsd.
      assert (Hchk : Rltb ((lower_bound o - b_mean o) / b_sd o)
                       ((upper_bound o - b_mean o) / b_sd o)
                     && negb (Rltb (b_sd o) 0) = false).
      { destruct (Rltb (b_sd o) 0) eqn:Eneg; [apply andb_false_r|].
        apply Rltb_false in Eneg. apply Reqb_false in Hsd.
        destruct Hbad as [Hbad|Hbad]; [lra|].
        rewrite andb_true_r. apply Rltb_false. unfold Rdiv.
        apply Rmult_le_compat_r; [|lra].
        apply Rlt_le, Rinv_0_lt_compat. lra. }
      now rewrite Hchk.
    + intros Hsd Hlu.
      assert (Hsd0 : Reqb (b_sd o) 0 = false) by (apply Reqb_false; lra).
      assert (Hchk : Rltb ((lower_bound o - b_mean o) / b_sd o)
                       ((upper_bound o - b_mean o) / b_sd o)
                     && negb (Rltb (b_sd o) 0) = true).
      { assert (Hneg : Rltb (b_sd o) 0 = false) by (apply Rltb_false; lra).
        rewrite Hneg, andb_true_r. apply Rltb_true. unfold Rdiv.
        apply Rmult_lt_compat_r; [|lra]. now apply Rinv_0_lt_compat. }
      split; [|split; [|split]].
      * intros ->. unfold sim_data, sim_arrays.
        now rewrite Hpre, Hsd0, Hchk.
      * intros Hn Hnoise. unfold sim_data, sim_arrays.
        rewrite Hpre, Hsd0, Hchk.
        destruct n_subs as [|n]; [lia|].
        apply Rltb_true in Hnoise. now rewrite Hnoise.
      * intros Hn Hnoise ->. unfold sim_data, sim_arrays.
        rewrite Hpre, Hsd0, Hchk.
        destruct n_subs as [|n]; [lia|].
        apply Rltb_false in Hnoise. now rewrite Hnoise.
      * intros Hn Hnoise Hne Hval Hdb.
        destruct (sim_arrays_returns db g n_subs noise o Hne Hval Hn Hnoise
                    Ha Hb Hsd Hlu) as [x Hx].
        unfold sim_data. rewrite Hx. cbn [ok].
        rewrite frame_of_raises; [reflexivity|].
        apply sim_arrays_inv in Hx as [[_ [_ [Hv [_ [_ [_ [_ [HID _]]]]]]]] _].
        rewrite Hv, HID. nia.
Qed.

Lemma sim_data_domain_witness :
  sim_data Samples.kinds Samples.fixed_rng 2 0.3 defaults = raise ValueError /\
  sim_data Samples.sim_csv Samples.fixed_rng 0 0.3 defaults
  = raise ZeroDivisionError /\
  sim_data Samples.sim_csv Samples.fixed_rng 2 (-0.3) defaults
  = raise ValueError /\
  sim_data [] Samples.fixed_rng 2 0.3 defaults = raise TypeError /\
  sim_data Samples.sim_csv Samples.fixed_rng 2 0.3
    {| a_a := 4; a_b := 7; b_mean := 0.65; b_sd := -1;
       lower_bound := -1.4; upper_bound := 1.4 |} = raise ValueError.
Proof.
  assert (Ha : (0 < a_a defaults)%R) by (simpl; lra).
  assert (Hb : (0 < a_b defaults)%R) by (simpl; lra).
  assert (Hsd : (0 < b_sd defaults)%R) by (simpl; lra).
  assert (Hlu : (lower_bound defaults < upper_bound defaults)%R)
    by (simpl; lra).
  destruct (sim_data_domain Samples.kinds Samples.fixed_rng 2 0.3 defaults)
    as [_ [_ [_ D]]].
  destruct (D Ha Hb) as [_ [_ D3]]. destruct (D3 Hsd Hlu) as [_ [_ [_ Hlen]]].
  clear D D3.
  destruct (sim_data_domain Samples.sim_csv Samples.fixed_rng 0 0.3 defaults)
    as [_ [_ [_ D]]].
  destruct (D Ha Hb) as [_ [_ D3]]. destruct (D3 Hsd Hlu) as [Hzero _].
  clear D D3.
  destruct (sim_data_domain Samples.sim_csv Samples.fixed_rng 2 (-0.3) defaults)
    as [_ [_ [_ D]]].
  destruct (D Ha Hb) as [_ [_ D3]]. destruct (D3 Hsd Hlu) as [_ [Hneg _]].
  clear D D3.
  destruct (sim_data_domain [] Samples.fixed_rng 2 0.3 defaults)
    as [_ [_ [_ D]]].
  destruct (D Ha Hb) as [_ [_ D3]]. destruct (D3 Hsd Hlu) as [_ [_ [Hempty _]]].
  clear D D3.
  destruct (sim_data_domain Samples.sim_csv Samples.fixed_rng 2 0.3
              {| a_a := 4; a_b := 7; b_mean := 0.65; b_sd := -1;
                 lower_bound := -1.4; upper_bound := 1.4 |})
    as [_ [_ [_ D]]].
  destruct (D ltac:(simpl; lra) ltac:(simpl; lra)) as [_ [Hsdneg _]].
  clear D.
  repeat split.
  - apply Hlen; [lia|lra|discriminate| |vm_compute; discriminate].
    apply amounts_dec. vm_compute. reflexivity.
  - apply Hzero. reflexivity.
  - apply Hneg; [lia|lra].
  - apply Hempty; [lia|lra|reflexivity].
  - apply Hsdneg; simpl; [left|]; lra.
Defined.

Local Open Scope nat_scope.

Lemma nth_error_repeat_each {A} (l : list A) (k i : nat) :
  i < length l * k -> nth_error (repeat_each l k) i = nth_error l (i / k).
Proof.
  unfold repeat_each. revert i.
  induction l as [|x t IH]; intros i Hi; simpl in *; [lia|].
  assert (Hk : k <> 0) by lia.
  destruct (Nat.lt_ge_cases i k) as [Hlt|Hge].
  - rewrite nth_error_app1 by now rewrite repeat_length.
    rewrite Nat.div_small by exact Hlt. simpl.
    apply nth_error_repeat. exact Hlt.
  - rewrite nth_error_app2 by now rewrite repeat_length.
    rewrite repeat_length, IH by lia.
    replace (i / k) with (S ((i - k) / k)); [reflexivity|].
    replace i with ((i - k) + 1 * k) at 2 by lia.
    rewrite Nat.div_add by exact Hk. lia.
Qed.

Lemma nth_error_tile {A} (a : list A) (n i : nat) :
  i < n * length a -> nth_error (tile a n) i = nth_error a (i mod length a).
Proof.
  revert i. induction n as [|n IH]; intros i Hi; simpl in *; [lia|].
  assert (Hk : length a <> 0) by lia.
  destruct (Nat.lt_ge_cases i (length a)) as [Hlt|Hge].
  - rewrite nth_error_app1 by exact Hlt. now rewrite Nat.mod_small.
  - rewrite nth_error_app2 by exact Hge. rewrite IH by lia.
    f_equal.
    replace i with ((i - length a) + 1 * length a) at 2 by lia.
    now rewrite Nat.Div0.mod_add.
Qed.

Lemma nth_error_arange (n j : nat) :
  j < n -> nth_error (arange n) j = Some (Z.of_nat j).
Proof.
  intros H. unfold arange. rewrite nth_error_map, nth_error_seq.
  destruct (Nat.ltb_spec j n); [reflexivity|lia].
Qed.

(** X16.  A frame returned by [sim_data] has the twelve columns [sub],
    [choice], [value], [risk], [ambiguity], [riskTol], [ambTol], [level],
    [l1]..[l4], is well formed and has 84 rows per subject.  Row i belongs
    to subject i / 84: the returned index holds i / 84 there and [sub]
    holds i / 84 + 1; and the row shows trial i mod 84 of the table of
    choices. *)
Theorem simulated_frame_layout (db : list trial) (g : rng) (n_subs : nat)
  (noise : R) (o : options) (simdata : dataframe) (idx : list Z) :
  sim_data db g n_subs noise o = ok (simdata, idx) ->
  columns simdata =
  [ "sub"; "choice"; "value"; "risk"; "ambiguity"; "riskTol"; "ambTol";
    "level"; "l1"; "l2"; "l3"; "l4" ]%string /\
  wf simdata /\ nrows simdata = 84 * n_subs /\ length idx = 84 * n_subs /\
  exists sub value risk ambiguity,
    getitem simdata "sub" = ok (map Int sub) /\
    getitem simdata "value" = ok (map Int value) /\
    getitem simdata "risk" = ok (map Float risk) /\
    getitem simdata "ambiguity" = ok (map Float ambiguity) /\
    forall i,
      i < 84 * n_subs ->
      nth_error idx i = Some (Z.of_nat (i / 84)) /\
      nth_error sub i = Some (Z.of_nat (i / 84) + 1)%Z /\
      nth_error value i = option_map Simulation.value (nth_error db (i mod 84)) /\
      nth_error risk i = option_map Simulation.risk (nth_error db (i mod 84)) /\
      nth_error ambiguity i =
      option_map Simulation.ambiguity (nth_error db (i mod 84)).
Proof.
  intros H.
  apply sim_data_inv in H as [x [Hx [-> [Hdb [Hlen ->]]]]].
  pose proof (sim_arrays_domain _ _ _ _ _ _ Hx) as [_ [_ [_ [_ [Hn _]]]]].
  pose proof (sim_arrays_inv _ _ _ _ _ _ Hx)
    as [[_ [Hc [Hv [Hr [Ham [Hrt [Hat [HID Hidx]]]]]]]] _].
  pose proof (sim_arrays_fields _ _ _ _ _ _ Hx)
    as [Hvd [Hrd [Had [_ [_ [_ [HIDdef _]]]]]]].
  rewrite Hdb in *.
  split; [reflexivity|]. split.
  { unfold wf. cbn [nrows]. rewrite !length_map.
    repeat constructor; cbn [snd]; unfold rank_dense;
      rewrite ?length_map; lia. }
  split; [cbn [nrows]; rewrite length_map; lia|].
  split.
  { rewrite Hidx, repeat_each_length. unfold arange.
    rewrite length_map, length_seq. lia. }
  exists (ID x), (values_ x), (risks x), (ambiguities x).
  repeat (split; [reflexivity|]).
  intros i Hi.
  assert (Hq : i / 84 < n_subs) by (apply Nat.Div0.div_lt_upper_bound; lia).
  assert (Hi' : nth_error (sub_idx x) i = Some (Z.of_nat (i / 84))).
  { rewrite Hidx, nth_error_repeat_each.
    - now apply nth_error_arange.
    - unfold arange. rewrite length_map, length_seq. lia. }
  split; [exact Hi'|]. split.
  { rewrite HIDdef, nth_error_map, Hi'. reflexivity. }
  rewrite Hvd, Hrd, Had.
  rewrite !nth_error_tile by (rewrite length_map; lia).
  rewrite !length_map, Hdb, !nth_error_map. auto.
Qed.

Lemma simulated_frame_layout_witness :
  exists simdata idx,
    sim_data Samples.sim_csv Samples.fixed_rng 2 0.3 defaults
    = ok (simdata, idx) /\
    nrows simdata = 84 * 2 /\ length idx = 84 * 2 /\ wf simdata.
Proof.
  destruct sample_simulation as [simdata [idx H]].
  exists simdata, idx. split; [exact H|].
  destruct (simulated_frame_layout _ _ _ _ _ _ _ H) as [_ [Hwf [Hn [Hi _]]]].
  auto.
Defined.

End SimulatedFrame.

(** ** Levels *)

Section LevelFacts.
Import Pandas Numpy PyMC Models Simulation.

(** X17.  In a frame returned by [sim_data] the level of a row is the
    dense rank of its value: it lies between 1 and the number of distinct
    values, two rows have the same level exactly when they have the same
    value, and a larger value has a larger level.  The indicator [l1] is 1
    on every row. *)
Theorem level_is_rank_of_value (db : list trial) (g : rng) (n_subs : nat)
  (noise : R) (o : options) (simdata : dataframe) (idx : list Z) :
  sim_data db g n_subs noise o = ok (simdata, idx) ->
  exists value level l1 : list Z,
    getitem simdata "value" = ok (map Int value) /\
    getitem simdata "level" = ok (map Int level) /\
    getitem simdata "l1" = ok (map Int l1) /\
    Forall (fun b => b = 1) l1 /\
    forall i vi li,
      nth_error value i = Some vi -> nth_error level i = Some li ->
      1 <= li <= Z.of_nat (nunique value) /\
      forall j vj lj,
        nth_error value j = Some vj -> nth_error level j = Some lj ->
        (li = lj <-> vi = vj) /\ (li < lj <-> vi < vj).
Proof.
  intros H.
  apply sim_data_inv in H as [x [Hx [_ [_ [Hlen ->]]]]].
  exists (values_ x), (rank_dense (values_ x)),
    (map (fun lv => Z.b2z (0 <? lv)) (rank_dense (values_ x))).
  rewrite !map_map.
  repeat (split; [reflexivity|]).
  split.
  - apply Forall_forall. intros b Hb. unfold rank_dense in Hb.
    rewrite map_map in Hb. apply in_map_iff in Hb as [v [<- Hv]].
    pose proof (rank_of_range (values_ x) v Hv).
    destruct (Z.ltb_spec 0 (rank_of (values_ x) v)); [reflexivity|lia].
  - intros i vi li Hvi Hli. unfold rank_dense in *.
    rewrite nth_error_map, Hvi in Hli. simpl in Hli. inversion Hli; subst li.
    pose proof (nth_error_In _ _ Hvi) as Hini.
    split; [now apply rank_of_range|].
    intros j vj lj Hvj Hlj.
    rewrite nth_error_map, Hvj in Hlj. simpl in Hlj. inversion Hlj; subst lj.
    pose proof (nth_error_In _ _ Hvj) as Hinj.
    split; [now apply rank_of_eq|now apply rank_of_lt].
Qed.

Lemma level_is_rank_of_value_witness :
  exists simdata idx (value level l1 : list Z),
    sim_data Samples.sim_csv Samples.fixed_rng 2 0.3 defaults
    = ok (simdata, idx) /\
    getitem simdata "value" = ok (map Int value) /\
    getitem simdata "level" = ok (map Int level) /\
    getitem simdata "l1" = ok (map Int l1) /\
    Forall (fun b => b = 1) l1.
Proof.
  destruct sample_simulation as [simdata [idx H]].
  destruct (level_is_rank_of_value _ _ _ _ _ _ _ H)
    as [value [level [l1 [Hv [Hl [H1 [HF _]]]]]]].
  exists simdata, idx, value, level, l1. auto.
Defined.

Local Open Scope R_scope.



End LevelFacts.

(** ** The rows of the simulation grid *)

Section GridRows.
Import Pandas PyMC Simulation.

Variable db : list trial.
Variables trace comparison : Type.
Variable rng_at : nat -> rng.
Variable sample_utility_at : nat -> model -> result trace.
Variable sample_estimate_at : nat -> model -> result trace.
Variable compare_at : nat -> trace -> trace -> result comparison.

Local Abbreviation attempt :=
  (Simulation.attempt db trace comparison rng_at sample_utility_at
     sample_estimate_at compare_at).
Local Abbreviation run_grid :=
  (Simulation.run_grid db trace comparison rng_at sample_utility_at
     sample_estimate_at compare_at).
Local Abbreviation grid_loop :=
  (Simulation.grid_loop db trace comparison rng_at sample_utility_at
     sample_estimate_at compare_at).
Local Abbreviation rows_of :=
  (Simulation.rows_of db trace comparison rng_at sample_utility_at
     sample_estimate_at compare_at).
Local Abbreviation succeeds :=
  (Simulation.succeeds db trace comparison rng_at sample_utility_at
     sample_estimate_at compare_at).

Lemma attempt_row (k : nat) (SIM : config) (new_row : row comparison) :
  attempt k SIM = inr new_row ->
  row_N _ new_row = fst SIM /\ row_noise _ new_row = snd SIM.
Proof.
  unfold Simulation.attempt.
  destruct (sim_data _ _ _ _ _) as [e|[sim sim_idx]]; [discriminate|].
  destruct (Models.Utility _ _ _ _ _) as [sim' [e|u]]; [discriminate|].
  destruct (Models.estimate_value _ _ _ _ _) as [sim'' [e|es]]; [discriminate|].
  destruct (compare_at k u es) as [e|comp]; [discriminate|].
  intros H. unfold ok in H. inversion H. auto.
Qed.

(** X21.  The rows of the results table record, in the order of the list,
    the N and the noise of the configurations whose pass went through; the
    table never has more rows than the list has configurations, and one
    ["Simulating"] line is printed per configuration. *)
Theorem results_record_their_configuration (test : list config) :
  map (fun r => (row_N _ r, row_noise _ r)) (results _ (run_grid test)) =
  map snd (filter succeeds (numbered 0 test)) /\
  (length (results _ (run_grid test)) <= length test)%nat /\
  length (filter (fun m => match m with Simulating _ _ => true | _ => false end)
            (printed _ (run_grid test))) = length test.
Proof.
  destruct (grid_loop_spec db trace comparison rng_at sample_utility_at
              sample_estimate_at compare_at test 0
              {| results := []; printed := [] |}) as [Hr Hp].
  cbn [results printed app] in Hr, Hp.
  unfold Simulation.run_grid. rewrite Hr, Hp.
  assert (Hlen : length (numbered 0 test) = length test).
  { unfold numbered. rewrite length_combine, length_seq. lia. }
  rewrite <- Hlen. clear Hr Hp Hlen.
  induction (numbered 0 test) as [|p l [IH1 [IH2 IH3]]]; [auto|].
  cbn [flat_map filter].
  rewrite map_app, length_app, filter_app, length_app, IH1, IH3.
  set (rows := flat_map rows_of l) in *.
  set (good := filter succeeds l) in *.
  unfold Simulation.rows_of, Simulation.succeeds, Simulation.messages_of.
  destruct (Simulation.attempt _ _ _ _ _ _ _ (fst p) (snd p))
    as [e|new_row] eqn:E; cbn [map app length filter]; repeat split;
    try lia; try reflexivity.
  apply attempt_row in E as [-> ->]. f_equal. now destruct (snd p).
Qed.

End GridRows.

(** ** Reading the trials *)

Section TrialFacts.
Import Pandas ExportSubData.

Lemma mapM_ext_in {A B} (f g : A -> result B) (l : list A) :
  (forall a, In a l -> f a = g a) -> mapM f l = mapM g l.
Proof.
  induction l as [|a t IH]; intros H; simpl; [reflexivity|].
  rewrite (H a) by (simpl; auto). rewrite IH; [reflexivity|].
  intros b Hb. apply H. simpl. auto.
Qed.

Lemma mapM_returns_in {A B} (f : A -> result B) (l : list A) (bs : list B) :
  mapM f l = ok bs -> forall a, In a l -> exists b, f a = ok b.
Proof.
  revert bs. induction l as [|a t IH]; simpl; intros bs H x Hx; [contradiction|].
  destruct (f a) as [e|b] eqn:E; simpl in H; [discriminate|].
  destruct (mapM f t) as [e|bs'] eqn:E'; simpl in H; [discriminate|].
  destruct Hx as [<-|Hx]; [eauto|]. eapply IH; eauto.
Qed.

Lemma mapM_raises_one {A B} (f : A -> result B) (l : list A) (e0 : exn) :
  (forall a e, f a = inl e -> e = e0) ->
  forall e, mapM f l = inl e -> e = e0.
Proof.
  intros Hf. induction l as [|a t IH]; simpl; intros e H; [discriminate|].
  destruct (f a) as [e'|b] eqn:E; simpl in H.
  - inversion H; subst. eapply Hf; eauto.
  - destruct (mapM f t) as [e'|bs]; simpl in H; [|discriminate].
    inversion H; subst. now apply IH.
Qed.

Lemma index_raises {A} (l : list A) (i : nat) (e : exn) :
  index l i = inl e -> e = IndexError.
Proof.
  unfold index. destruct (nth_error l i); intros H; [discriminate|].
  now inversion H.
Qed.

Lemma read_trial_raises (L : labels) (mat : mat_struct) (ji : nat * nat)
  (e : exn) :
  read_trial L mat ji = inl e -> e = IndexError.
Proof.
  unfold read_trial. destruct ji as [j i].
  repeat match goal with
    | |- context [if ?b then _ else _] => destruct b
    | |- context [index ?l ?n] =>
        let E := fresh "E" in
        destruct (index l n) eqn:E; cbn [rbind];
        [intros H; inversion H; subst; eapply index_raises; eauto|]
    end; unfold ok; discriminate.
Qed.

Lemma index_firstn {A} (l : list A) (n i : nat) :
  (i < n)%nat -> index (firstn n l) i = index l i.
Proof.
  intros H. unfold index. rewrite nth_error_firstn.
  destruct (Nat.ltb_spec i n); [reflexivity|lia].
Qed.

Lemma read_trial_visited (L : labels) (mat : mat_struct) (j i : nat) :
  (j < 4)%nat -> (i < 21)%nat ->
  read_trial L (visited mat) (j, i) = read_trial L mat (j, i).
Proof.
  intros Hj Hi. unfold read_trial, visited. cbn [trials].
  assert (Hb : index (map (firstn 21) (firstn 4 (trials mat))) j =
               rbind (index (trials mat) j) (fun b => ok (firstn 21 b))).
  { unfold index. rewrite nth_error_map, nth_error_firstn.
    destruct (Nat.ltb_spec j 4); [|lia].
    destruct (nth_error (trials mat) j); reflexivity. }
  rewrite Hb. destruct (index (trials mat) j) as [e|b]; cbn [rbind ok];
    [reflexivity|].
  now rewrite index_firstn.
Qed.

(** X22.  Reading the trials visits blocks 0 to 3 and trials 0 to 20 of
    each only: further blocks and trials are ignored.  It returns 84
    entries or raises [IndexError], never another exception; it raises when
    there are fewer than four blocks or when one of the first four blocks
    has fewer than 21 trials. *)
Theorem read_trials_visits_four_blocks_of_21 (L : labels) (mat : mat_struct) :
  read_trials L (visited mat) = read_trials L mat /\
  ((exists cv, read_trials L mat = ok cv /\ length cv = 84%nat) \/
   read_trials L mat = raise IndexError) /\
  ((length (trials mat) < 4)%nat -> read_trials L mat = raise IndexError) /\
  (forall j b, (j < 4)%nat -> nth_error (trials mat) j = Some b ->
               (length b < 21)%nat -> read_trials L mat = raise IndexError).
Proof.
  assert (Hcases : (exists cv, read_trials L mat = ok cv /\ length cv = 84%nat) \/
                   read_trials L mat = raise IndexError).
  { destruct (read_trials L mat) as [e|cv] eqn:E.
    - right. unfold read_trials in E.
      assert (e = IndexError) as ->; [|reflexivity].
      eapply mapM_raises_one; [|exact E].
      intros a e'. apply read_trial_raises.
    - left. exists cv. split; [reflexivity|]. eapply read_trials_length; eauto. }
  assert (Hin : forall j i, (j < 4)%nat -> (i < 21)%nat ->
                            In (j, i) (list_prod (seq 0 4) (seq 0 21))).
  { intros j i Hj Hi. apply in_prod; apply in_seq; lia. }
  split; [|split; [exact Hcases|split]].
  - unfold read_trials. apply mapM_ext_in. intros [j i] Hji.
    apply in_prod_iff in Hji as [Hj Hi]. apply in_seq in Hj, Hi.
    apply read_trial_visited; lia.
  - intros Hlen. destruct Hcases as [[cv [Hcv _]]|H]; [|exact H].
    exfalso. unfold read_trials in Hcv.
    destruct (mapM_returns_in _ _ _ Hcv (3, 0)%nat) as [b Hb];
      [apply Hin; lia|].
    unfold read_trial, index in Hb.
    destruct (nth_error (trials mat) 3) eqn:E; [|discriminate].
    assert (3 < length (trials mat))%nat by (apply nth_error_Some; congruence).
    lia.
  - intros j b Hj Hb Hlen. destruct Hcases as [[cv [Hcv _]]|H]; [|exact H].
    exfalso. unfold read_trials in Hcv.
    destruct (mapM_returns_in _ _ _ Hcv (j, 20)%nat) as [r Hr];
      [apply Hin; lia|].
    unfold read_trial, index in Hr. rewrite Hb in Hr. cbn [rbind ok] in Hr.
    destruct (nth_error b 20) eqn:E; [|discriminate].
    assert (20 < length b)%nat by (apply nth_error_Some; congruence).
    lia.
Qed.

Lemma read_trials_visits_four_blocks_of_21_witness :
  read_trials medical
    {| vals := []; risk := []; ambiguity := [];
       trials := Samples.short_trials "a" "b" "no effect" "c"; rt := [] |}
  = raise IndexError.
Proof.
  apply (proj2 (proj2 (proj2 (read_trials_visits_four_blocks_of_21 medical _)))
           3%nat (removelast (Samples.block "a" "b" "no effect" "c" "a" "a" "a")));
    [lia|reflexivity|vm_compute; lia].
Defined.

End TrialFacts.

(** ** The order of the exported rows *)

Section RowOrder.
Import Pandas ExportSubData.

Lemma lookup_named (f : string -> column) (names : list string) (n : string) :
  In n names -> lookup (map (fun n => (n, f n)) names) n = Some (f n).
Proof.
  induction names as [|m t IH]; simpl; intros H; [contradiction|].
  destruct (String.eqb_spec m n); [now subst|].
  destruct H as [H|H]; [contradiction|auto].
Qed.

Lemma concat_column (df1 df2 : dataframe) (name : string) :
  In name (columns df2) ->
  column_or_nan (concat df1 df2) name =
  column_or_nan df1 name ++ column_or_nan df2 name.
Proof.
  intros H. unfold column_or_nan at 1. unfold concat.
  rewrite lookup_named; [reflexivity|].
  apply in_or_app.
  destruct (mem name (columns df1)) eqn:E.
  - left. unfold mem in E. apply existsb_exists in E as [m [Hm Heq]].
    apply String.eqb_eq in Heq. now subst m.
  - right. apply filter_In. split; [exact H|]. now rewrite E.
Qed.

Lemma table_sub_column (L : labels) (mat : mat_struct) (sub : string)
  (cv : list (string * string)) (db : dataframe) (out : list line) :
  read_trials L mat = ok cv ->
  subject_table L mat sub cv = ok (db, out) ->
  wf db /\ columns db = extracted_columns /\
  column_or_nan db "sub" = repeat (Str sub) 84.
Proof.
  intros Hr Ht.
  pose proof (subject_table_columns _ _ _ _ _ _ Ht) as Hc.
  apply subject_table_shape in Ht as [Hwf [_ [Hs _]]].
  rewrite (read_trials_length _ _ _ Hr) in Hs.
  repeat split; auto.
  unfold column_or_nan. unfold getitem in Hs.
  destruct (lookup db "sub"); [|discriminate]. now inversion Hs.
Qed.

Lemma monetary_loop_subs (files : list mat_file) :
  forall st st',
    monetary_loop files st = (st', Finished) ->
    exists subs,
      mapM (fun f => subject_of (mat_fname f)) files = ok subs /\
      column_or_nan (df st') "sub" =
      column_or_nan (df st) "sub" ++ sub_rows subs.
Proof.
  induction files as [|f rest IH]; intros st st' H.
  - simpl in H. inversion H; subst. exists []. simpl.
    now rewrite app_nil_r.
  - cbn [monetary_loop] in H.
    destruct (monetary_body f) as [e|[db out]] eqn:E; [discriminate|].
    apply monetary_body_parts in E as [mat [sub [cv [_ [Hs [Hr Ht]]]]]].
    destruct (table_sub_column _ _ _ _ _ _ Hr Ht) as [_ [Hc Hsub]].
    apply IH in H as [subs [Hsubs Hcol]]. cbn [df] in Hcol.
    exists (sub :: subs). cbn [mapM]. rewrite Hs, Hsubs. cbn [rbind ok].
    split; [reflexivity|].
    rewrite Hcol, concat_column, Hsub by (rewrite Hc; simpl; tauto).
    unfold sub_rows. cbn [flat_map]. now rewrite app_assoc.
Qed.

Lemma medical_loop_subs (files : list mat_file) :
  forall st st',
    medical_loop files st = (st', Finished) ->
    exists subs,
      mapM (fun f => subject_of (mat_fname f)) (filter kept files) = ok subs /\
      column_or_nan (df st') "sub" =
      column_or_nan (df st) "sub" ++ sub_rows subs.
Proof.
  induction files as [|f rest IH]; intros st st' H.
  - simpl in H. inversion H; subst. exists []. simpl.
    now rewrite app_nil_r.
  - cbn [medical_loop filter] in *. unfold kept at 1.
    destruct (medical_body f) as [out|db out|e] eqn:E; [| |discriminate].
    + apply IH in H as [subs [Hsubs Hcol]]. cbn [df] in Hcol. eauto.
    + apply medical_body_parts in E as [mat [sub [cv [_ [Hs [Hr Ht]]]]]].
      destruct (table_sub_column _ _ _ _ _ _ Hr Ht) as [_ [Hc Hsub]].
      apply IH in H as [subs [Hsubs Hcol]]. cbn [df] in Hcol.
      exists (sub :: subs). cbn [mapM]. rewrite Hs, Hsubs. cbn [rbind ok].
      split; [reflexivity|].
      rewrite Hcol, concat_column, Hsub by (rewrite Hc; simpl; tauto).
      unfold sub_rows. cbn [flat_map]. now rewrite app_assoc.
Qed.

(** X23.  When a loop runs to its end, the rows of the exported frame are
    the tables of the files in the order of the list: the [sub] column is,
    file after file, the subject string of the file repeated 84 times; the
    medical loop leaves out the files it skipped. *)
Theorem exported_rows_follow_file_order :
  (forall files st',
      monetary_loop files start = (st', Finished) ->
      exists subs,
        mapM (fun f => subject_of (mat_fname f)) files = ok subs /\
        column_or_nan (df st') "sub" = sub_rows subs)
  /\
  (forall files st',
      medical_loop files start = (st', Finished) ->
      exists subs,
        mapM (fun f => subject_of (mat_fname f)) (filter kept files) = ok subs /\
        column_or_nan (df st') "sub" = sub_rows subs).
Proof.
  split; intros files st' H.
  - apply monetary_loop_subs in H as [subs [H1 H2]]. exists subs. auto.
  - apply medical_loop_subs in H as [subs [H1 H2]]. exists subs. auto.
Qed.

Lemma exported_rows_follow_file_order_witness :
  exists st',
    medical_loop [Samples.med_file; Samples.med_short; Samples.med_file'] start
    = (st', Finished) /\
    column_or_nan (df st') "sub" = sub_rows ["12"; "31"].
Proof.
  destruct (medical_loop
              [Samples.med_file; Samples.med_short; Samples.med_file'] start)
    as [st' oc] eqn:E.
  assert (oc = Finished).
  { apply (f_equal snd) in E. vm_compute in E. now subst oc. }
  subst oc. exists st'. split; [reflexivity|].
  destruct (proj2 exported_rows_follow_file_order _ _ E) as [subs [H1 H2]].
  rewrite H2. f_equal.
  vm_compute in H1. now inversion H1.
Defined.

End RowOrder.

(** ** The simulated attitudes *)

Section AttitudeFacts.
Import Pandas Numpy PyMC Simulation.

Local Open Scope nat_scope.

Lemma nth_error_map2 {A B C} (f : A -> B -> C) (l1 : list A) (l2 : list B)
  (i : nat) (a : A) (b : B) :
  nth_error l1 i = Some a -> nth_error l2 i = Some b ->
  nth_error (map2 f l1 l2) i = Some (f a b).
Proof.
  revert l2 i. induction l1 as [|x t IH]; intros [|y t2] [|i]; simpl;
    try discriminate.
  - intros H1 H2. inversion H1; inversion H2. reflexivity.
  - apply IH.
Qed.

Lemma nth_error_normal (z : nat -> R) (loc scale : R) (size i : nat) :
  i < size ->
  nth_error (normal z loc scale size) i = Some (loc + scale * z i)%R.
Proof.
  intros H. unfold normal. rewrite nth_error_map, nth_error_seq.
  destruct (Nat.ltb_spec i size); [reflexivity|lia].
Qed.

Lemma nth_error_draws (f : nat -> R) (h : R -> R) (n j : nat) :
  j < n -> nth_error (map h (map f (seq 0 n))) j = Some (h (f j)).
Proof.
  intros H. rewrite !nth_error_map, nth_error_seq.
  destruct (Nat.ltb_spec j n); [reflexivity|lia].
Qed.

(** X24.  In a frame returned by [sim_data], the risk attitude of row i is
    twice the beta variate of subject i / 84 plus the noise times the i-th
    normal variate, clipped to [0.1, 1.6]; the ambiguity attitude is the
    truncated-normal variate of the subject plus the noise times the i-th
    normal variate of the second call, clipped to [-1.4, 1.4].  With zero
    noise the 84 rows of a subject share one risk and one ambiguity
    attitude. *)
Theorem attitudes_are_subject_draw_plus_noise (db : list trial) (g : rng)
  (n_subs : nat) (noise : R) (o : options) (simdata : dataframe)
  (idx : list Z) :
  sim_data db g n_subs noise o = ok (simdata, idx) ->
  exists riskTol ambTol : list R,
    getitem simdata "riskTol" = ok (map Float riskTol) /\
    getitem simdata "ambTol" = ok (map Float ambTol) /\
    (forall i,
        i < 84 * n_subs ->
        nth_error riskTol i =
        Some (clip (beta g (a_a o) (a_b o) (i / 84) * 2 +
                    (0 + noise * normal_a g i)) 0.1 1.6)%R /\
        nth_error ambTol i =
        Some (clip (truncnorm g ((lower_bound o - b_mean o) / b_sd o)
                      ((upper_bound o - b_mean o) / b_sd o)
                      (b_mean o) (b_sd o) (i / 84) +
                    (0 + noise * normal_b g i)) (-1.4) 1.4)%R) /\
    (noise = 0%R ->
     forall i j,
       i < 84 * n_subs -> j < 84 * n_subs -> i / 84 = j / 84 ->
       nth_error riskTol i = nth_error riskTol j /\
       nth_error ambTol i = nth_error ambTol j).
Proof.
  intros H.
  apply sim_data_inv in H as [x [Hx [_ [Hdb [_ ->]]]]].
  exists (riskTol x), (ambTol x).
  split; [reflexivity|]. split; [reflexivity|].
  assert (Hrows : forall i,
             i < 84 * n_subs ->
             nth_error (riskTol x) i =
             Some (clip (beta g (a_a o) (a_b o) (i / 84) * 2 +
                         (0 + noise * normal_a g i)) 0.1 1.6)%R /\
             nth_error (ambTol x) i =
             Some (clip (truncnorm g ((lower_bound o - b_mean o) / b_sd o)
                           ((upper_bound o - b_mean o) / b_sd o)
                           (b_mean o) (b_sd o) (i / 84) +
                         (0 + noise * normal_b g i)) (-1.4) 1.4)%R).
  { pose proof (sim_arrays_fields _ _ _ _ _ _ Hx)
      as [_ [_ [_ [Hrt [Hat _]]]]].
    cbv zeta in Hrt, Hat. rewrite Hrt, Hat, Hdb. intros i Hi.
    set (k := n_subs) in *.
    assert (Hq : i / 84 < k) by (apply Nat.Div0.div_lt_upper_bound; lia).
    rewrite !repeat_each_length, !length_map, !length_seq.
    split.
    - rewrite nth_error_map.
      erewrite nth_error_map2; [reflexivity| |].
      + rewrite nth_error_repeat_each
          by (rewrite !length_map, length_seq; lia).
        apply (nth_error_draws _ (fun v => (v * 2)%R)). exact Hq.
      + apply nth_error_normal. lia.
    - rewrite nth_error_map.
      erewrite nth_error_map2; [reflexivity| |].
      + rewrite nth_error_repeat_each
          by (rewrite !length_map, length_seq; lia).
        rewrite nth_error_map, nth_error_seq.
        destruct (Nat.ltb_spec (i / 84) k); [reflexivity|lia].
      + apply nth_error_normal. lia. }
  split; [exact Hrows|].
  intros -> i j Hi Hj Hij.
  destruct (Hrows i Hi) as [Hri Hai]. destruct (Hrows j Hj) as [Hrj Haj].
  rewrite Hri, Hai, Hrj, Haj, Hij.
  split; do 2 f_equal; ring.
Qed.

Lemma attitudes_are_subject_draw_plus_noise_witness :
  exists simdata idx (riskTol ambTol : list R),
    sim_data Samples.sim_csv Samples.fixed_rng 2 0 defaults
    = ok (simdata, idx) /\
    getitem simdata "riskTol" = ok (map Float riskTol) /\
    nth_error riskTol 3 = nth_error riskTol 80.
Proof.
  destruct (sim_data_returns Samples.sim_csv Samples.fixed_rng 2 0 defaults)
    as [simdata [idx H]]; try reflexivity; try lia;
    try (apply amounts_dec; vm_compute; reflexivity); simpl; try lra.
  destruct (attitudes_are_subject_draw_plus_noise _ _ _ _ _ _ _ H)
    as [riskTol [ambTol [Hr [Ha [_ Hzero]]]]].
  exists simdata, idx, riskTol, ambTol. split; [exact H|]. split; [exact Hr|].
  apply (Hzero eq_refl 3 80); [lia|lia|reflexivity].
Defined.

End AttitudeFacts.

(** ** The choice rule of the simulator and of the utility model *)

Section ChoiceRule.
Import Pandas Numpy PyMC Models Simulation.

Local Open Scope R_scope.





Local Open Scope nat_scope.





End ChoiceRule.
